(** * brother_ql_web: label context, print handlers and command-line overrides

    A shallow embedding of [brother_ql_web.py].  Python values that the
    program keeps dynamically typed are modelled by small inductive types,
    dictionaries by [gmap], exceptions by an explicit outcome type, and the
    handlers' effects (globals, logging, files, the printer transport) by a
    state-and-exception monad over a [world] that also logs events. *)

From Stdlib Require Import ZArith String Ascii List Bool Lia.
From Stdlib.Strings Require Import Byte.
From Stdlib Require Import PrimFloat FloatOps SpecFloat.
From stdpp Require Import gmap strings list sorting.

Local Open Scope Z_scope.
Local Open Scope string_scope.

(** ** Python values, truthiness and exceptions *)

(** The scalar values that occur in the configuration file and in the
    parsed command line; numbers are integers. *)
Inductive pyval : Type :=
| PyNone
| PyBool (b : bool)
| PyInt (z : Z)
| PyStr (s : string).

(** [bool(v)]: what an [if v:] test sees. *)
Definition truthy (v : pyval) : bool :=
  match v with
  | PyNone => false
  | PyBool b => b
  | PyInt z => negb (z =? 0)%Z
  | PyStr s => negb (String.eqb s "")
  end.

(** [v == n] for an integer literal [n] ([True == 1] and [False == 0]). *)
Definition py_eq_int (v : pyval) (n : Z) : bool :=
  match v with
  | PyInt z => (z =? n)%Z
  | PyBool b => ((if b then 1 else 0) =? n)%Z
  | _ => false
  end.

(** Truthiness of a form value: [None] or a [str]. *)
Definition truthy_opt (o : option string) : bool :=
  match o with
  | Some s => negb (String.eqb s "")
  | None => false
  end.

(** Exception classes.  [KeyboardInterrupt] and [SystemExit] derive from
    [BaseException] only; every other class derives from [Exception];
    [KeyError] derives from [LookupError]. *)
Inductive exn_class : Type :=
| KeyError
| LookupError
| AttributeError
| TypeError
| ValueError
| OverflowError
| UnboundLocalError
| HTTPResponse
| OtherException (name : string)
| KeyboardInterrupt
| SystemExit.

(** An exception object: its class and what [str(e)] returns. *)
Record exn : Type := mkExn { exn_type : exn_class; exn_str : string }.

(** [isinstance(e, LookupError)] *)
Definition is_LookupError (e : exn) : bool :=
  match exn_type e with
  | KeyError | LookupError => true
  | _ => false
  end.

(** [isinstance(e, KeyError)] *)
Definition is_KeyError (e : exn) : bool :=
  match exn_type e with
  | KeyError => true
  | _ => false
  end.

(** [isinstance(e, Exception)] *)
Definition is_Exception (e : exn) : bool :=
  match exn_type e with
  | KeyboardInterrupt | SystemExit => false
  | _ => true
  end.

(** Result of a computation that may raise. *)
Inductive outcome (A : Type) : Type :=
| Ret (a : A)
| Raise (e : exn).
Arguments Ret {A} a.
Arguments Raise {A} e.

#[global] Instance outcome_ret : MRet outcome := fun A a => Ret a.
#[global] Instance outcome_bind : MBind outcome := fun A B k m =>
  match m with
  | Ret a => k a
  | Raise e => Raise e
  end.

(** ** Strings *)

(** The ASCII characters removed by [str.strip()]: tab, LF, VT, FF, CR,
    FS, GS, RS, US and space. *)
Definition py_isspace (a : ascii) : bool :=
  let n := N_of_ascii a in
  ((9 <=? n)%N && (n <=? 13)%N) || ((28 <=? n)%N && (n <=? 32)%N).

(** Remove the trailing characters that satisfy [p]. *)
Fixpoint rstrip_chars (p : ascii -> bool) (s : string) : string :=
  match s with
  | EmptyString => EmptyString
  | String a s' =>
      match rstrip_chars p s' with
      | EmptyString => if p a then EmptyString else String a EmptyString
      | r => String a r
      end
  end.

(** The white space characters beyond ASCII that [str.strip()] removes.
    Strings hold the UTF-8 encoding of the text: U+0085 and U+00A0 take
    two bytes; U+1680, U+2000 to U+200A, U+2028, U+2029, U+202F, U+205F
    and U+3000 take three. *)
Definition py_isspace2 (a b : ascii) : bool :=
  let a := N_of_ascii a in
  let b := N_of_ascii b in
  ((a =? 194) && ((b =? 133) || (b =? 160)))%N.

Definition py_isspace3 (a b c : ascii) : bool :=
  let a := N_of_ascii a in
  let b := N_of_ascii b in
  let c := N_of_ascii c in
  (((a =? 225) && (b =? 154) && (c =? 128))
   || ((a =? 226) && (b =? 128)
       && (((128 <=? c) && (c <=? 138)) || (c =? 168) || (c =? 169) || (c =? 175)))
   || ((a =? 226) && (b =? 129) && (c =? 159))
   || ((a =? 227) && (b =? 128) && (c =? 128)))%N.

(** Remove leading characters of one, two or three bytes. *)
Fixpoint lstrip_spaces (sp1 : ascii -> bool) (sp2 : ascii -> ascii -> bool)
    (sp3 : ascii -> ascii -> ascii -> bool) (s : string) : string :=
  match s with
  | EmptyString => EmptyString
  | String a s1 =>
      if sp1 a then lstrip_spaces sp1 sp2 sp3 s1
      else
        match s1 with
        | EmptyString => s
        | String b s2 =>
            if sp2 a b then lstrip_spaces sp1 sp2 sp3 s2
            else
              match s2 with
              | EmptyString => s
              | String c s3 =>
                  if sp3 a b c then lstrip_spaces sp1 sp2 sp3 s3 else s
              end
        end
  end.

Fixpoint string_rev (s : string) : string :=
  match s with
  | EmptyString => EmptyString
  | String a s' => string_rev s' +:+ String a EmptyString
  end.

(** [s.lstrip()], and [s.rstrip()], which strips the reversed string of
    the reversed characters. *)
Definition py_lstrip (s : string) : string :=
  lstrip_spaces py_isspace py_isspace2 py_isspace3 s.

Definition py_rstrip (s : string) : string :=
  string_rev
    (lstrip_spaces py_isspace (fun b a => py_isspace2 a b)
       (fun c b a => py_isspace3 a b c) (string_rev s)).

(** [s.strip()] *)
Definition py_strip (s : string) : string := py_rstrip (py_lstrip s).

(** [s.rstrip(")")] *)
Definition py_rstrip_char (c : ascii) (s : string) : string :=
  rstrip_chars (Ascii.eqb c) s.

(** Split at the last occurrence of [c]: the text before it and after it. *)
Fixpoint rsplit_last (c : ascii) (s : string) : option (string * string) :=
  match s with
  | EmptyString => None
  | String a s' =>
      match rsplit_last c s' with
      | Some (h, t) => Some (String a h, t)
      | None => if Ascii.eqb a c then Some (EmptyString, s') else None
      end
  end.

(** [s.rpartition(c)]: [(head, c, tail)], or [("", "", s)] when [c] does
    not occur. *)
Definition py_rpartition (c : ascii) (s : string) : string * string * string :=
  match rsplit_last c s with
  | Some (h, t) => (h, String c EmptyString, t)
  | None => (EmptyString, EmptyString, s)
  end.

(** [needle in s] *)
Fixpoint py_contains (needle s : string) : bool :=
  String.prefix needle s ||
  match s with
  | EmptyString => false
  | String _ s' => py_contains needle s'
  end.

(** Split at the first occurrence of [c]. *)
Fixpoint split_first (c : ascii) (s : string) : option (string * string) :=
  match s with
  | EmptyString => None
  | String a s' =>
      if Ascii.eqb a c then Some (EmptyString, s')
      else match split_first c s' with
           | Some (h, t) => Some (String a h, t)
           | None => None
           end
  end.

(** [s.partition(c)] *)
Definition py_partition (c : ascii) (s : string) : string * string * string :=
  match split_first c s with
  | Some (h, t) => (h, String c EmptyString, t)
  | None => (s, EmptyString, EmptyString)
  end.

(** [s.split(c)] for a one-character separator. *)
Fixpoint py_split (c : ascii) (s : string) : list string :=
  match s with
  | EmptyString => [EmptyString]
  | String a s' =>
      if Ascii.eqb a c then EmptyString :: py_split c s'
      else match py_split c s' with
           | l :: ls => String a l :: ls
           | [] => [String a EmptyString]
           end
  end.

(** [sep.join(parts)] *)
Fixpoint py_join (sep : string) (parts : list string) : string :=
  match parts with
  | [] => EmptyString
  | [p] => p
  | p :: ps => p +:+ sep +:+ py_join sep ps
  end.

Definition LF : ascii := ascii_of_nat 10.

(** The replacement of empty lines in [create_label_im]:
    [if line == "": line = " "]. *)
Definition fill_empty_line (line : string) : string :=
  if String.eqb line "" then " " else line.

(** A line: a string without line feed. *)
Definition is_line (s : string) : Prop := py_split LF s = [s].

(** ** Floating point *)

(** [float(z)] for an integer: the nearest double, or [None] when the
    integer is too large ([OverflowError]). *)
Definition float_of_Z (z : Z) : option float :=
  let f := SF2Prim (binary_normalize 53 1024 z 0 false) in
  match Prim2SF f with
  | S754_infinity _ | S754_nan => None
  | _ => Some f
  end.

(** Why [int(f)] failed. *)
Inductive float_class_error : Type := FloatIsNaN | FloatIsInf.

(** [int(f)]: truncation towards zero. *)
Definition Z_of_float (f : float) : float_class_error + Z :=
  match Prim2SF f with
  | S754_zero _ => inr 0%Z
  | S754_finite s m e =>
      let a := match e with
               | Z0 => Zpos m
               | Zpos p => (Zpos m * 2 ^ Zpos p)%Z
               | Zneg p => (Zpos m / 2 ^ Zpos p)%Z
               end in
      inr (if s then (- a)%Z else a)
  | S754_infinity _ => inl FloatIsInf
  | S754_nan => inl FloatIsNaN
  end.

(** The factor [1.3] as the double Python reads it. *)
Definition line_factor : float := 0x1.4cccccccccccdp+0%float.

(** [int(n * f)] for an integer [n] and a float [f]. *)
Definition scale_margin (font_size : Z) (fraction : float) : outcome Z :=
  match float_of_Z font_size with
  | None => Raise (mkExn OverflowError "int too large to convert to float")
  | Some fs =>
      match Z_of_float (PrimFloat.mul fs fraction) with
      | inr z => Ret z
      | inl FloatIsNaN => Raise (mkExn ValueError "cannot convert float NaN to integer")
      | inl FloatIsInf => Raise (mkExn OverflowError "cannot convert float infinity to integer")
      end
  end.

(** ** Data model *)

(** The label kinds of the printer driver library that the program tests
    for; any other kind the library may define is [OTHER_LABEL_KIND]. *)
Inductive label_kind : Type :=
| ENDLESS_LABEL
| DIE_CUT_LABEL
| ROUND_DIE_CUT_LABEL
| OTHER_LABEL_KIND.

#[global] Instance label_kind_eq_dec : EqDecision label_kind.
Proof. solve_decision. Defined.

(** One entry of the driver's [label_type_specs] table (the fields the
    program reads). *)
Record label_spec : Type := mkLabelSpec {
  ls_name : string;
  ls_kind : label_kind;
  ls_dots_printable : Z * Z
}.

(** [CONFIG["LABEL"]["DEFAULT_FONTS"]]: a list of family/style pairs as
    loaded from the configuration file, one pair once [main] has selected
    it, or null. *)
Inductive default_fonts : Type :=
| DefaultFontList (fonts : list (string * string))
| DefaultFont (family style : string)
| DefaultFontNull.

Record label_config : Type := mkLabelConfig {
  DEFAULT_SIZE : pyval;
  DEFAULT_ORIENTATION : pyval;
  DEFAULT_FONTS : default_fonts
}.

Record server_config : Type := mkServerConfig {
  HOST : pyval;
  PORT : pyval;
  LOGLEVEL : pyval;
  ADDITIONAL_FONT_FOLDER : pyval
}.

Record printer_config : Type := mkPrinterConfig {
  MODEL : pyval;
  PRINTER : pyval
}.

(** The dictionary loaded from [config.json]. *)
Record config : Type := mkConfig {
  WEBSITE : pyval;
  LABEL : label_config;
  SERVER : server_config;
  PRINTER_SECTION : printer_config
}.

(** [FONTS]: family name, then style name, to the font file. *)
Notation fonts := (gmap string (gmap string string)).

(** Decoded form data: [d.get(k)] is [d !! k]. *)
Notation form := (gmap string string).

(** A request: the query string and the posted form.  [request.params]
    holds both, and [get] returns the posted value when a key is in both. *)
Record request : Type := mkRequest {
  query : form;
  forms : form
}.

Definition params (r : request) : form := forms r ∪ query r.

(** The label context built per request. *)
Record context : Type := mkContext {
  text : option string;
  font_size : Z;
  font_family : string;
  font_style : string;
  label_size : string;
  kind : label_kind;
  margin : Z;
  threshold : Z;
  align : string;
  orientation : string;
  margin_top : Z;
  margin_bottom : Z;
  margin_left : Z;
  margin_right : Z;
  grocycode : option string;
  product : option string;
  duedate : option string;
  battery : option string;
  chore : option string;
  fill_color : Z * Z * Z;
  font_path : string;
  width : Z;
  height : Z
}.

(** ** get_label_context *)

Section LabelContext.

(** The driver's table of label sizes. *)
Variable label_type_specs : gmap string label_spec.
(** Python's [int(s)], [float(s)] and [repr(s)] on a string. *)
Variable py_int : string -> option Z.
Variable py_float : string -> option float.
Variable py_repr : string -> string.

(** [table[key]] *)
Definition subscript {V : Type} (table : gmap string V) (key : string) : outcome V :=
  match table !! key with
  | Some v => Ret v
  | None => Raise (mkExn KeyError (py_repr key))
  end.

(** [int(d.get(k, dflt))] *)
Definition int_field (d : form) (k : string) (dflt : Z) : outcome Z :=
  match d !! k with
  | None => Ret dflt
  | Some s =>
      match py_int s with
      | Some z => Ret z
      | None => Raise (mkExn ValueError
                  ("invalid literal for int() with base 10: " +:+ py_repr s))
      end
  end.

(** [float(d.get(k, dflt)) / 100.0] *)
Definition percent_field (d : form) (k : string) (dflt : Z) : outcome float :=
  f ← match d !! k with
      | None =>
          match float_of_Z dflt with
          | Some f => Ret f
          | None => Raise (mkExn OverflowError "int too large to convert to float")
          end
      | Some s =>
          match py_float s with
          | Some f => Ret f
          | None => Raise (mkExn ValueError
                      ("could not convert string to float: " +:+ py_repr s))
          end
      end;
  Ret (PrimFloat.div f 100%float).

Definition get_font_path (CONFIG : config) (FONTS : fonts)
    (font_family_name font_style_name : option string) : outcome string :=
  names ← match font_family_name, font_style_name with
          | Some f, Some s => Ret (f, s)
          | _, _ =>
              match DEFAULT_FONTS (LABEL CONFIG) with
              | DefaultFont f s => Ret (f, s)
              | DefaultFontList _ =>
                  Raise (mkExn TypeError "list indices must be integers or slices, not str")
              | DefaultFontNull =>
                  Raise (mkExn TypeError "'NoneType' object is not subscriptable")
              end
          end;
  match FONTS !! names.1 with
  | Some styles =>
      match styles !! names.2 with
      | Some font_path => Ret font_path
      | None => Raise (mkExn LookupError "Couln't find the font & style")
      end
  | None => Raise (mkExn LookupError "Couln't find the font & style")
  end.

Definition get_label_dimensions (label_size : string) : outcome (Z * Z) :=
  match label_type_specs !! label_size with
  | Some ls => Ret (ls_dots_printable ls)
  | None => Raise (mkExn LookupError "Unknown label_size")
  end.

Definition get_label_context (CONFIG : config) (FONTS : fonts) (r : request)
    : outcome context :=
  let d := params r in
  ff ← match d !! "font_family" with
       | Some s => Ret s
       | None => Raise (mkExn AttributeError
                   "'NoneType' object has no attribute 'rpartition'")
       end;
  let font_family := py_strip (py_rpartition "(" ff).1.1 in
  let font_style := py_rstrip_char ")" (py_rpartition "(" ff).2 in
  font_size ← int_field d "font_size" 40;
  let label_size := default "50" (d !! "label_size") in
  spec ← subscript label_type_specs label_size;
  margin ← int_field d "margin" 10;
  threshold ← int_field d "threshold" 70;
  let align := default "center" (d !! "align") in
  let orientation := default "standard" (d !! "orientation") in
  margin_top ← percent_field d "margin_top" 25;
  margin_bottom ← percent_field d "margin_bottom" 25;
  margin_left ← percent_field d "margin_left" 25;
  margin_right ← percent_field d "margin_right" 25;
  margin_top ← scale_margin font_size margin_top;
  margin_bottom ← scale_margin font_size margin_bottom;
  margin_left ← scale_margin font_size margin_left;
  margin_right ← scale_margin font_size margin_right;
  let fill_color :=
    if py_contains "red" label_size then (255, 0, 0)%Z else (0, 0, 0)%Z in
  font_path ← get_font_path CONFIG FONTS (Some font_family) (Some font_style);
  '(width, height) ← get_label_dimensions label_size;
  let '(width, height) :=
    if (height >? width)%Z then (height, width) else (width, height) in
  let '(width, height) :=
    if String.eqb orientation "rotated" then (height, width) else (width, height) in
  Ret {| text := d !! "text";
         font_size := font_size;
         font_family := font_family;
         font_style := font_style;
         label_size := label_size;
         kind := ls_kind spec;
         margin := margin;
         threshold := threshold;
         align := align;
         orientation := orientation;
         margin_top := margin_top;
         margin_bottom := margin_bottom;
         margin_left := margin_left;
         margin_right := margin_right;
         grocycode := d !! "grocycode";
         product := d !! "product";
         duedate := d !! "due_date";
         battery := d !! "battery";
         chore := d !! "chore";
         fill_color := fill_color;
         font_path := font_path;
         width := width;
         height := height |}.

End LabelContext.

(** ** Images, the world and the handler monad *)

Notation bytes := (list byte).

(** A font loaded by [ImageFont.truetype(path, size)]. *)
Record font : Type := mkFont { font_file : string; font_px : Z }.

(** Images as the sequence of imaging calls that built them. *)
Inductive image : Type :=
| NewImage (mode : string) (size : Z * Z)
| FromBytes (mode : string) (size : Z * Z) (pixels : bytes)
| BarcodeImage (payload : string)
| TextDrawn (im : image) (offset : Z * Z) (txt : string) (fill : Z * Z * Z)
    (fnt : font) (align : option string)
| Pasted (im src : image) (box : Z * Z * Z * Z)
| Resized (im : image) (size : Z * Z)
| Transposed (im : image) (degrees : Z).

(** The [rotate] argument handed to the raster builder: [0], [90] or
    ["auto"]. *)
Inductive rotate_arg : Type := Rotate0 | Rotate90 | RotateAuto.

(** What a handler does to the outside world, in order. *)
Inductive event : Type :=
| LogWarning (msg : string)
| LogError (msg : string)
| SetHeader (name value : string)
| RasterCreate (model : pyval) (im : option image) (label_size : string)
    (red : bool) (threshold : Z) (cut : bool) (rotate : rotate_arg)
| BackendOpen (printer : pyval)
| BackendWrite (data : bytes)
| BackendDispose.

(** The transport class selected by [main]: constructor, [write] and
    [dispose]. *)
Record backend_class : Type := mkBackend {
  be_init : pyval -> outcome unit;
  be_write : bytes -> outcome unit;
  be_dispose : outcome unit
}.

(** The module-level globals. *)
Record globals : Type := mkGlobals {
  CONFIG : config;
  FONTS : fonts;
  LABEL_SIZES : list (string * string);
  DEBUG : bool;
  BACKEND_CLASS : backend_class
}.

Record world : Type := mkWorld {
  w_globals : globals;
  w_files : gmap string image
}.

(** The result of running a handler: its outcome, the world it leaves and
    the events it caused, oldest first. *)
Record run (A : Type) : Type := mkRun {
  result : outcome A;
  world_after : world;
  events : list event
}.
Arguments mkRun {A} result world_after events.
Arguments result {A} r.
Arguments world_after {A} r.
Arguments events {A} r.

(** Handlers: state over the world, with exceptions and an event log. *)
Definition M (A : Type) : Type := world -> run A.

#[global] Instance M_ret : MRet M := fun A a w => mkRun (Ret a) w [].
#[global] Instance M_bind : MBind M := fun A B k m w =>
  let r := m w in
  match result r with
  | Ret a =>
      let r' := k a (world_after r) in
      mkRun (result r') (world_after r') (events r ++ events r')
  | Raise e => mkRun (Raise e) (world_after r) (events r)
  end.

Definition raise {A : Type} (e : exn) : M A := fun w => mkRun (Raise e) w [].

Definition lift {A : Type} (o : outcome A) : M A := fun w => mkRun o w [].

Definition get_globals : M globals := fun w => mkRun (Ret (w_globals w)) w [].

Definition emit (ev : event) : M unit := fun w => mkRun (Ret tt) w [ev].

(** [im.save(path)] *)
Definition save_image (path : string) (im : image) : M unit := fun w =>
  mkRun (Ret tt) (mkWorld (w_globals w) (<[path := im]> (w_files w))) [].

(** [Image.open(path)] *)
Definition open_image (path : string) : M image := fun w =>
  match w_files w !! path with
  | Some im => mkRun (Ret im) w []
  | None => mkRun (Raise (mkExn (OtherException "FileNotFoundError") path)) w []
  end.

(** [try: body  except <class> as e: handler(e)] *)
Definition try_except {A : Type} (body : M A) (catches : exn -> bool)
    (handler : exn -> M A) : M A := fun w =>
  let r := body w in
  match result r with
  | Ret a => r
  | Raise e =>
      if catches e then
        let r' := handler e (world_after r) in
        mkRun (result r') (world_after r') (events r ++ events r')
      else r
  end.

Definition class_name (c : exn_class) : string :=
  match c with
  | KeyError => "KeyError"
  | LookupError => "LookupError"
  | AttributeError => "AttributeError"
  | TypeError => "TypeError"
  | ValueError => "ValueError"
  | OverflowError => "OverflowError"
  | UnboundLocalError => "UnboundLocalError"
  | HTTPResponse => "HTTPResponse"
  | OtherException name => name
  | KeyboardInterrupt => "KeyboardInterrupt"
  | SystemExit => "SystemExit"
  end.

(** [e.msg] on a [LookupError] or [KeyError] instance: these objects have
    no attribute [msg], so the access itself raises. *)
Definition exn_msg (e : exn) : outcome string :=
  Raise (mkExn AttributeError
    ("'" +:+ class_name (exn_type e) +:+ "' object has no attribute 'msg'")).

(** The dictionary a JSON endpoint returns. *)
Notation return_dict := (gmap string pyval).

(** What the label designer page hands to its template. *)
Record designer_view : Type := mkDesignerView {
  view_font_family_names : list string;
  view_fonts : fonts;
  view_label_sizes : list (string * string);
  view_website : pyval;
  view_label : label_config
}.

(** Order of strings by character code, as [sorted] compares them. *)
Definition string_le (a b : string) : Prop := Is_true (String.leb a b).

#[global] Instance string_le_dec : RelDecision string_le.
Proof. intros a b. unfold string_le. apply _. Defined.

(** [sorted(names)] *)
Definition py_sorted (names : list string) : list string :=
  merge_sort string_le names.

(** ** Base64 *)

(** The standard alphabet of [base64.b64encode]. *)
Definition b64_char (n : N) : byte :=
  let code :=
    if (n <? 26)%N then (65 + n)%N
    else if (n <? 52)%N then (97 + (n - 26))%N
    else if (n <? 62)%N then (48 + (n - 52))%N
    else if (n =? 62)%N then 43%N
    else 47%N in
  default x00 (Byte.of_N code).

Definition b64_index (b : byte) : option N :=
  let c := Byte.to_N b in
  if ((65 <=? c) && (c <=? 90))%N then Some (c - 65)%N
  else if ((97 <=? c) && (c <=? 122))%N then Some (c - 97 + 26)%N
  else if ((48 <=? c) && (c <=? 57))%N then Some (c - 48 + 52)%N
  else if (c =? 43)%N then Some 62%N
  else if (c =? 47)%N then Some 63%N
  else None.

(** The padding character [=]. *)
Definition b64_pad : byte := default x00 (Byte.of_N 61).

Definition is_b64_pad (b : byte) : bool := (Byte.to_N b =? 61)%N.

(** [base64.b64encode(data)]: three bytes become four characters; one or
    two trailing bytes are padded with [=]. *)
Fixpoint b64encode (data : bytes) : bytes :=
  match data with
  | [] => []
  | [a] =>
      let a := Byte.to_N a in
      [b64_char (a / 4); b64_char (a mod 4 * 16); b64_pad; b64_pad]
  | [a; b] =>
      let a := Byte.to_N a in
      let b := Byte.to_N b in
      [b64_char (a / 4); b64_char (a mod 4 * 16 + b / 16);
       b64_char (b mod 16 * 4); b64_pad]
  | a :: b :: c :: rest =>
      let a := Byte.to_N a in
      let b := Byte.to_N b in
      let c := Byte.to_N c in
      b64_char (a / 4) :: b64_char (a mod 4 * 16 + b / 16)
        :: b64_char (b mod 16 * 4 + c / 64) :: b64_char (c mod 64)
        :: b64encode rest
  end%N.

(** [base64.b64decode(text)] on canonical, padded input; [None] where the
    decoder raises. *)
Fixpoint b64decode (text : bytes) : option bytes :=
  match text with
  | [] => Some []
  | c1 :: c2 :: c3 :: c4 :: rest =>
      s1 ← b64_index c1;
      s2 ← b64_index c2;
      a ← Byte.of_N (s1 * 4 + s2 / 16);
      if is_b64_pad c3 then
        if is_b64_pad c4 then
          match rest with [] => Some [a] | _ => None end
        else None
      else
        s3 ← b64_index c3;
        b ← Byte.of_N (s2 mod 16 * 16 + s3 / 4);
        if is_b64_pad c4 then
          match rest with [] => Some [a; b] | _ => None end
        else
          s4 ← b64_index c4;
          c ← Byte.of_N (s3 mod 4 * 64 + s4);
          tail ← b64decode rest;
          Some (a :: b :: c :: tail)
  | _ => None
  end%N.

(** ** Rendering and the HTTP handlers *)

Section Handlers.

(** The driver's table of label sizes and Python's conversions. *)
Variable label_type_specs : gmap string label_spec.
Variable py_int : string -> option Z.
Variable py_float : string -> option float.
Variable py_repr : string -> string.
(** The imaging library: font loading, text measurement, and the PNG
    encoding done by [im.save], which may raise. *)
Variable truetype : string -> Z -> outcome font.
Variable multiline_textsize : font -> string -> Z * Z.
Variable png_encode : image -> outcome bytes.
(** The symbol encoders: datamatrix (width, height, pixels) and the
    Code128 barcode picture. *)
Variable dmtx_encode : string -> outcome (Z * Z * bytes).
Variable code128_png : option string -> outcome image.
(** [textwrap.fill(text, width)] *)
Variable textwrap_fill : string -> Z -> string.
(** The driver: [BrotherQLRaster(model)], and the raster data after
    [create_label(qlr, im, label_size, red, threshold, cut, rotate)]. *)
Variable new_raster : pyval -> outcome unit.
Variable create_label :
  pyval -> option image -> string -> bool -> Z -> bool -> rotate_arg -> outcome bytes.
(** [str(data)] on a byte string, and the process environment. *)
Variable py_str_bytes : bytes -> string.
Variable environ : gmap string string.

Definition NL : string := String LF EmptyString.

Definition unbound_local {A : Type} (name : string) : outcome A :=
  Raise (mkExn UnboundLocalError
    ("local variable '" +:+ name +:+ "' referenced before assignment")).

Definition none_has_no_attribute {A : Type} (name : string) : outcome A :=
  Raise (mkExn AttributeError
    ("'NoneType' object has no attribute '" +:+ name +:+ "'")).

Definition create_label_im (c : context) : outcome image :=
  let label_type := kind c in
  im_font ← truetype (font_path c) (font_size c);
  text ← match text c with
         | Some t => Ret t
         | None => none_has_no_attribute "split"
         end;
  let lines :=
    (fun line => if String.eqb line "" then " " else line) <$> py_split LF text in
  let text := py_join NL lines in
  let textsize := multiline_textsize im_font text in
  let standard := String.eqb (orientation c) "standard" in
  let rotated := String.eqb (orientation c) "rotated" in
  let height :=
    if standard && bool_decide (label_type = ENDLESS_LABEL)
    then (textsize.2 + margin_top c + margin_bottom c)%Z else height c in
  let width :=
    if negb standard && rotated && bool_decide (label_type = ENDLESS_LABEL)
    then (textsize.1 + margin_left c + margin_right c)%Z else width c in
  let im := NewImage "RGB" (width, height) in
  let die_cut :=
    bool_decide (label_type = DIE_CUT_LABEL)
    || bool_decide (label_type = ROUND_DIE_CUT_LABEL) in
  let centred_v :=
    ((height - textsize.2) `div` 2 + (margin_top c - margin_bottom c) `div` 2)%Z in
  let centred_h := Z.max ((width - textsize.1) `div` 2) 0 in
  offset ←
    (if standard then
       Ret (centred_h, if die_cut then centred_v else margin_top c)
     else if rotated then
       Ret (if die_cut then centred_h else margin_left c, centred_v)
     else unbound_local "horizontal_offset");
  Ret (TextDrawn im offset text (fill_color c) im_font (Some (align c))).

(** The caption of a grocy label: product, else chore, else battery. *)
Definition grocy_text (c : context) : option string :=
  if truthy_opt (product c) then product c
  else if truthy_opt (chore c) then chore c
  else battery c.

Definition create_label_grocy_1d (c : context) : M (option image) :=
  try_except
    (let text := grocy_text c in
     let text_font_size := 40%Z in
     let duedate_font_size := 20%Z in
     let barcode_height := 100%Z in
     barcode ← lift (code128_png (grocycode c));
     _ ← save_image "/tmp/dmtx.png" barcode;
     text_font ← lift (truetype (font_path c) text_font_size);
     duedate_font ← lift (truetype (font_path c) duedate_font_size);
     let '(margin_left, margin_right, margin_top, margin_bottom, width) :=
       if String.eqb (orientation c) "standard"
       then (margin_left c, margin_right c, margin_top c, margin_bottom c, width c)
       else (margin_bottom c, margin_top c, margin_left c, margin_right c, 700%Z) in
     text_height ← lift (scale_margin text_font_size line_factor);
     let height :=
       (margin_top + margin_bottom + barcode_height + text_height - 30)%Z in
     height ← (if truthy_opt (duedate c)
               then duedate_height ← lift (scale_margin duedate_font_size line_factor);
                    mret (height + duedate_height)%Z
               else mret height);
     let im := NewImage "RGB" (width, height) in
     opened ← open_image "/tmp/dmtx.png";
     let barcode :=
       Resized opened ((width - margin_left - margin_right)%Z, barcode_height) in
     text ← lift (match text with
                  | Some t => Ret t
                  | None => Raise (mkExn TypeError
                              "argument of type 'NoneType' is not iterable")
                  end);
     let im := TextDrawn im (margin_left, margin_top) text (fill_color c)
                 text_font None in
     let vertical_offset := (margin_top + text_font_size)%Z in
     let im := Pasted im barcode
                 (margin_left, vertical_offset, (width - margin_right)%Z,
                  (vertical_offset + barcode_height)%Z) in
     let im := match duedate c with
               | Some due =>
                   TextDrawn im (margin_left, (vertical_offset + barcode_height)%Z)
                     due (fill_color c) duedate_font None
               | None => im
               end in
     let im := if String.eqb (orientation c) "rotated"
               then Transposed im 90 else im in
     mret (Some im))
    is_Exception
    (fun e => _ ← emit (LogError ("Exception happened: " +:+ class_name (exn_type e)));
              mret None).

(** The datamatrix variant.  Its comparison [text_lines.count > 1] is
    between a bound method and an integer, which raises [TypeError], so
    no call gets past that line. *)
Definition create_label_grocy (c : context) : M image :=
  let text := grocy_text c in
  code ← lift (match grocycode c with
               | Some g => Ret g
               | None => none_has_no_attribute "encode"
               end);
  '(encoded_width, encoded_height, pixels) ← lift (dmtx_encode code);
  let datamatrix := FromBytes "RGB" (encoded_width, encoded_height) pixels in
  _ ← save_image "/tmp/dmtx.png" datamatrix;
  text_font ← lift (truetype (font_path c) 45);
  duedate_font ← lift (truetype (font_path c) 35);
  let standard := String.eqb (orientation c) "standard" in
  let rotated := String.eqb (orientation c) "rotated" in
  let '(width, height) :=
    if rotated then (180%Z, width c) else (width c, 180%Z) in
  let im := NewImage "RGB" (width, height) in
  '(horizontal_offset, vertical_offset) ←
    lift (if standard || rotated then Ret (margin_left c, margin_top c)
          else unbound_local "horizontal_offset");
  let im := Pasted im datamatrix
              (horizontal_offset, vertical_offset,
               (horizontal_offset + encoded_width)%Z,
               (vertical_offset + encoded_height)%Z) in
  let '(horizontal_offset, vertical_offset) :=
    if standard then ((encoded_width + 20)%Z, vertical_offset)
    else (horizontal_offset, (vertical_offset + (encoded_width + 20))%Z) in
  text ← lift (match text with
               | Some t => Ret t
               | None => none_has_no_attribute "expandtabs"
               end);
  let text_lines := py_partition LF (textwrap_fill text 15) in
  let im := TextDrawn im (horizontal_offset, vertical_offset) text_lines.1.1
              (fill_color c) text_font None in
  raise (mkExn TypeError
    "'>' not supported between instances of 'builtin_function_or_method' and 'int'").

(** ** Handlers *)

(** [index]: [redirect] leaves by raising the redirect response. *)
Definition index : M unit :=
  raise (mkExn HTTPResponse "/labeldesigner").

Definition labeldesigner : M designer_view :=
  G ← get_globals;
  let font_family_names := py_sorted (map_to_list (FONTS G)).*1 in
  mret {| view_font_family_names := font_family_names;
          view_fonts := FONTS G;
          view_label_sizes := LABEL_SIZES G;
          view_website := WEBSITE (CONFIG G);
          view_label := LABEL (CONFIG G) |}.

(** [get_label_context(request)] reading the globals. *)
Definition label_context (r : request) : M context :=
  G ← get_globals;
  lift (get_label_context label_type_specs py_int py_float py_repr
          (CONFIG G) (FONTS G) r).

Definition image_to_png_bytes (im : image) : outcome bytes := png_encode im.

Definition get_preview_image (r : request) : M bytes :=
  context ← label_context r;
  im ← lift (create_label_im context);
  let return_format := default "png" (query r !! "return_format") in
  if String.eqb return_format "base64" then
    _ ← emit (SetHeader "Content-type" "text/plain");
    png ← lift (image_to_png_bytes im);
    mret (b64encode png)
  else
    _ ← emit (SetHeader "Content-type" "image/png");
    lift (image_to_png_bytes im).

(** [try: context = get_label_context(request)
     except LookupError as e: return_dict["error"] = e.msg; return return_dict]:
    the context, or the dictionary returned early. *)
Definition context_or_error (r : request) (rd : return_dict)
    : M (return_dict + context) :=
  try_except
    (context ← label_context r; mret (inr context))
    is_LookupError
    (fun e => msg ← lift (exn_msg e);
              mret (inl (<["error" := PyStr msg]> rd))).

(** The rotation the handlers pass on; unbound for other label kinds. *)
Definition choose_rotate (c : context) : option rotate_arg :=
  match kind c with
  | ENDLESS_LABEL =>
      Some (if String.eqb (orientation c) "standard" then Rotate0 else Rotate90)
  | ROUND_DIE_CUT_LABEL | DIE_CUT_LABEL => Some RotateAuto
  | OTHER_LABEL_KIND => None
  end.

(** [if not DEBUG: try: be = BACKEND_CLASS(...); be.write(qlr.data);
    be.dispose(); del be  except Exception as e: ...]: the dictionary to
    return early when the transport failed, [None] otherwise. *)
Definition send_to_printer (G : globals) (data : bytes) (rd : return_dict)
    : M (option return_dict) :=
  if negb (DEBUG G) then
    try_except
      (_ ← emit (BackendOpen (PRINTER (PRINTER_SECTION (CONFIG G))));
       _ ← lift (be_init (BACKEND_CLASS G) (PRINTER (PRINTER_SECTION (CONFIG G))));
       _ ← emit (BackendWrite data);
       _ ← lift (be_write (BACKEND_CLASS G) data);
       _ ← emit BackendDispose;
       _ ← lift (be_dispose (BACKEND_CLASS G));
       mret None)
      is_Exception
      (fun e =>
         let rd := <["message" := PyStr (exn_str e)]> rd in
         _ ← emit (LogWarning ("Exception happened: " +:+ exn_str e));
         mret (Some rd))
  else mret None.

(** The part both print handlers share line for line: optional debug
    save, rotation, raster creation, transport and the final
    dictionary. *)
Definition print_label (c : context) (im : option image) (rd : return_dict)
    : M return_dict :=
  G ← get_globals;
  _ ← (if DEBUG G then
         match im with
         | Some i => save_image "sample-out.png" i
         | None => lift (none_has_no_attribute "save")
         end
       else mret tt);
  let rotate := choose_rotate c in
  _ ← lift (new_raster (MODEL (PRINTER_SECTION (CONFIG G))));
  let red := if py_contains "red" (label_size c) then true else false in
  rotate ← lift (match rotate with
                 | Some rot => Ret rot
                 | None => unbound_local "rotate"
                 end);
  _ ← emit (RasterCreate (MODEL (PRINTER_SECTION (CONFIG G))) im (label_size c)
              red (threshold c) true rotate);
  data ← lift (create_label (MODEL (PRINTER_SECTION (CONFIG G))) im (label_size c)
                 red (threshold c) true rotate);
  failed ← send_to_printer G data rd;
  match failed with
  | Some rd => mret rd
  | None =>
      let rd := <["success" := PyBool true]> rd in
      mret (if DEBUG G then <["data" := PyStr (py_str_bytes data)]> rd else rd)
  end.

(** The label picture: [create_label_grocy_1d] when the environment has
    [Code128=1], [create_label_grocy] otherwise. *)
Definition grocy_image (c : context) : M (option image) :=
  let code_1d :=
    match environ !! "Code128" with
    | Some v => negb (String.eqb v "") && String.eqb v "1"
    | None => false
    end in
  if code_1d then create_label_grocy_1d c
  else i ← create_label_grocy c; mret (Some i).

Definition grocy_validation_error : return_dict :=
  <["error" := PyStr "Please provide the product/battery/chore for the label"]>
    {[ "success" := PyBool false ]}.

Definition print_grocy (r : request) : M return_dict :=
  let rd : return_dict := {[ "success" := PyBool false ]} in
  parsed ← context_or_error r rd;
  match parsed with
  | inl early => mret early
  | inr context =>
      if bool_decide (product context = None)
         && truthy_opt (battery context) && truthy_opt (chore context)
      then mret grocy_validation_error
      else
        im ← grocy_image context;
        print_label context im rd
  end.

Definition print_text (r : request) : M return_dict :=
  let rd : return_dict := {[ "success" := PyBool false ]} in
  parsed ← context_or_error r rd;
  match parsed with
  | inl early => mret early
  | inr context =>
      match text context with
      | None => mret (<["error" := PyStr "Please provide the text for the label"]> rd)
      | Some _ =>
          im ← lift (create_label_im context);
          print_label context (Some im) rd
      end
  end.

(** [static_file(filename, root="./static")] of the web framework. *)
Variable static_file : string -> string -> outcome bytes.

Definition serve_static (filename : string) : M bytes :=
  lift (static_file filename "./static").

(** The routes and what each handler hands back. *)
Inductive endpoint : Type :=
| Index
| ServeStatic (filename : string)
| LabelDesigner
| PreviewText
| PrintGrocy
| PrintText.

Inductive response : Type :=
| NoBody
| Template (v : designer_view)
| Body (b : bytes)
| Json (d : return_dict).

Definition handle (ep : endpoint) (r : request) : M response :=
  match ep with
  | Index => _ ← index; mret NoBody
  | ServeStatic filename => b ← serve_static filename; mret (Body b)
  | LabelDesigner => v ← labeldesigner; mret (Template v)
  | PreviewText => b ← get_preview_image r; mret (Body b)
  | PrintGrocy => d ← print_grocy r; mret (Json d)
  | PrintText => d ← print_text r; mret (Json d)
  end.

End Handlers.

(** ** main: command-line overrides *)

(** The namespace [parse_args] returns.  Every option has [default=False];
    a supplied option holds its string, and [--loglevel] the value of the
    logging attribute it names. *)
Record args : Type := mkArgs {
  arg_port : pyval;
  arg_loglevel : pyval;
  arg_font_folder : pyval;
  arg_default_label_size : pyval;
  arg_default_orientation : pyval;
  arg_model : pyval;
  arg_printer : pyval
}.

(** The options as the command line gives them: [None] for one that is
    absent. *)
Record command_line : Type := mkCommandLine {
  cl_port : option string;
  cl_loglevel : option string;
  cl_font_folder : option string;
  cl_default_label_size : option string;
  cl_default_orientation : option string;
  cl_model : option string;
  cl_printer : option string
}.

(** The value of an option declared with [default=False]. *)
Definition given (o : option string) : pyval :=
  match o with
  | Some v => PyStr v
  | None => PyBool false
  end.

Section ParseArgs.

(** The driver's list [models], and the conversion of [--loglevel],
    [lambda x: getattr(logging, x.upper())]: [None] where the attribute
    lookup raises. *)
Variable models : list string.
Variable logging_attribute : string -> option pyval.

(** [parser.parse_args()]: [None] where the parser does not return,
    because it reports an invalid choice and exits with status 2 or
    because the conversion of the log level raises. *)
Definition parse_args (cl : command_line) : option args :=
  loglevel ← match cl_loglevel cl with
             | Some x => logging_attribute x
             | None => Some (PyBool false)
             end;
  _ ← match cl_default_orientation cl with
      | Some v => if bool_decide (v ∈ ["standard"; "rotated"]) then Some tt else None
      | None => Some tt
      end;
  _ ← match cl_model cl with
      | Some m => if bool_decide (m ∈ models) then Some tt else None
      | None => Some tt
      end;
  Some {| arg_port := given (cl_port cl);
          arg_loglevel := loglevel;
          arg_font_folder := given (cl_font_folder cl);
          arg_default_label_size := given (cl_default_label_size cl);
          arg_default_orientation := given (cl_default_orientation cl);
          arg_model := given (cl_model cl);
          arg_printer := given (cl_printer cl) |}.

End ParseArgs.

(** What [main] has settled once the arguments are applied. *)
Record settings : Type := mkSettings {
  set_CONFIG : config;
  set_PORT : pyval;
  set_LOGLEVEL : pyval;
  set_DEBUG : bool;
  set_ADDITIONAL_FONT_FOLDER : pyval
}.

Definition with_printer (v : pyval) (c : config) : config :=
  mkConfig (WEBSITE c) (LABEL c) (SERVER c)
    (mkPrinterConfig (MODEL (PRINTER_SECTION c)) v).

Definition with_model (v : pyval) (c : config) : config :=
  mkConfig (WEBSITE c) (LABEL c) (SERVER c)
    (mkPrinterConfig v (PRINTER (PRINTER_SECTION c))).

Definition with_default_size (v : pyval) (c : config) : config :=
  mkConfig (WEBSITE c)
    (mkLabelConfig v (DEFAULT_ORIENTATION (LABEL c)) (DEFAULT_FONTS (LABEL c)))
    (SERVER c) (PRINTER_SECTION c).

Definition with_default_orientation (v : pyval) (c : config) : config :=
  mkConfig (WEBSITE c)
    (mkLabelConfig (DEFAULT_SIZE (LABEL c)) v (DEFAULT_FONTS (LABEL c)))
    (SERVER c) (PRINTER_SECTION c).

(** [main] from the parsed arguments down to the choice of the font
    folder. *)
Definition main_settings (a : args) (CONFIG : config) : settings :=
  let CONFIG :=
    if truthy (arg_printer a) then with_printer (arg_printer a) CONFIG else CONFIG in
  let PORT :=
    if truthy (arg_port a) then arg_port a else PORT (SERVER CONFIG) in
  let LOGLEVEL :=
    if truthy (arg_loglevel a) then arg_loglevel a else LOGLEVEL (SERVER CONFIG) in
  let DEBUG := py_eq_int LOGLEVEL 10 in
  let CONFIG :=
    if truthy (arg_model a) then with_model (arg_model a) CONFIG else CONFIG in
  let CONFIG :=
    if truthy (arg_default_label_size a)
    then with_default_size (arg_default_label_size a) CONFIG else CONFIG in
  let CONFIG :=
    if truthy (arg_default_orientation a)
    then with_default_orientation (arg_default_orientation a) CONFIG else CONFIG in
  let ADDITIONAL_FONT_FOLDER :=
    if truthy (arg_font_folder a) then arg_font_folder a
    else ADDITIONAL_FONT_FOLDER (SERVER CONFIG) in
  {| set_CONFIG := CONFIG;
     set_PORT := PORT;
     set_LOGLEVEL := LOGLEVEL;
     set_DEBUG := DEBUG;
     set_ADDITIONAL_FONT_FOLDER := ADDITIONAL_FONT_FOLDER |}.

(** [LABEL_SIZES]: each label size of the driver with its display name. *)
Definition initial_LABEL_SIZES (label_type_specs : gmap string label_spec)
    (py_repr : string -> string) (label_sizes : list string)
    : outcome (list (string * string)) :=
  mapM (fun name =>
          match label_type_specs !! name with
          | Some ls => Ret (name, ls_name ls)
          | None => Raise (mkExn KeyError (py_repr name))
          end) label_sizes.

(** ** main: backend, label size and fonts *)

(** [isinstance(e, ValueError)] *)
Definition is_ValueError (e : exn) : bool :=
  match exn_type e with
  | ValueError => true
  | _ => false
  end.

(** A font of the registry: [FONTS[family][style]]. *)
Definition font_file_of (FONTS : fonts) (family style : string) : option string :=
  FONTS !! family ≫= (.!! style).

(** [for font in CONFIG["LABEL"]["DEFAULT_FONTS"]:
       try: FONTS[font["family"]][font["style"]]; ...; break
       except: pass]:
    the first candidate that the registry has. *)
Fixpoint first_available (FONTS : fonts) (candidates : list (string * string))
    : option (string * string) :=
  match candidates with
  | [] => None
  | (family, style) :: rest =>
      match font_file_of FONTS family style with
      | Some _ => Some (family, style)
      | None => first_available FONTS rest
      end
  end.

(** The value of [CONFIG["LABEL"]["DEFAULT_FONTS"]] after that loop.
    Iterating over one family/style pair yields its keys, on which the
    subscript raises inside the [try]; iterating over null raises
    outside of it. *)
Definition select_default_font (FONTS : fonts) (configured : default_fonts)
    : outcome default_fonts :=
  match configured with
  | DefaultFontList candidates =>
      Ret (match first_available FONTS candidates with
           | Some (family, style) => DefaultFont family style
           | None => configured
           end)
  | DefaultFont _ _ => Ret configured
  | DefaultFontNull => Raise (mkExn TypeError "'NoneType' object is not iterable")
  end.

Definition with_default_fonts (v : default_fonts) (c : config) : config :=
  mkConfig (WEBSITE c)
    (mkLabelConfig (DEFAULT_SIZE (LABEL c)) (DEFAULT_ORIENTATION (LABEL c)) v)
    (SERVER c) (PRINTER_SECTION c).

(** What [main] hands to [run]: the globals the handlers will see, and
    host, port and debug flag of the server. *)
Record server : Type := mkServer {
  srv_globals : globals;
  srv_host : pyval;
  srv_port : pyval;
  srv_debug : bool
}.

(** [parser.error(...)] and [sys.exit(2)] both leave with status 2. *)
Definition exit_2 {A : Type} : outcome A := Raise (mkExn SystemExit "2").

Section Main.

(** The driver: [guess_backend], [backend_factory(...)["backend_class"]]
    and the list [label_sizes]. *)
Variable guess_backend : pyval -> outcome string.
Variable backend_factory : string -> outcome backend_class.
Variable label_sizes : list string.
(** [logging.basicConfig(level=...)], [get_fonts()] and [get_fonts(folder)]
    of the font helpers, [random.choice] and [repr]. *)
Variable basicConfig : pyval -> outcome unit.
Variable get_fonts : option pyval -> outcome fonts.
Variable random_choice : list string -> outcome string.
Variable py_repr : string -> string.

(** [v in label_sizes] *)
Definition in_label_sizes (v : pyval) : bool :=
  match v with
  | PyStr s => bool_decide (s ∈ label_sizes)
  | _ => false
  end.

(** [main] from the parsed arguments to the call of [run]; the messages
    written to standard error are left out. *)
Definition main (a : args) (CONFIG : config) (LABEL_SIZES : list (string * string))
    : outcome server :=
  let s := main_settings a CONFIG in
  let CONFIG := set_CONFIG s in
  _ ← basicConfig (set_LOGLEVEL s);
  selected_backend ←
    match guess_backend (PRINTER (PRINTER_SECTION CONFIG)) with
    | Ret name => Ret name
    | Raise e => if is_ValueError e then exit_2 else Raise e
    end;
  BACKEND_CLASS ← backend_factory selected_backend;
  _ ← (if in_label_sizes (DEFAULT_SIZE (LABEL CONFIG)) then Ret tt else exit_2);
  FONTS ← get_fonts None;
  FONTS ← (if truthy (set_ADDITIONAL_FONT_FOLDER s)
           then additional ← get_fonts (Some (set_ADDITIONAL_FONT_FOLDER s));
                Ret (additional ∪ FONTS)
           else Ret FONTS);
  _ ← (if bool_decide (FONTS = ∅) then exit_2 else Ret tt);
  selected ← select_default_font FONTS (DEFAULT_FONTS (LABEL CONFIG));
  selected ← match selected with
             | DefaultFontNull =>
                 family ← random_choice (map_to_list FONTS).*1;
                 styles ← subscript py_repr FONTS family;
                 style ← random_choice (map_to_list styles).*1;
                 Ret (DefaultFont family style)
             | _ => Ret selected
             end;
  let CONFIG := with_default_fonts selected CONFIG in
  Ret {| srv_globals := mkGlobals CONFIG FONTS LABEL_SIZES (set_DEBUG s) BACKEND_CLASS;
         srv_host := HOST (SERVER CONFIG);
         srv_port := set_PORT s;
         srv_debug := set_DEBUG s |}.

End Main.

(** ** A sample environment for examples *)

(** A few rows in the shape of the driver's label table. *)
Definition sample_label_type_specs : gmap string label_spec :=
  list_to_map
    [ ("50", mkLabelSpec "50mm endless" ENDLESS_LABEL (554, 0)%Z);
      ("62", mkLabelSpec "62mm endless" ENDLESS_LABEL (696, 0)%Z);
      ("62red", mkLabelSpec "62mm endless (black/red/white)" ENDLESS_LABEL (696, 0)%Z);
      ("29x90", mkLabelSpec "29mm x 90mm die-cut" DIE_CUT_LABEL (306, 991)%Z);
      ("d24", mkLabelSpec "24mm round die-cut" ROUND_DIE_CUT_LABEL (236, 236)%Z) ].

Definition digit_value (a : ascii) : option Z :=
  let n := Z.of_N (N_of_ascii a) in
  if ((48 <=? n) && (n <=? 57))%Z then Some (n - 48)%Z else None.

Fixpoint digits_value (acc : Z) (s : string) : option Z :=
  match s with
  | EmptyString => Some acc
  | String a s' =>
      match digit_value a with
      | Some v => digits_value (10 * acc + v)%Z s'
      | None => None
      end
  end.

(** Plain decimal literals with an optional minus sign: a fragment of what
    [int(s)] accepts. *)
Definition sample_int (s : string) : option Z :=
  match s with
  | EmptyString => None
  | String "-" (String a s') => Z.opp <$> digits_value 0 (String a s')
  | _ => digits_value 0 s
  end.

(** Integer literals as floats: a fragment of what [float(s)] accepts. *)
Definition sample_float (s : string) : option float :=
  sample_int s ≫= float_of_Z.

(** [repr(s)] for a string without quotes or escapes. *)
Definition sample_repr (s : string) : string := "'" +:+ s +:+ "'".

Definition sample_fonts : fonts :=
  {[ "DejaVu Serif" := {[ "Book" := "/usr/share/fonts/DejaVuSerif.ttf";
                          "Bold" := "/usr/share/fonts/DejaVuSerif-Bold.ttf" ]} ]}.

Definition sample_config : config :=
  {| WEBSITE := PyStr "Brother QL";
     LABEL := {| DEFAULT_SIZE := PyStr "62";
                 DEFAULT_ORIENTATION := PyStr "standard";
                 DEFAULT_FONTS := DefaultFont "DejaVu Serif" "Book" |};
     SERVER := {| HOST := PyStr "0.0.0.0";
                  PORT := PyInt 8013;
                  LOGLEVEL := PyStr "WARNING";
                  ADDITIONAL_FONT_FOLDER := PyBool false |};
     PRINTER_SECTION := {| MODEL := PyStr "QL-500";
                           PRINTER := PyStr "file:///dev/usb/lp1" |} |}.

Definition sample_context (r : request) : outcome context :=
  get_label_context sample_label_type_specs sample_int sample_float sample_repr
    sample_config sample_fonts r.

Definition sample_truetype (path : string) (size : Z) : outcome font :=
  Ret (mkFont path size).

Definition sample_textsize (f : font) (t : string) : Z * Z :=
  ((Z.of_nat (String.length t) * font_px f) `div` 2, font_px f)%Z.

Definition sample_png (im : image) : outcome bytes :=
  Ret [x89; x50; x4e; x47; x0d].

Definition sample_dmtx (code : string) : outcome (Z * Z * bytes) :=
  Ret (12, 12, [xff; x00; xff])%Z.

Definition sample_code128 (code : option string) : outcome image :=
  match code with
  | Some payload => Ret (BarcodeImage payload)
  | None => Raise (mkExn TypeError "'NoneType' object is not iterable")
  end.

Definition sample_fill (t : string) (w : Z) : string := t.

Definition sample_new_raster (model : pyval) : outcome unit := Ret tt.

Definition sample_create_label (model : pyval) (im : option image)
    (label_size : string) (red : bool) (threshold : Z) (cut : bool)
    (rotate : rotate_arg) : outcome bytes :=
  Ret [x1b; x40; x1a].

Definition sample_str_bytes (data : bytes) : string := "b'...'".

Definition sample_static (filename root : string) : outcome bytes := Ret [].

(** A transport that accepts everything. *)
Definition working_backend : backend_class :=
  mkBackend (fun _ => Ret tt) (fun _ => Ret tt) (Ret tt).

(** A transport whose [write] raises [e]. *)
Definition failing_backend (e : exn) : backend_class :=
  mkBackend (fun _ => Ret tt) (fun _ => Raise e) (Ret tt).

Definition sample_globals (be : backend_class) : globals :=
  {| CONFIG := sample_config;
     FONTS := sample_fonts;
     LABEL_SIZES := [("50", "50mm endless"); ("62", "62mm endless")];
     DEBUG := false;
     BACKEND_CLASS := be |}.

Definition sample_world (be : backend_class) : world :=
  mkWorld (sample_globals be) ∅.

(** The handlers in the sample environment; [environ] is the process
    environment. *)
Definition sample_handle (environ : gmap string string)
    : endpoint -> request -> M response :=
  handle sample_label_type_specs sample_int sample_float sample_repr
    sample_truetype sample_textsize sample_png sample_dmtx sample_code128
    sample_fill sample_new_raster sample_create_label sample_str_bytes
    environ sample_static.

Definition sample_print_text : request -> M return_dict :=
  print_text sample_label_type_specs sample_int sample_float sample_repr
    sample_truetype sample_textsize sample_new_raster sample_create_label
    sample_str_bytes.

Definition sample_print_grocy (environ : gmap string string)
    : request -> M return_dict :=
  print_grocy sample_label_type_specs sample_int sample_float sample_repr
    sample_truetype sample_dmtx sample_code128 sample_fill sample_new_raster
    sample_create_label sample_str_bytes environ.

Definition sample_preview : request -> M bytes :=
  get_preview_image sample_label_type_specs sample_int sample_float sample_repr
    sample_truetype sample_textsize sample_png.

(** A text request and a grocy request. *)
Definition text_request : request :=
  mkRequest ∅ {[ "font_family" := "DejaVu Serif (Book)"; "text" := "Flour";
                 "label_size" := "62red" ]}.

Definition grocy_request : request :=
  mkRequest ∅ {[ "font_family" := "DejaVu Serif (Book)"; "product" := "Flour";
                 "grocycode" := "grcy:p:13"; "due_date" := "2026-12-24";
                 "label_size" := "62" ]}.

Definition connection_refused : exn :=
  mkExn (OtherException "ConnectionRefusedError") "[Errno 111] Connection refused".

(** The request [r] with the posted field [k] set to [v]. *)
Definition set_form_field (k v : string) (r : request) : request :=
  mkRequest (query r) (<[k := v]> (forms r)).

(** [s] contains [needle] as a substring. *)
Definition has_substring (needle s : string) : Prop :=
  exists pre post : string, s = pre +:+ needle +:+ post.

(** The keys that the callers of the form may leave out. *)
Definition optional_fields : list string :=
  [ "font_size"; "label_size"; "margin"; "threshold"; "align"; "orientation";
    "margin_top"; "margin_bottom"; "margin_left"; "margin_right" ].

(** A request that both print handlers accept, the environment that
    selects the Code128 renderer, and requests naming an unknown font and
    an unknown label size. *)
Definition print_request : request :=
  mkRequest ∅ {[ "font_family" := "DejaVu Serif (Book)"; "text" := "Flour";
                 "product" := "Flour"; "grocycode" := "grcy:p:13";
                 "label_size" := "62red" ]}.

Definition code128_environ : gmap string string := {[ "Code128" := "1" ]}.

Definition unknown_font_request : request :=
  mkRequest ∅ {[ "font_family" := "Comic Sans (Regular)"; "text" := "Flour";
                 "product" := "Flour"; "grocycode" := "grcy:p:13" ]}.

Definition unknown_size_request : request :=
  mkRequest ∅ {[ "font_family" := "DejaVu Serif (Book)"; "text" := "Flour";
                 "product" := "Flour"; "grocycode" := "grcy:p:13";
                 "label_size" := "99" ]}.

Definition failing_world : world := sample_world (failing_backend connection_refused).

(** What [sample_create_label] hands to the transport. *)
Definition raster_data : bytes := [x1b; x40; x1a].

(** A command line without options, and two that supply a falsy value:
    an empty printer string, and [--loglevel NOTSET]. *)
Definition no_args : args :=
  mkArgs (PyBool false) (PyBool false) (PyBool false) (PyBool false)
    (PyBool false) (PyBool false) (PyBool false).

Definition args_empty_printer : args :=
  mkArgs (PyBool false) (PyBool false) (PyBool false) (PyBool false)
    (PyBool false) (PyBool false) (PyStr "").

Definition args_loglevel_notset : args :=
  mkArgs (PyBool false) (PyInt 0) (PyBool false) (PyBool false)
    (PyBool false) (PyBool false) (PyBool false).

Definition args_all_supplied : args :=
  mkArgs (PyStr "8080") (PyInt 10) (PyStr "/fonts") (PyStr "29x90")
    (PyStr "rotated") (PyStr "QL-800") (PyStr "tcp://192.168.0.23:9100").

(** Command lines: the names of some printer models, the levels of the
    logging module by name in either case, and the command lines that
    the argument records above come from. *)
Definition sample_models : list string :=
  ["QL-500"; "QL-550"; "QL-570"; "QL-700"; "QL-800"; "QL-820NWB"].

Definition sample_upper (s : string) : string :=
  string_of_list_ascii
    ((fun a =>
        let n := N_of_ascii a in
        if ((97 <=? n) && (n <=? 122))%N then ascii_of_N (n - 32) else a)
       <$> list_ascii_of_string s).

Definition sample_logging_attribute (x : string) : option pyval :=
  let name := sample_upper x in
  if String.eqb name "NOTSET" then Some (PyInt 0)
  else if String.eqb name "DEBUG" then Some (PyInt 10)
  else if String.eqb name "INFO" then Some (PyInt 20)
  else if String.eqb name "WARNING" then Some (PyInt 30)
  else if String.eqb name "ERROR" then Some (PyInt 40)
  else if String.eqb name "CRITICAL" then Some (PyInt 50)
  else None.

Definition sample_parse_args : command_line -> option args :=
  parse_args sample_models sample_logging_attribute.

Definition cl_nothing : command_line :=
  mkCommandLine None None None None None None None.

Definition cl_empty_printer : command_line :=
  mkCommandLine None None None None None None (Some "").

Definition cl_loglevel_notset : command_line :=
  mkCommandLine None (Some "NOTSET") None None None None None.

Definition cl_all_supplied : command_line :=
  mkCommandLine (Some "8080") (Some "debug") (Some "/fonts") (Some "29x90")
    (Some "rotated") (Some "QL-800") (Some "tcp://192.168.0.23:9100").

(** An interrupt, which is not an instance of [Exception]. *)
Definition keyboard_interrupt : exn := mkExn KeyboardInterrupt "".

(** The contexts of [text_request] and [grocy_request], and one for a
    die-cut label in rotated orientation whose text has an empty line. *)
Definition flour_context : context :=
  {| text := Some "Flour"; font_size := 40;
     font_family := "DejaVu Serif"; font_style := "Book";
     label_size := "62red"; kind := ENDLESS_LABEL;
     margin := 10; threshold := 70; align := "center"; orientation := "standard";
     margin_top := 10; margin_bottom := 10; margin_left := 10; margin_right := 10;
     grocycode := None; product := None; duedate := None;
     battery := None; chore := None;
     fill_color := (255, 0, 0)%Z;
     font_path := "/usr/share/fonts/DejaVuSerif.ttf";
     width := 696; height := 0 |}.

Definition grocy_context : context :=
  {| text := None; font_size := 40;
     font_family := "DejaVu Serif"; font_style := "Book";
     label_size := "62"; kind := ENDLESS_LABEL;
     margin := 10; threshold := 70; align := "center"; orientation := "standard";
     margin_top := 10; margin_bottom := 10; margin_left := 10; margin_right := 10;
     grocycode := Some "grcy:p:13"; product := Some "Flour";
     duedate := Some "2026-12-24"; battery := None; chore := None;
     fill_color := (0, 0, 0)%Z;
     font_path := "/usr/share/fonts/DejaVuSerif.ttf";
     width := 696; height := 0 |}.

Definition two_paragraphs : string :=
  "Flour" +:+ String LF (String LF "Sugar").

Definition die_cut_context : context :=
  {| text := Some two_paragraphs; font_size := 40;
     font_family := "DejaVu Serif"; font_style := "Book";
     label_size := "29x90"; kind := DIE_CUT_LABEL;
     margin := 10; threshold := 70; align := "center"; orientation := "rotated";
     margin_top := 10; margin_bottom := 10; margin_left := 10; margin_right := 10;
     grocycode := None; product := None; duedate := None;
     battery := None; chore := None;
     fill_color := (0, 0, 0)%Z;
     font_path := "/usr/share/fonts/DejaVuSerif.ttf";
     width := 306; height := 991 |}.

(** The sample table with one more size, a tape whose kind is none of
    the three the program tests for. *)
Definition tape_label_type_specs : gmap string label_spec :=
  <["pt12" := mkLabelSpec "12mm tape" OTHER_LABEL_KIND (70, 0)%Z]>
    sample_label_type_specs.

Definition tape_request : request :=
  mkRequest ∅ {[ "font_family" := "DejaVu Serif (Book)"; "text" := "Flour";
                 "label_size" := "pt12" ]}.

(** A transport whose constructor raises [e], and the sample world in
    debug mode. *)
Definition unreachable_backend (e : exn) : backend_class :=
  mkBackend (fun _ => Raise e) (fun _ => Ret tt) (Ret tt).

Definition debug_world : world :=
  mkWorld (mkGlobals sample_config sample_fonts
             [("50", "50mm endless"); ("62", "62mm endless")] true working_backend)
    ∅.

(** A start-up environment: backends guessed from the scheme of the
    printer descriptor, the fonts of the system and of an additional
    folder. *)
Definition sample_guess_backend (printer : pyval) : outcome string :=
  match printer with
  | PyStr s =>
      if String.prefix "tcp://" s then Ret "network"
      else if String.prefix "file://" s then Ret "linux_kernel"
      else Raise (mkExn ValueError "Cannot guess backend for given identifier")
  | _ => Raise (mkExn TypeError "argument of type 'bool' is not iterable")
  end.

Definition sample_backend_factory (name : string) : outcome backend_class :=
  Ret working_backend.

Definition sample_label_sizes : list string := ["50"; "62"; "62red"; "29x90"; "d24"].

Definition sample_get_fonts (folder : option pyval) : outcome fonts :=
  match folder with
  | None => Ret sample_fonts
  | Some _ => Ret {[ "Terminus" := {[ "Regular" := "/fonts/Terminus.ttf" ]} ]}
  end.

Definition sample_choice (names : list string) : outcome string :=
  match names with
  | name :: _ => Ret name
  | [] => Raise (mkExn (OtherException "IndexError")
                   "Cannot choose from an empty sequence")
  end.

Definition sample_main (a : args) (cfg : config) : outcome server :=
  main sample_guess_backend sample_backend_factory sample_label_sizes
    (fun _ => Ret tt) sample_get_fonts sample_choice sample_repr a cfg
    [("50", "50mm endless"); ("62", "62mm endless")].

(** A configuration that lists candidate default fonts, and a command
    line naming a printer no backend is guessed for. *)
Definition listed_fonts : list (string * string) :=
  [("Minion Pro", "Semibold"); ("DejaVu Serif", "Book"); ("DejaVu Serif", "Bold")].

Definition listed_fonts_config : config :=
  with_default_fonts (DefaultFontList listed_fonts) sample_config.

Definition args_serial_printer : args :=
  mkArgs (PyBool false) (PyBool false) (PyBool false) (PyBool false)
    (PyBool false) (PyBool false) (PyStr "COM1").

(** ** Vocabulary for statements about runs *)

(** A run with one more event in front. *)
Definition with_event {A : Type} (ev : event) (r : run A) : run A :=
  mkRun (result r) (world_after r) (ev :: events r).

(** How a run continues: the continuation of [m ≫= k] applied to the run
    of [m]. *)
Definition and_then {A B : Type} (r : run A) (k : A -> M B) : run B :=
  match result r with
  | Ret a =>
      let r' := k a (world_after r) in
      mkRun (result r') (world_after r') (events r ++ events r')
  | Raise e => mkRun (Raise e) (world_after r) (events r)
  end.

(** [m] leaves the globals alone and causes only events satisfying [P]. *)
Definition respects {A : Type} (P : event -> Prop) (m : M A) : Prop :=
  forall w : world,
    w_globals (world_after (m w)) = w_globals w /\ Forall P (events (m w)).

Definition is_write (ev : event) : bool :=
  match ev with
  | BackendWrite _ => true
  | _ => false
  end.

(** How often the transport's [write] was invoked. *)
Definition count_writes (evs : list event) : nat :=
  length (List.filter is_write evs).

(** Events of the label renderers: log lines only. *)
Definition is_log (ev : event) : Prop :=
  match ev with
  | LogError _ | LogWarning _ => True
  | _ => False
  end.

(** A raster creation for context [c] passes its label size, with [red]
    set exactly when that name contains "red". *)
Definition raster_matches (c : context) (ev : event) : Prop :=
  match ev with
  | RasterCreate _ _ ls red _ _ _ =>
      ls = label_size c /\ red = py_contains "red" ls
  | _ => True
  end.

(** How the guarded transport block ends when one of its calls raised [e]
    after the events [evs]. *)
Definition after_transport_failure (rd : return_dict) (w : world) (e : exn)
    (evs : list event) : run (option return_dict) :=
  if is_Exception e then
    mkRun (Ret (Some (<["message" := PyStr (exn_str e)]> rd))) w
      (evs ++ [LogWarning ("Exception happened: " +:+ exn_str e)])
  else mkRun (Raise e) w evs.

(** The dictionary returned when the transport raised [e]. *)
Definition transport_error (e : exn) : return_dict :=
  <["message" := PyStr (exn_str e)]> {[ "success" := PyBool false ]}.

(** Events of the transport: constructor, write and dispose. *)
Definition is_transport (ev : event) : Prop :=
  match ev with
  | BackendOpen _ | BackendWrite _ | BackendDispose => True
  | _ => False
  end.

(** The blank picture a label was drawn on: the [Image.new] under the
    drawing, pasting and transposing calls. *)
Fixpoint canvas (im : image) : image :=
  match im with
  | TextDrawn im _ _ _ _ _ => canvas im
  | Pasted im _ _ => canvas im
  | Transposed im _ => canvas im
  | _ => im
  end.

(** The candidate default font [p] is not in the registry. *)
Definition unavailable (FONTS : fonts) (p : string * string) : Prop :=
  font_file_of FONTS p.1 p.2 = None.

(** * Properties *)

(** ** Auxiliary facts *)

Lemma params_set_form_field (k v : string) (r : request) :
  params (set_form_field k v r) = <[k := v]> (params r).
Proof. unfold params, set_form_field. simpl. by rewrite insert_union_l. Qed.

Ltac unfold_outcome :=
  unfold mbind, outcome_bind, mret, outcome_ret in *.

Ltac unfold_context :=
  unfold get_label_context, int_field, percent_field, subscript, get_font_path,
    get_label_dimensions in *.


Lemma outcome_bind_ret {A B : Type} (m : outcome A) (k : A -> outcome B) (b : B) :
  m ≫= k = Ret b -> exists a : A, m = Ret a /\ k a = Ret b.
Proof. destruct m as [a|e]; simpl; [eauto | discriminate]. Qed.

Lemma int_field_insert_ne py_int py_repr (d : form) (k k' v : string) (dflt : Z) :
  k ≠ k' ->
  int_field py_int py_repr (<[k := v]> d) k' dflt = int_field py_int py_repr d k' dflt.
Proof. intros Hne. unfold int_field. by rewrite lookup_insert_ne. Qed.

Lemma percent_field_insert_ne py_float py_repr (d : form) (k k' v : string) (dflt : Z) :
  k ≠ k' ->
  percent_field py_float py_repr (<[k := v]> d) k' dflt
  = percent_field py_float py_repr d k' dflt.
Proof. intros Hne. unfold percent_field. by rewrite lookup_insert_ne. Qed.

Lemma int_field_default py_int py_repr (d : form) (k : string) (dflt : Z) :
  d !! k = None -> int_field py_int py_repr d k dflt = Ret dflt.
Proof. intros Hk. unfold int_field. by rewrite Hk. Qed.

(** A missing percentage field with font size 40 gives a margin of 10. *)
Lemma default_margin py_float py_repr (d : form) (k : string) :
  d !! k = None ->
  exists f : float,
    percent_field py_float py_repr d k 25 = Ret f /\ scale_margin 40 f = Ret 10%Z.
Proof.
  intros Hk. unfold percent_field. rewrite Hk.
  eexists. split; vm_compute; reflexivity.
Qed.

(** Peel the successful steps off [H : (x ← m; k) = Ret c]. *)
Ltac invert_bind H :=
  let a := fresh "a" in
  let Hstep := fresh "Hstep" in
  apply outcome_bind_ret in H; destruct H as (a & Hstep & H).

(** Replay in the goal the steps recorded by [invert_bind]. *)
Ltac replay_steps :=
  repeat first
    [ progress cbn [mbind outcome_bind]
    | match goal with Hs : _ = Ret _ |- _ => rewrite Hs; clear Hs end ].

(** What a context that was built says about the form it came from. *)
Lemma get_label_context_ret
    (label_type_specs : gmap string label_spec) (py_int : string -> option Z)
    (py_float : string -> option float) (py_repr : string -> string)
    (CONFIG : config) (FONTS : fonts) (r : request) (c : context) :
  get_label_context label_type_specs py_int py_float py_repr CONFIG FONTS r = Ret c ->
  label_size c = default "50" (params r !! "label_size")
  /\ fill_color c
     = (if py_contains "red" (label_size c) then (255, 0, 0)%Z else (0, 0, 0)%Z)
  /\ orientation c = default "standard" (params r !! "orientation")
  /\ text c = params r !! "text"
  /\ product c = params r !! "product"
  /\ battery c = params r !! "battery"
  /\ chore c = params r !! "chore"
  /\ (exists spec : label_spec,
        label_type_specs !! label_size c = Some spec /\ kind c = ls_kind spec).
Proof.
  intros H. unfold get_label_context in H.
  repeat invert_bind H.
  match goal with p : (Z * Z)%type |- _ => destruct p as [w h] end.
  destruct (h >? w)%Z, (String.eqb _ "rotated"); injection H as <-; simpl;
    repeat split; try reflexivity.
  all: match goal with
       | Hs : subscript _ _ _ = Ret ?s |- _ =>
           exists s; split; [|reflexivity];
           unfold subscript in Hs;
           by destruct (label_type_specs !! _); simplify_eq
       end.
Qed.

(** ** Label context *)

(** C3: for a request that yields a context in standard orientation, the
    same request in rotated orientation yields a context whose width and
    height are swapped; standard has width >= height, rotated has
    height >= width. *)
Theorem rotated_swaps_standard
    (label_type_specs : gmap string label_spec) (py_int : string -> option Z)
    (py_float : string -> option float) (py_repr : string -> string)
    (CONFIG : config) (FONTS : fonts) (r : request) (c1 : context) :
  get_label_context label_type_specs py_int py_float py_repr CONFIG FONTS
    (set_form_field "orientation" "standard" r) = Ret c1 ->
  exists c2 : context,
    get_label_context label_type_specs py_int py_float py_repr CONFIG FONTS
      (set_form_field "orientation" "rotated" r) = Ret c2
    /\ (width c2, height c2) = (height c1, width c1)
    /\ (height c1 <= width c1)%Z
    /\ (width c2 <= height c2)%Z.
Proof.
  intros H. unfold get_label_context in *. rewrite !params_set_form_field in *.
  rewrite !lookup_insert_eq in *.
  rewrite !int_field_insert_ne, !percent_field_insert_ne in * by done.
  rewrite !lookup_insert_ne in * by done.
  cbn [default from_option] in *.
  repeat invert_bind H.
  replay_steps.
  match goal with p : (Z * Z)%type |- _ => destruct p as [w h] end.
  destruct (h >? w)%Z eqn:Hgt; simpl in H |- *;
    injection H as <-; eexists; (split; [reflexivity|]); simpl; repeat split; lia.
Qed.

(** The context of [text_request] in standard orientation. *)
Lemma rotated_swaps_standard_witness :
  exists c1 : context,
    sample_context (set_form_field "orientation" "standard" text_request) = Ret c1
    /\ exists c2 : context,
         sample_context (set_form_field "orientation" "rotated" text_request) = Ret c2
         /\ (width c2, height c2) = (height c1, width c1)
         /\ (height c1 <= width c1)%Z
         /\ (width c2 <= height c2)%Z.
Proof.
  eexists. split.
  - vm_compute. reflexivity.
  - apply (rotated_swaps_standard sample_label_type_specs sample_int sample_float
             sample_repr sample_config sample_fonts text_request).
    vm_compute. reflexivity.
Defined.

(** C4: when the form omits every optional field, the font resolves and
    the label table knows size "50", the context holds the defaults:
    font size 40, label size "50", margin 10, threshold 70, align
    "center", orientation "standard", and the four margins 10 (25 percent
    of 40, truncated). *)
Theorem defaults_for_omitted_fields
    (label_type_specs : gmap string label_spec) (py_int : string -> option Z)
    (py_float : string -> option float) (py_repr : string -> string)
    (CONFIG : config) (FONTS : fonts) (r : request)
    (ff font_file : string) (spec : label_spec) :
  (forall k : string, k ∈ optional_fields -> params r !! k = None) ->
  params r !! "font_family" = Some ff ->
  get_font_path CONFIG FONTS (Some (py_strip (py_rpartition "(" ff).1.1))
    (Some (py_rstrip_char ")" (py_rpartition "(" ff).2)) = Ret font_file ->
  label_type_specs !! "50" = Some spec ->
  exists c : context,
    get_label_context label_type_specs py_int py_float py_repr CONFIG FONTS r = Ret c
    /\ font_size c = 40%Z /\ label_size c = "50" /\ margin c = 10%Z
    /\ threshold c = 70%Z /\ align c = "center" /\ orientation c = "standard"
    /\ margin_top c = 10%Z /\ margin_bottom c = 10%Z
    /\ margin_left c = 10%Z /\ margin_right c = 10%Z.
Proof.
  intros Hopt Hff Hfont Hspec.
  assert (Hk : forall k, k ∈ optional_fields -> params r !! k = None) by exact Hopt.
  unfold get_label_context.
  rewrite Hff.
  rewrite !int_field_default by (apply Hk; unfold optional_fields; set_solver).
  rewrite !(Hk "label_size"), !(Hk "align"), !(Hk "orientation")
    by (unfold optional_fields; set_solver).
  cbn [default from_option mbind outcome_bind].
  unfold subscript. rewrite Hspec. cbn [mbind outcome_bind].
  destruct (default_margin py_float py_repr (params r) "margin_top")
    as (f1 & -> & Hm1); [apply Hk; unfold optional_fields; set_solver|].
  destruct (default_margin py_float py_repr (params r) "margin_bottom")
    as (f2 & -> & Hm2); [apply Hk; unfold optional_fields; set_solver|].
  destruct (default_margin py_float py_repr (params r) "margin_left")
    as (f3 & -> & Hm3); [apply Hk; unfold optional_fields; set_solver|].
  destruct (default_margin py_float py_repr (params r) "margin_right")
    as (f4 & -> & Hm4); [apply Hk; unfold optional_fields; set_solver|].
  cbn [mbind outcome_bind].
  rewrite Hm1, Hm2, Hm3, Hm4. cbn [mbind outcome_bind].
  rewrite Hfont. cbn [mbind outcome_bind].
  unfold get_label_dimensions. rewrite Hspec. cbn [mbind outcome_bind].
  destruct (ls_dots_printable spec) as [w h].
  destruct (h >? w)%Z; simpl; eexists; (split; [reflexivity|]); simpl;
    repeat split; reflexivity.
Qed.

Lemma defaults_for_omitted_fields_witness :
  exists c : context,
    sample_context (mkRequest ∅ {[ "font_family" := "DejaVu Serif (Book)" ]}) = Ret c
    /\ font_size c = 40%Z /\ label_size c = "50" /\ margin c = 10%Z
    /\ threshold c = 70%Z /\ align c = "center" /\ orientation c = "standard"
    /\ margin_top c = 10%Z /\ margin_bottom c = 10%Z
    /\ margin_left c = 10%Z /\ margin_right c = 10%Z.
Proof.
  apply (defaults_for_omitted_fields sample_label_type_specs sample_int sample_float
           sample_repr sample_config sample_fonts
           (mkRequest ∅ {[ "font_family" := "DejaVu Serif (Book)" ]})
           "DejaVu Serif (Book)" "/usr/share/fonts/DejaVuSerif.ttf"
           (mkLabelSpec "50mm endless" ENDLESS_LABEL (554, 0)%Z)).
  - intros k Hk. unfold optional_fields in Hk.
    repeat (apply elem_of_cons in Hk as [-> | Hk]; [vm_compute; reflexivity|]).
    by apply elem_of_nil in Hk.
  - vm_compute. reflexivity.
  - vm_compute. reflexivity.
  - vm_compute. reflexivity.
Defined.

(** ** The handler monad *)

Lemma with_event_result {A : Type} (ev : event) (r : run A) :
  result (with_event ev r) = result r.
Proof. reflexivity. Qed.

Lemma with_event_world {A : Type} (ev : event) (r : run A) :
  world_after (with_event ev r) = world_after r.
Proof. reflexivity. Qed.

Lemma with_event_events {A : Type} (ev : event) (r : run A) :
  events (with_event ev r) = ev :: events r.
Proof. reflexivity. Qed.

Lemma run_bind {A B : Type} (m : M A) (k : A -> M B) (w : world) :
  (m ≫= k) w = and_then (m w) k.
Proof. reflexivity. Qed.

Lemma run_bind_ret {A B : Type} (a : A) (k : A -> M B) (w : world) :
  (mret a ≫= k) w = k a w.
Proof. rewrite run_bind. unfold and_then. simpl. by destruct (k a w). Qed.

Lemma run_bind_get {B : Type} (k : globals -> M B) (w : world) :
  (get_globals ≫= k) w = k (w_globals w) w.
Proof. rewrite run_bind. unfold and_then. simpl. by destruct (k _ w). Qed.

Lemma run_bind_lift {A B : Type} (o : outcome A) (k : A -> M B) (w : world) :
  (lift o ≫= k) w
  = match o with
    | Ret a => k a w
    | Raise e => mkRun (Raise e) w []
    end.
Proof.
  rewrite run_bind. unfold and_then. destruct o; simpl; [|done].
  by destruct (k _ w).
Qed.

Lemma run_bind_emit {B : Type} (ev : event) (k : unit -> M B) (w : world) :
  (emit ev ≫= k) w = with_event ev (k tt w).
Proof. reflexivity. Qed.

Lemma run_bind_save {B : Type} (path : string) (im : image) (k : unit -> M B)
    (w : world) :
  (save_image path im ≫= k) w
  = k tt (mkWorld (w_globals w) (<[path := im]> (w_files w))).
Proof. rewrite run_bind. unfold and_then. simpl. by destruct (k _ _). Qed.

Lemma run_try_ret {A : Type} (a : A) (catches : exn -> bool) (h : exn -> M A)
    (w : world) :
  try_except (mret a) catches h w = mkRun (Ret a) w [].
Proof. reflexivity. Qed.

Lemma run_try_lift {A B : Type} (o : outcome A) (k : A -> M B)
    (catches : exn -> bool) (h : exn -> M B) (w : world) :
  try_except (lift o ≫= k) catches h w
  = match o with
    | Ret a => try_except (k a) catches h w
    | Raise e => if catches e then h e w else mkRun (Raise e) w []
    end.
Proof.
  unfold try_except. rewrite run_bind_lift. destruct o as [a|e]; [done|].
  simpl. destruct (catches e); [|done]. by destruct (h e w).
Qed.

Lemma run_try_emit {B : Type} (ev : event) (k : unit -> M B)
    (catches : exn -> bool) (h : exn -> M B) (w : world) :
  try_except (emit ev ≫= k) catches h w
  = with_event ev (try_except (k tt) catches h w).
Proof.
  unfold try_except. rewrite run_bind_emit.
  rewrite with_event_result, with_event_world, with_event_events.
  destruct (result (k tt w)) as [a|e]; [done|].
  by destruct (catches e).
Qed.

(** ** Frame and event discipline, compositionally *)

Lemma respects_ret {A : Type} (P : event -> Prop) (a : A) : respects P (mret a).
Proof. intros w. split; [done | constructor]. Qed.

Lemma respects_raise {A : Type} (P : event -> Prop) (e : exn) :
  respects P (@raise A e).
Proof. intros w. split; [done | constructor]. Qed.

Lemma respects_lift {A : Type} (P : event -> Prop) (o : outcome A) :
  respects P (lift o).
Proof. intros w. split; [done | constructor]. Qed.

Lemma respects_get (P : event -> Prop) : respects P get_globals.
Proof. intros w. split; [done | constructor]. Qed.

Lemma respects_emit (P : event -> Prop) (ev : event) : P ev -> respects P (emit ev).
Proof. intros Hev w. split; [done | by repeat constructor]. Qed.

Lemma respects_save (P : event -> Prop) (path : string) (im : image) :
  respects P (save_image path im).
Proof. intros w. split; [done | constructor]. Qed.

Lemma respects_open (P : event -> Prop) (path : string) :
  respects P (open_image path).
Proof.
  intros w. unfold open_image. destruct (w_files w !! path); split; done || constructor.
Qed.

Lemma respects_bind {A B : Type} (P : event -> Prop) (m : M A) (k : A -> M B) :
  respects P m -> (forall a : A, respects P (k a)) -> respects P (m ≫= k).
Proof.
  intros Hm Hk w. rewrite run_bind. unfold and_then.
  destruct (Hm w) as [Hg Hev]. destruct (result (m w)) as [a|e]; simpl.
  - destruct (Hk a (world_after (m w))) as [Hg' Hev'].
    split; [congruence | by apply Forall_app].
  - done.
Qed.

Lemma respects_try {A : Type} (P : event -> Prop) (body : M A)
    (catches : exn -> bool) (h : exn -> M A) :
  respects P body -> (forall e : exn, respects P (h e)) ->
  respects P (try_except body catches h).
Proof.
  intros Hb Hh w. unfold try_except.
  destruct (Hb w) as [Hg Hev]. destruct (result (body w)) as [a|e]; [done|].
  destruct (catches e); [|done]. simpl.
  destruct (Hh e (world_after (body w))) as [Hg' Hev'].
  split; [congruence | by apply Forall_app].
Qed.

Lemma respects_weaken {A : Type} (P Q : event -> Prop) (m : M A) :
  (forall ev : event, P ev -> Q ev) -> respects P m -> respects Q m.
Proof.
  intros HPQ Hm w. destruct (Hm w) as [Hg Hev].
  split; [done | by eapply Forall_impl].
Qed.

Create HintDb respects.
#[local] Hint Resolve respects_ret respects_raise respects_lift respects_get
  respects_save respects_open : respects.

(** Decompose a handler into its primitive steps. *)
Ltac respects_steps :=
  repeat first
    [ apply respects_bind; [|intros ?]
    | apply respects_try; [|intros ?]
    | apply respects_ret | apply respects_raise | apply respects_lift
    | apply respects_get | apply respects_save | apply respects_open
    | apply respects_emit
    | match goal with
      | |- respects _ (if ?b then _ else _) => destruct b
      | |- respects _ (match ?x with _ => _ end) => destruct x
      | |- respects _ (let '_ := ?x in _) => destruct x
      end ].

(** ** Counting writes *)

Lemma count_writes_app (l1 l2 : list event) :
  count_writes (l1 ++ l2) = (count_writes l1 + count_writes l2)%nat.
Proof. unfold count_writes. by rewrite List.filter_app, length_app. Qed.

Lemma count_writes_log (l : list event) : Forall is_log l -> count_writes l = 0%nat.
Proof.
  unfold count_writes. induction 1 as [|ev l Hev _ IH]; [done|].
  destruct ev; simpl in *; done.
Qed.

(** ** Substrings *)

Lemma append_cons (a : ascii) (x y : string) : String a x +:+ y = String a (x +:+ y).
Proof. reflexivity. Qed.

Lemma append_nil (y : string) : EmptyString +:+ y = y.
Proof. reflexivity. Qed.

Lemma prefix_spec (needle s : string) :
  String.prefix needle s = true <-> exists post : string, s = needle +:+ post.
Proof.
  revert s. induction needle as [|a needle IH]; intros s.
  - split; [intros _; by exists s | intros _; by destruct s].
  - destruct s as [|b s]; [split; [done | intros [post Hpost]; discriminate]|].
    cbn [String.prefix String.append].
    destruct (Ascii.ascii_dec a b) as [->|Hne].
    + rewrite IH. split; intros [post Hpost]; exists post;
        rewrite ?append_cons in *; congruence.
    + split; [done|]. intros [post Hpost]. rewrite append_cons in Hpost. congruence.
Qed.

Lemma py_contains_spec (needle s : string) :
  py_contains needle s = true <-> has_substring needle s.
Proof.
  unfold has_substring. split.
  - induction s as [|a s IH].
    + cbn [py_contains]. rewrite orb_false_r. intros [post Hpost]%prefix_spec.
      by exists EmptyString, post.
    + cbn [py_contains]. intros [Hp|Hc]%orb_prop.
      * apply prefix_spec in Hp as [post Hpost]. by exists EmptyString, post.
      * destruct (IH Hc) as (pre & post & ->). by exists (String a pre), post.
  - intros (pre & post & ->). induction pre as [|a pre IH].
    + rewrite append_nil.
      assert (Hp : String.prefix needle (needle +:+ post) = true)
        by (apply prefix_spec; by exists post).
      destruct (needle +:+ post); cbn [py_contains]; by rewrite Hp.
    + rewrite append_cons. cbn [py_contains]. rewrite IH. apply orb_true_r.
Qed.

(** ** Base64 round trip *)

Lemma b64_index_char (n : N) : (n < 64)%N -> b64_index (b64_char n) = Some n.
Proof.
  intros Hn.
  assert (Hall : forallb (fun k => match b64_index (b64_char k) with
                                   | Some k' => (k' =? k)%N
                                   | None => false
                                   end)
                   (N.of_nat <$> seq 0 64) = true) by (vm_compute; reflexivity).
  rewrite forallb_forall in Hall.
  specialize (Hall n).
  destruct (b64_index (b64_char n)) as [k'|].
  - f_equal. apply N.eqb_eq, Hall.
    apply list_elem_of_In, list_elem_of_fmap. exists (N.to_nat n).
    split; [lia|]. apply elem_of_seq. lia.
  - exfalso. enough (false = true) by discriminate. apply Hall.
    apply list_elem_of_In, list_elem_of_fmap. exists (N.to_nat n).
    split; [lia|]. apply elem_of_seq. lia.
Qed.

Lemma b64_char_not_pad (n : N) : (n < 64)%N -> is_b64_pad (b64_char n) = false.
Proof.
  intros Hn.
  assert (Hall : forallb (fun k => negb (is_b64_pad (b64_char k)))
                   (N.of_nat <$> seq 0 64) = true) by (vm_compute; reflexivity).
  rewrite forallb_forall in Hall.
  apply negb_true_iff, Hall.
  apply list_elem_of_In, list_elem_of_fmap. exists (N.to_nat n).
  split; [lia|]. apply elem_of_seq. lia.
Qed.

Lemma byte_of_N_to_N (x : N) (b : byte) : x = Byte.to_N b -> Byte.of_N x = Some b.
Proof. intros ->. apply Byte.of_to_N. Qed.

Lemma byte_lt_256 (b : byte) : (Byte.to_N b < 256)%N.
Proof. pose proof (Byte.to_N_bounded b). lia. Qed.

Ltac b64_arith :=
  repeat match goal with
         | |- context [Byte.to_N ?b] =>
             let H := fresh in
             pose proof (byte_lt_256 b) as H;
             generalize dependent (Byte.to_N b); intros
         end;
  zify; Z.to_euclidean_division_equations; lia.

Lemma bind_b64_index {B : Type} (n : N) (k : N -> option B) :
  (n < 64)%N -> (b64_index (b64_char n) ≫= k) = k n.
Proof. intros Hn. by rewrite b64_index_char. Qed.

Lemma bind_byte_of_N {B : Type} (x : N) (b : byte) (k : byte -> option B) :
  x = Byte.to_N b -> (Byte.of_N x ≫= k) = k b.
Proof. intros Hx. by rewrite (byte_of_N_to_N x b). Qed.

Lemma b64decode_encode (data : bytes) : b64decode (b64encode data) = Some data.
Proof.
  assert (H : forall (n : nat) (d : bytes),
             (length d <= n)%nat -> b64decode (b64encode d) = Some d).
  2: { by apply (H (length data)). }
  induction n as [|n IH]; intros d Hlen.
  { destruct d; [done | simpl in Hlen; lia]. }
  destruct d as [|a [|b [|c rest]]]; [done|..].
  - cbn [b64encode b64decode].
    rewrite bind_b64_index by b64_arith.
    rewrite bind_b64_index by b64_arith.
    rewrite (bind_byte_of_N _ a) by b64_arith.
    done.
  - cbn [b64encode b64decode].
    rewrite bind_b64_index by b64_arith.
    rewrite bind_b64_index by b64_arith.
    rewrite (bind_byte_of_N _ a) by b64_arith.
    rewrite b64_char_not_pad by b64_arith.
    rewrite bind_b64_index by b64_arith.
    rewrite (bind_byte_of_N _ b) by b64_arith.
    done.
  - cbn [b64encode b64decode].
    rewrite bind_b64_index by b64_arith.
    rewrite bind_b64_index by b64_arith.
    rewrite (bind_byte_of_N _ a) by b64_arith.
    rewrite b64_char_not_pad by b64_arith.
    rewrite bind_b64_index by b64_arith.
    rewrite (bind_byte_of_N _ b) by b64_arith.
    rewrite b64_char_not_pad by b64_arith.
    rewrite bind_b64_index by b64_arith.
    rewrite (bind_byte_of_N _ c) by b64_arith.
    rewrite IH by (simpl in Hlen; lia).
    done.
Qed.


(** ** Facts about the handlers *)

Section HandlerFacts.

Set Default Proof Using "Type".

Context (label_type_specs : gmap string label_spec)
  (py_int : string -> option Z) (py_float : string -> option float)
  (py_repr : string -> string)
  (truetype : string -> Z -> outcome font)
  (multiline_textsize : font -> string -> Z * Z)
  (png_encode : image -> outcome bytes)
  (dmtx_encode : string -> outcome (Z * Z * bytes))
  (code128_png : option string -> outcome image)
  (textwrap_fill : string -> Z -> string)
  (new_raster : pyval -> outcome unit)
  (create_label :
     pyval -> option image -> string -> bool -> Z -> bool -> rotate_arg -> outcome bytes)
  (py_str_bytes : bytes -> string)
  (environ : gmap string string)
  (static_file : string -> string -> outcome bytes).

Lemma send_to_printer_respects (P : event -> Prop) (G : globals) (data : bytes)
    (rd : return_dict) :
  (forall ev : event,
     match ev with RasterCreate _ _ _ _ _ _ _ => False | _ => True end -> P ev) ->
  respects P (send_to_printer G data rd).
Proof.
  intros HP. unfold send_to_printer. respects_steps; apply HP; exact I.
Qed.

Lemma print_label_respects (c : context) (im : option image) (rd : return_dict) :
  respects (raster_matches c) (print_label new_raster create_label py_str_bytes c im rd).
Proof.
  unfold print_label. respects_steps.
  all: try (apply send_to_printer_respects; intros [] ?; done).
  simpl. split; [done | by destruct (py_contains _ _)].
Qed.

Lemma create_label_grocy_1d_respects (c : context) :
  respects is_log (create_label_grocy_1d truetype code128_png c).
Proof.
  unfold create_label_grocy_1d. respects_steps; done.
Qed.

Lemma create_label_grocy_respects (c : context) :
  respects is_log (create_label_grocy truetype dmtx_encode textwrap_fill c).
Proof.
  unfold create_label_grocy. respects_steps; done.
Qed.

Lemma grocy_image_respects (c : context) :
  respects is_log
    (grocy_image truetype dmtx_encode code128_png textwrap_fill environ c).
Proof.
  unfold grocy_image.
  destruct (match environ !! "Code128" with Some _ => _ | None => _ end).
  - apply create_label_grocy_1d_respects.
  - apply respects_bind; [apply create_label_grocy_respects | intros; apply respects_ret].
Qed.

Lemma label_context_respects (P : event -> Prop) (r : request) :
  respects P (label_context label_type_specs py_int py_float py_repr r).
Proof. unfold label_context. respects_steps. Qed.

Lemma context_or_error_respects (P : event -> Prop) (r : request) (rd : return_dict) :
  respects P (context_or_error label_type_specs py_int py_float py_repr r rd).
Proof.
  unfold context_or_error. apply respects_try.
  - apply respects_bind; [apply label_context_respects | intros; apply respects_ret].
  - intros e. respects_steps.
Qed.

Lemma print_text_respects (r : request) :
  respects (fun _ => True)
    (print_text label_type_specs py_int py_float py_repr truetype multiline_textsize
       new_raster create_label py_str_bytes r).
Proof.
  unfold print_text.
  apply respects_bind; [apply context_or_error_respects|].
  intros [early|c]; [apply respects_ret|].
  destruct (text c); [|apply respects_ret].
  apply respects_bind; [apply respects_lift|]. intros im.
  eapply respects_weaken; [|apply print_label_respects]. done.
Qed.

Lemma print_grocy_respects (r : request) :
  respects (fun _ => True)
    (print_grocy label_type_specs py_int py_float py_repr truetype dmtx_encode
       code128_png textwrap_fill new_raster create_label py_str_bytes environ r).
Proof.
  unfold print_grocy.
  apply respects_bind; [apply context_or_error_respects|].
  intros [early|c]; [apply respects_ret|].
  destruct (_ && _); [apply respects_ret|].
  apply respects_bind.
  - eapply respects_weaken; [|apply grocy_image_respects]. done.
  - intros im. eapply respects_weaken; [|apply print_label_respects]. done.
Qed.

Lemma get_preview_image_respects (r : request) :
  respects (fun _ => True)
    (get_preview_image label_type_specs py_int py_float py_repr truetype
       multiline_textsize png_encode r).
Proof.
  unfold get_preview_image.
  apply respects_bind; [apply label_context_respects|]. intros c.
  apply respects_bind; [apply respects_lift|]. intros im.
  destruct (String.eqb _ _); respects_steps; done.
Qed.

(** C6: whatever the request, and whether the handler returns or raises,
    every endpoint leaves the globals (CONFIG, FONTS, LABEL_SIZES and the
    rest) exactly as it found them. *)
Theorem handlers_keep_globals (ep : endpoint) (r : request) (w : world) :
  let after :=
    world_after
      (handle label_type_specs py_int py_float py_repr truetype multiline_textsize
         png_encode dmtx_encode code128_png textwrap_fill new_raster create_label
         py_str_bytes environ static_file ep r w) in
  CONFIG (w_globals after) = CONFIG (w_globals w)
  /\ FONTS (w_globals after) = FONTS (w_globals w)
  /\ LABEL_SIZES (w_globals after) = LABEL_SIZES (w_globals w)
  /\ w_globals after = w_globals w.
Proof.
  intros after.
  assert (Hg : w_globals after = w_globals w); [|by rewrite Hg].
  subst after.
  enough (H : respects (fun _ => True)
                (handle label_type_specs py_int py_float py_repr truetype
                   multiline_textsize png_encode dmtx_encode code128_png
                   textwrap_fill new_raster create_label py_str_bytes environ
                   static_file ep r)) by apply H.
  destruct ep; unfold handle, index, serve_static, labeldesigner.
  - respects_steps.
  - respects_steps.
  - respects_steps.
  - apply respects_bind; [apply get_preview_image_respects | intros; apply respects_ret].
  - apply respects_bind; [apply print_grocy_respects | intros; apply respects_ret].
  - apply respects_bind; [apply print_text_respects | intros; apply respects_ret].
Qed.


(** *** Running the print handlers *)

Lemma label_context_run (r : request) (w : world) :
  label_context label_type_specs py_int py_float py_repr r w
  = mkRun (get_label_context label_type_specs py_int py_float py_repr
             (CONFIG (w_globals w)) (FONTS (w_globals w)) r) w [].
Proof. unfold label_context. by rewrite run_bind_get. Qed.

Lemma context_or_error_run (r : request) (rd : return_dict) (w : world) :
  context_or_error label_type_specs py_int py_float py_repr r rd w
  = match get_label_context label_type_specs py_int py_float py_repr
            (CONFIG (w_globals w)) (FONTS (w_globals w)) r with
    | Ret c => mkRun (Ret (inr c)) w []
    | Raise e =>
        if is_LookupError e then
          mkRun (Raise (mkExn AttributeError
                   ("'" +:+ class_name (exn_type e)
                    +:+ "' object has no attribute 'msg'"))) w []
        else mkRun (Raise e) w []
    end.
Proof.
  unfold context_or_error, try_except.
  rewrite run_bind, label_context_run. unfold and_then.
  destruct (get_label_context _ _ _ _ _ _ _) as [c|e]; [done|].
  cbn [result world_after events]. destruct (is_LookupError e); [|done].
  rewrite run_bind_lift. done.
Qed.

Lemma print_text_run (r : request) (w : world) :
  print_text label_type_specs py_int py_float py_repr truetype multiline_textsize
    new_raster create_label py_str_bytes r w
  = match get_label_context label_type_specs py_int py_float py_repr
            (CONFIG (w_globals w)) (FONTS (w_globals w)) r with
    | Ret c =>
        match text c with
        | None =>
            mkRun (Ret (<["error" := PyStr "Please provide the text for the label"]>
                          {[ "success" := PyBool false ]})) w []
        | Some _ =>
            match create_label_im truetype multiline_textsize c with
            | Ret im =>
                print_label new_raster create_label py_str_bytes c (Some im)
                  {[ "success" := PyBool false ]} w
            | Raise e => mkRun (Raise e) w []
            end
        end
    | Raise e =>
        if is_LookupError e then
          mkRun (Raise (mkExn AttributeError
                   ("'" +:+ class_name (exn_type e)
                    +:+ "' object has no attribute 'msg'"))) w []
        else mkRun (Raise e) w []
    end.
Proof.
  unfold print_text. rewrite run_bind, context_or_error_run. unfold and_then.
  destruct (get_label_context _ _ _ _ _ _ _) as [c|e].
  - cbn [result world_after events app].
    destruct (text c); [|done].
    rewrite run_bind_lift.
    destruct (create_label_im _ _ c); [|done].
    by destruct (print_label _ _ _ _ _ _ _).
  - by destruct (is_LookupError e).
Qed.

Lemma print_grocy_run (r : request) (w : world) :
  print_grocy label_type_specs py_int py_float py_repr truetype dmtx_encode
    code128_png textwrap_fill new_raster create_label py_str_bytes environ r w
  = match get_label_context label_type_specs py_int py_float py_repr
            (CONFIG (w_globals w)) (FONTS (w_globals w)) r with
    | Ret c =>
        if bool_decide (product c = None) && truthy_opt (battery c)
           && truthy_opt (chore c)
        then mkRun (Ret grocy_validation_error) w []
        else
          and_then
            (grocy_image truetype dmtx_encode code128_png textwrap_fill environ c w)
            (fun im =>
               print_label new_raster create_label py_str_bytes c im
                 {[ "success" := PyBool false ]})
    | Raise e =>
        if is_LookupError e then
          mkRun (Raise (mkExn AttributeError
                   ("'" +:+ class_name (exn_type e)
                    +:+ "' object has no attribute 'msg'"))) w []
        else mkRun (Raise e) w []
    end.
Proof.
  unfold print_grocy. rewrite run_bind, context_or_error_run. unfold and_then at 1.
  destruct (get_label_context _ _ _ _ _ _ _) as [c|e].
  - cbn [result world_after events app].
    destruct (_ && _); [done|].
    rewrite run_bind.
    by destruct (and_then _ _).
  - by destruct (is_LookupError e).
Qed.

Lemma send_to_printer_run (G : globals) (data : bytes) (rd : return_dict)
    (w : world) :
  send_to_printer G data rd w
  = if DEBUG G then mkRun (Ret None) w []
    else
      let printer := PRINTER (PRINTER_SECTION (CONFIG G)) in
      match be_init (BACKEND_CLASS G) printer with
      | Raise e => after_transport_failure rd w e [BackendOpen printer]
      | Ret _ =>
          match be_write (BACKEND_CLASS G) data with
          | Raise e =>
              after_transport_failure rd w e [BackendOpen printer; BackendWrite data]
          | Ret _ =>
              match be_dispose (BACKEND_CLASS G) with
              | Raise e =>
                  after_transport_failure rd w e
                    [BackendOpen printer; BackendWrite data; BackendDispose]
              | Ret _ =>
                  mkRun (Ret None) w
                    [BackendOpen printer; BackendWrite data; BackendDispose]
              end
          end
      end.
Proof.
  unfold send_to_printer, after_transport_failure.
  destruct (DEBUG G); [done|]. cbn [negb]. cbv zeta.
  rewrite run_try_emit, run_try_lift.
  destruct (be_init _ _) as [[]|e]; [|by destruct (is_Exception e)].
  rewrite run_try_emit, run_try_lift.
  destruct (be_write _ _) as [[]|e]; [|by destruct (is_Exception e)].
  rewrite run_try_emit, run_try_lift.
  destruct (be_dispose _) as [[]|e]; [|by destruct (is_Exception e)].
  done.
Qed.

(** Run [print_label] up to the transport, splitting on every answer of
    the driver, and lay out each resulting run explicitly. *)
Ltac run_print_label :=
  unfold print_label;
  rewrite run_bind_get; cbv beta;
  let HD := fresh "HD" in
  destruct (DEBUG (w_globals _)) eqn:HD;
  [ match goal with
    | im : option image |- _ => destruct im
    end;
    [ rewrite run_bind_save | rewrite run_bind_lift ]
  | rewrite run_bind_ret ];
  cbv beta iota zeta delta [none_has_no_attribute];
  try (rewrite run_bind_lift;
       destruct (new_raster _) as [[]|?];
       [ rewrite run_bind_lift;
         destruct (choose_rotate _);
         cbv beta iota delta [unbound_local];
         [ rewrite run_bind_emit, run_bind_lift;
           destruct (create_label _ _ _ _ _ _ _);
           [ rewrite run_bind, send_to_printer_run;
             cbn [w_globals]; rewrite ?HD; cbv zeta;
             try (destruct (be_init _ _) as [[]|?];
                  [ destruct (be_write _ _) as [[]|?] eqn:?;
                    [ destruct (be_dispose _) as [[]|?] | ]
                  | ]);
             unfold after_transport_failure;
             try match goal with
                 | |- context [is_Exception ?e] => destruct (is_Exception e) eqn:?
                 end
           | ]
         | ]
       | ]).

Lemma print_label_shape (c : context) (im : option image) (rd : return_dict)
    (w : world) :
  let r := print_label new_raster create_label py_str_bytes c im rd w in
  (count_writes (events r) <= 1)%nat
  /\ (forall d : return_dict, result r = Ret d -> d !! "error" = rd !! "error")
  /\ (forall (data : bytes) (e : exn),
        BackendWrite data ∈ events r ->
        be_write (BACKEND_CLASS (w_globals w)) data = Raise e ->
        is_Exception e = true ->
        result r = Ret (<["message" := PyStr (exn_str e)]> rd)
        /\ exists pre : list event,
             events r
             = (pre ++ [BackendWrite data;
                        LogWarning ("Exception happened: " +:+ exn_str e)])%list
             /\ count_writes pre = 0%nat).
Proof.
  intros r; subst r. run_print_label.
  all: unfold and_then, with_event;
    cbn [result world_after events app mret M_ret].
  all: split; [unfold count_writes; simpl; lia|].
  all: split;
    [ intros d Hd; simplify_eq; by rewrite ?lookup_insert_ne by done | ].
  all: intros data0 e0 Hin Hw He.
  all: repeat (apply elem_of_cons in Hin as [Hin|Hin]; [try discriminate|]);
    try (by apply elem_of_nil in Hin).
  all: simplify_eq.
  all: try congruence.
  assert (e0 = e) as -> by congruence.
  split; [done|]. eexists [_; _]. split; reflexivity.
Qed.


(** *** Events of the grocy renderers *)

Lemma grocy_then_print_events (c : context) (w : world) :
  let r1 := grocy_image truetype dmtx_encode code128_png textwrap_fill environ c w in
  let r := and_then r1
             (fun im => print_label new_raster create_label py_str_bytes c im
                          {[ "success" := PyBool false ]}) in
  Forall is_log (events r1)
  /\ w_globals (world_after r1) = w_globals w
  /\ ((exists e : exn, result r1 = Raise e /\ result r = Raise e
                       /\ events r = events r1)
      \/ (exists im : option image,
            result r1 = Ret im
            /\ result r = result (print_label new_raster create_label py_str_bytes
                                    c im {[ "success" := PyBool false ]}
                                    (world_after r1))
            /\ events r
               = (events r1
                  ++ events (print_label new_raster create_label py_str_bytes
                               c im {[ "success" := PyBool false ]}
                               (world_after r1)))%list)).
Proof.
  intros r1 r. destruct (grocy_image_respects c w) as [Hg Hlog].
  split; [done|]. split; [done|].
  subst r. unfold and_then. fold r1. destruct (result r1) as [im|e] eqn:Hr.
  - right. by exists im.
  - left. by exists e.
Qed.

(** ** The claims about the print handlers *)

(** C2: in either print handler, when the transport's write was invoked
    on [data] and raises an instance [e] of Exception, the handler returns
    the dictionary with success false and message [str(e)], and a warning
    was logged; nothing propagates. *)
Theorem transport_failure_reported (r : request) (w : world) (data : bytes)
    (e : exn) :
  let text_run :=
    print_text label_type_specs py_int py_float py_repr truetype multiline_textsize
      new_raster create_label py_str_bytes r w in
  let grocy_run :=
    print_grocy label_type_specs py_int py_float py_repr truetype dmtx_encode
      code128_png textwrap_fill new_raster create_label py_str_bytes environ r w in
  be_write (BACKEND_CLASS (w_globals w)) data = Raise e ->
  is_Exception e = true ->
  (BackendWrite data ∈ events text_run ->
   result text_run = Ret (transport_error e)
   /\ LogWarning ("Exception happened: " +:+ exn_str e) ∈ events text_run)
  /\ (BackendWrite data ∈ events grocy_run ->
      result grocy_run = Ret (transport_error e)
      /\ LogWarning ("Exception happened: " +:+ exn_str e) ∈ events grocy_run).
Proof.
  intros text_run grocy_run Hw He. split.
  - subst text_run grocy_run. rewrite print_text_run.
    destruct (get_label_context _ _ _ _ _ _ _) as [c|e0];
      [|destruct (is_LookupError e0); intros Hin; by apply elem_of_nil in Hin].
    destruct (text c); [|intros Hin; by apply elem_of_nil in Hin].
    destruct (create_label_im _ _ c) as [im|e0];
      [|intros Hin; by apply elem_of_nil in Hin].
    intros Hin.
    destruct (print_label_shape c (Some im) {[ "success" := PyBool false ]} w)
      as (_ & _ & Hfail).
    destruct (Hfail data e Hin Hw He) as (Hres & pre & Hev & _).
    split; [done|]. rewrite Hev.
    apply elem_of_app; right. apply elem_of_cons; right. apply elem_of_cons; by left.
  - subst text_run grocy_run. rewrite print_grocy_run.
    destruct (get_label_context _ _ _ _ _ _ _) as [c|e0];
      [|destruct (is_LookupError e0); intros Hin; by apply elem_of_nil in Hin].
    destruct (_ && _); [intros Hin; by apply elem_of_nil in Hin|].
    destruct (grocy_then_print_events c w)
      as (Hlog & Hg & [(e0 & _ & _ & Hev) | (im & _ & Hres & Hev)]);
      rewrite Hev; intros Hin.
    + exfalso. eapply Forall_forall in Hlog; [|exact Hin]. done.
    + apply elem_of_app in Hin as [Hin|Hin].
      { exfalso. eapply Forall_forall in Hlog; [|exact Hin]. done. }
      destruct (print_label_shape c im {[ "success" := PyBool false ]}
                  (world_after
                     (grocy_image truetype dmtx_encode code128_png textwrap_fill
                        environ c w)))
        as (_ & _ & Hfail).
      rewrite Hg in Hfail.
      destruct (Hfail data e Hin Hw He) as (Hres' & pre & Hev' & _).
      split; [by rewrite Hres|]. rewrite Hev'.
      apply elem_of_app; right. apply elem_of_app; right.
      apply elem_of_cons; right. apply elem_of_cons; by left.
Qed.



(** C8: print_grocy returns the validation error exactly when a context
    was built whose product is None while battery and chore are both
    truthy; with all three absent it goes on to render the label and to
    print it. *)
Theorem grocy_validation_branch (r : request) (w : world) :
  let parsed :=
    get_label_context label_type_specs py_int py_float py_repr
      (CONFIG (w_globals w)) (FONTS (w_globals w)) r in
  let grocy_run :=
    print_grocy label_type_specs py_int py_float py_repr truetype dmtx_encode
      code128_png textwrap_fill new_raster create_label py_str_bytes environ r w in
  (result grocy_run = Ret grocy_validation_error
   <-> exists c : context,
         parsed = Ret c /\ product c = None
         /\ truthy_opt (battery c) = true /\ truthy_opt (chore c) = true)
  /\ (forall c : context,
        parsed = Ret c ->
        product c = None -> battery c = None -> chore c = None ->
        grocy_run
        = and_then
            (grocy_image truetype dmtx_encode code128_png textwrap_fill environ c w)
            (fun im =>
               print_label new_raster create_label py_str_bytes c im
                 {[ "success" := PyBool false ]})).
Proof.
  intros parsed grocy_run. subst parsed grocy_run. rewrite print_grocy_run.
  destruct (get_label_context _ _ _ _ _ _ _) as [c|e0].
  2: { split; [|intros c Hc; discriminate].
       split; [|intros (c & Hc & _); discriminate].
       by destruct (is_LookupError e0). }
  split.
  - destruct (bool_decide (product c = None) && truthy_opt (battery c)
              && truthy_opt (chore c)) eqn:Hcond.
    + apply andb_prop in Hcond as [Hcond Hchore].
      apply andb_prop in Hcond as [Hprod Hbat].
      apply bool_decide_eq_true in Hprod.
      split; [|done]. intros _. by exists c.
    + split.
      * intros Hres. exfalso.
        destruct (grocy_then_print_events c w)
          as (_ & _ & [(e0 & _ & Hr & _) | (im & _ & Hr & _)]);
          cbn zeta in Hr; rewrite Hr in Hres; [discriminate|].
        destruct (print_label_shape c im {[ "success" := PyBool false ]}
                    (world_after
                       (grocy_image truetype dmtx_encode code128_png textwrap_fill
                          environ c w)))
          as (_ & Herr & _).
        apply Herr in Hres. unfold grocy_validation_error in Hres.
        rewrite lookup_insert_eq, lookup_singleton_ne in Hres by done.
        discriminate.
      * intros (c' & Hc & Hprod & Hbat & Hchore). simplify_eq.
        rewrite Hbat, Hchore, bool_decide_eq_true_2 in Hcond by done.
        discriminate.
  - intros c' Hc Hprod Hbat Hchore. simplify_eq.
    rewrite Hbat. cbn [truthy_opt]. by rewrite andb_false_r.
Qed.


(** C10: the fill colour of a context is red exactly when its label size
    contains "red" and black otherwise, and every raster creation of a
    print handler passes the request's label size with [red] true under
    exactly that condition. *)
Theorem red_iff_label_size_names_red (r : request) (w : world) :
  let parsed :=
    get_label_context label_type_specs py_int py_float py_repr
      (CONFIG (w_globals w)) (FONTS (w_globals w)) r in
  let text_run :=
    print_text label_type_specs py_int py_float py_repr truetype multiline_textsize
      new_raster create_label py_str_bytes r w in
  let grocy_run :=
    print_grocy label_type_specs py_int py_float py_repr truetype dmtx_encode
      code128_png textwrap_fill new_raster create_label py_str_bytes environ r w in
  (forall c : context,
     parsed = Ret c ->
     (fill_color c = (255, 0, 0)%Z <-> has_substring "red" (label_size c))
     /\ (~ has_substring "red" (label_size c) -> fill_color c = (0, 0, 0)%Z))
  /\ (forall (model : pyval) (im : option image) (ls : string) (red : bool)
             (th : Z) (cut : bool) (rot : rotate_arg),
        RasterCreate model im ls red th cut rot
          ∈ (events text_run ++ events grocy_run)%list ->
        ls = default "50" (params r !! "label_size")
        /\ (red = true <-> has_substring "red" ls)).
Proof.
  intros parsed text_run grocy_run. split.
  - intros c Hc. apply get_label_context_ret in Hc as (_ & Hfill & _).
    rewrite Hfill, <- py_contains_spec.
    destruct (py_contains "red" (label_size c)).
    + split; [done|]. intros Hn. by destruct Hn.
    + split; [split; [intros [=] | discriminate] | done].
  - intros model im ls red th cut rot Hin.
    enough (Hc : exists c : context,
               parsed = Ret c /\ raster_matches c
                                   (RasterCreate model im ls red th cut rot)).
    { destruct Hc as (c & Hc & Hls & Hred).
      apply get_label_context_ret in Hc as (Hsize & _).
      rewrite <- py_contains_spec. split; [congruence | by rewrite Hred]. }
    subst parsed text_run grocy_run.
    rewrite print_text_run, print_grocy_run in Hin.
    destruct (get_label_context _ _ _ _ _ _ _) as [c|e0].
    2: { destruct (is_LookupError e0); by apply elem_of_nil in Hin. }
    exists c. split; [done|].
    apply elem_of_app in Hin as [Hin|Hin].
    + destruct (text c); [|by apply elem_of_nil in Hin].
      destruct (create_label_im _ _ c) as [i|e0]; [|by apply elem_of_nil in Hin].
      destruct (print_label_respects c (Some i) {[ "success" := PyBool false ]} w)
        as [_ Hall].
      eapply Forall_forall in Hall; [exact Hall | exact Hin].
    + destruct (_ && _); [by apply elem_of_nil in Hin|].
      destruct (grocy_then_print_events c w)
        as (Hlog & _ & [(e0 & _ & _ & Hev) | (i & _ & _ & Hev)]);
        rewrite Hev in Hin.
      * eapply Forall_forall in Hlog; [|exact Hin]. done.
      * apply elem_of_app in Hin as [Hin|Hin].
        { eapply Forall_forall in Hlog; [|exact Hin]. done. }
        destruct (print_label_respects c i {[ "success" := PyBool false ]}
                    (world_after
                       (grocy_image truetype dmtx_encode code128_png textwrap_fill
                          environ c w)))
          as [_ Hall].
        eapply Forall_forall in Hall; [exact Hall | exact Hin].
Qed.


(** *** Preview *)

(** The context depends on the request only through the fields it reads;
    [return_format] is not one of them. *)
Lemma get_label_context_ext (CONFIG : config) (FONTS : fonts) (r1 r2 : request) :
  (forall k : string, k ≠ "return_format" -> params r1 !! k = params r2 !! k) ->
  get_label_context label_type_specs py_int py_float py_repr CONFIG FONTS r1
  = get_label_context label_type_specs py_int py_float py_repr CONFIG FONTS r2.
Proof.
  intros H. unfold get_label_context, int_field, percent_field.
  repeat match goal with
         | |- context [params r1 !! ?k] => rewrite (H k) by done
         end.
  reflexivity.
Qed.

Lemma get_preview_image_run (r : request) (w : world) :
  get_preview_image label_type_specs py_int py_float py_repr truetype
    multiline_textsize png_encode r w
  = match get_label_context label_type_specs py_int py_float py_repr
            (CONFIG (w_globals w)) (FONTS (w_globals w)) r with
    | Ret c =>
        match create_label_im truetype multiline_textsize c with
        | Ret im =>
            let base64 :=
              String.eqb (default "png" (query r !! "return_format")) "base64" in
            let header :=
              SetHeader "Content-type"
                (if base64 then "text/plain" else "image/png") in
            match png_encode im with
            | Ret png =>
                mkRun (Ret (if base64 then b64encode png else png)) w [header]
            | Raise e => mkRun (Raise e) w [header]
            end
        | Raise e => mkRun (Raise e) w []
        end
    | Raise e => mkRun (Raise e) w []
    end.
Proof.
  unfold get_preview_image. rewrite run_bind, label_context_run. unfold and_then.
  destruct (get_label_context _ _ _ _ _ _ _) as [c|e]; [|done].
  cbn [result world_after events app]. rewrite run_bind_lift.
  destruct (create_label_im _ _ c) as [im|e]; [|done].
  cbv zeta. unfold image_to_png_bytes.
  destruct (String.eqb _ _); rewrite run_bind_emit.
  - rewrite run_bind_lift. by destruct (png_encode im).
  - unfold lift, with_event. cbn [result world_after events].
    by destruct (png_encode im).
Qed.

(** C9: for two requests that differ only in the query's [return_format],
    one asking for base64 and the other not, a preview body [body] of the
    latter is answered by the base64 encoding of [body] for the former,
    and decoding that text gives [body] back, byte for byte. *)
Theorem preview_base64_of_png (r_png r_b64 : request) (w : world) (body : bytes) :
  forms r_b64 = forms r_png ->
  (forall k : string, k ≠ "return_format" -> query r_b64 !! k = query r_png !! k) ->
  query r_b64 !! "return_format" = Some "base64" ->
  query r_png !! "return_format" ≠ Some "base64" ->
  result (get_preview_image label_type_specs py_int py_float py_repr truetype
            multiline_textsize png_encode r_png w) = Ret body ->
  result (get_preview_image label_type_specs py_int py_float py_repr truetype
            multiline_textsize png_encode r_b64 w) = Ret (b64encode body)
  /\ b64decode (b64encode body) = Some body.
Proof.
  intros Hforms Hquery Hb64 Hpng Hbody.
  split; [|apply b64decode_encode].
  rewrite get_preview_image_run in *.
  rewrite (get_label_context_ext _ _ r_b64 r_png).
  2: { intros k Hk. unfold params. rewrite !lookup_union, Hforms, (Hquery k Hk).
       done. }
  destruct (get_label_context _ _ _ _ _ _ _) as [c|e]; [|done].
  destruct (create_label_im _ _ c) as [im|e]; [|done].
  cbv zeta in *.
  rewrite Hb64. cbn [default from_option]. rewrite String.eqb_refl.
  destruct (png_encode im) as [png|e]; [|done].
  destruct (String.eqb _ _) eqn:Heq in Hbody.
  - exfalso. apply String.eqb_eq in Heq. apply Hpng.
    destruct (query r_png !! "return_format"); simpl in Heq; [congruence|discriminate].
  - cbn [result] in *. congruence.
Qed.

End HandlerFacts.

(** ** Unknown font or label size *)

(** Whenever building the context fails with a LookupError (a KeyError
    included), both print handlers end by raising AttributeError. *)
Lemma lookup_error_escapes
    (label_type_specs : gmap string label_spec) (py_int : string -> option Z)
    (py_float : string -> option float) (py_repr : string -> string)
    (truetype : string -> Z -> outcome font)
    (multiline_textsize : font -> string -> Z * Z)
    (dmtx_encode : string -> outcome (Z * Z * bytes))
    (code128_png : option string -> outcome image)
    (textwrap_fill : string -> Z -> string)
    (new_raster : pyval -> outcome unit)
    (create_label :
       pyval -> option image -> string -> bool -> Z -> bool -> rotate_arg
       -> outcome bytes)
    (py_str_bytes : bytes -> string) (environ : gmap string string)
    (r : request) (w : world) (e : exn) :
  get_label_context label_type_specs py_int py_float py_repr
    (CONFIG (w_globals w)) (FONTS (w_globals w)) r = Raise e ->
  is_LookupError e = true ->
  let escaped :=
    Raise (mkExn AttributeError
             ("'" +:+ class_name (exn_type e) +:+ "' object has no attribute 'msg'")) in
  result (print_text label_type_specs py_int py_float py_repr truetype
            multiline_textsize new_raster create_label py_str_bytes r w) = escaped
  /\ result (print_grocy label_type_specs py_int py_float py_repr truetype
               dmtx_encode code128_png textwrap_fill new_raster create_label
               py_str_bytes environ r w) = escaped.
Proof.
  intros Hctx Hlookup escaped.
  rewrite print_text_run, print_grocy_run, Hctx, Hlookup. done.
Qed.

(** C1 (what the code does instead): a print request naming an unknown
    font makes get_label_context raise LookupError, one naming an unknown
    label size makes it raise KeyError, and in both cases the handler's
    [e.msg] raises AttributeError: no dictionary with an error field is
    returned. *)
Theorem unknown_font_or_size_raises_attribute_error :
  let w := sample_world working_backend in
  sample_context unknown_font_request
  = Raise (mkExn LookupError "Couln't find the font & style")
  /\ sample_context unknown_size_request = Raise (mkExn KeyError "'99'")
  /\ result (sample_print_text unknown_font_request w)
     = Raise (mkExn AttributeError "'LookupError' object has no attribute 'msg'")
  /\ result (sample_print_grocy ∅ unknown_font_request w)
     = Raise (mkExn AttributeError "'LookupError' object has no attribute 'msg'")
  /\ result (sample_print_text unknown_size_request w)
     = Raise (mkExn AttributeError "'KeyError' object has no attribute 'msg'")
  /\ result (sample_print_grocy ∅ unknown_size_request w)
     = Raise (mkExn AttributeError "'KeyError' object has no attribute 'msg'").
Proof. repeat split; vm_compute; reflexivity. Qed.

(** ** Witnesses for the handler claims *)

Ltac list_member :=
  apply list_elem_of_In; vm_compute; repeat (first [left; reflexivity | right]).

Lemma transport_failure_reported_witness :
  let w := failing_world in
  let text_run := sample_print_text print_request w in
  let grocy_run := sample_print_grocy code128_environ print_request w in
  be_write (BACKEND_CLASS (w_globals w)) raster_data = Raise connection_refused
  /\ is_Exception connection_refused = true
  /\ BackendWrite raster_data ∈ events text_run
  /\ BackendWrite raster_data ∈ events grocy_run
  /\ (result text_run = Ret (transport_error connection_refused)
      /\ LogWarning ("Exception happened: " +:+ exn_str connection_refused)
           ∈ events text_run)
  /\ (result grocy_run = Ret (transport_error connection_refused)
      /\ LogWarning ("Exception happened: " +:+ exn_str connection_refused)
           ∈ events grocy_run).
Proof.
  intros w text_run grocy_run.
  destruct (transport_failure_reported sample_label_type_specs sample_int
              sample_float sample_repr sample_truetype sample_textsize sample_dmtx
              sample_code128 sample_fill sample_new_raster sample_create_label
              sample_str_bytes code128_environ print_request failing_world
              raster_data connection_refused eq_refl eq_refl) as [Ht Hg].
  assert (Hin_t : BackendWrite raster_data ∈ events text_run) by list_member.
  assert (Hin_g : BackendWrite raster_data ∈ events grocy_run) by list_member.
  split; [vm_compute; reflexivity|]. split; [vm_compute; reflexivity|].
  split; [exact Hin_t|]. split; [exact Hin_g|].
  split; [exact (Ht Hin_t) | exact (Hg Hin_g)].
Defined.


Lemma grocy_validation_branch_witness :
  let w := sample_world working_backend in
  let no_product :=
    mkRequest ∅ {[ "font_family" := "DejaVu Serif (Book)"; "battery" := "AA";
                   "chore" := "Dishes" ]} in
  (exists c : context,
     sample_context no_product = Ret c /\ product c = None
     /\ truthy_opt (battery c) = true /\ truthy_opt (chore c) = true)
  /\ result (sample_print_grocy ∅ no_product w) = Ret grocy_validation_error.
Proof.
  intros w no_product.
  assert (Hc : exists c : context,
             sample_context no_product = Ret c /\ product c = None
             /\ truthy_opt (battery c) = true /\ truthy_opt (chore c) = true).
  { eexists. split; [vm_compute; reflexivity|].
    repeat split; vm_compute; reflexivity. }
  split; [exact Hc|].
  apply (proj1 (grocy_validation_branch sample_label_type_specs sample_int
                  sample_float sample_repr sample_truetype sample_dmtx
                  sample_code128 sample_fill sample_new_raster
                  sample_create_label sample_str_bytes ∅ no_product w)).
  exact Hc.
Defined.

Lemma red_iff_label_size_names_red_witness :
  let w := sample_world working_backend in
  let text_run := sample_print_text print_request w in
  let grocy_run := sample_print_grocy code128_environ print_request w in
  (exists c : context,
     sample_context print_request = Ret c
     /\ (fill_color c = (255, 0, 0)%Z <-> has_substring "red" (label_size c)))
  /\ (exists (im : option image) (red : bool),
        RasterCreate (PyStr "QL-500") im "62red" red 70 true Rotate0
          ∈ (events text_run ++ events grocy_run)%list
        /\ (red = true <-> has_substring "red" "62red")).
Proof.
  intros w text_run grocy_run.
  destruct (red_iff_label_size_names_red sample_label_type_specs sample_int
              sample_float sample_repr sample_truetype sample_textsize sample_dmtx
              sample_code128 sample_fill sample_new_raster sample_create_label
              sample_str_bytes code128_environ print_request w) as [Hfill Hraster].
  split.
  - eexists. split; [vm_compute; reflexivity|].
    refine (proj1 (Hfill _ _)). vm_compute. reflexivity.
  - eexists _, true.
    assert (Hin : RasterCreate (PyStr "QL-500")
                    (Some (TextDrawn (NewImage "RGB" (696, 60)%Z) (298, 10)%Z "Flour"
                             (255, 0, 0)%Z
                             (mkFont "/usr/share/fonts/DejaVuSerif.ttf" 40)
                             (Some "center")))
                    "62red" true 70 true Rotate0
                  ∈ (events text_run ++ events grocy_run)%list) by list_member.
    split; [exact Hin|]. exact (proj2 (Hraster _ _ _ _ _ _ _ Hin)).
Defined.

Lemma preview_base64_of_png_witness :
  let w := sample_world working_backend in
  let r_png := print_request in
  let r_b64 := mkRequest {[ "return_format" := "base64" ]} (forms print_request) in
  result (sample_preview r_png w) = Ret [x89; x50; x4e; x47; x0d]
  /\ result (sample_preview r_b64 w) = Ret (b64encode [x89; x50; x4e; x47; x0d])
  /\ b64decode (b64encode [x89; x50; x4e; x47; x0d]) = Some [x89; x50; x4e; x47; x0d].
Proof.
  intros w r_png r_b64.
  assert (Hpng : result (sample_preview r_png w) = Ret [x89; x50; x4e; x47; x0d])
    by (vm_compute; reflexivity).
  split; [exact Hpng|].
  apply (preview_base64_of_png sample_label_type_specs sample_int sample_float
           sample_repr sample_truetype sample_textsize sample_png r_png r_b64 w).
  - reflexivity.
  - intros k Hk. subst r_b64 r_png. cbn [query print_request].
    by rewrite lookup_singleton_ne.
  - vm_compute. reflexivity.
  - vm_compute. discriminate.
  - exact Hpng.
Defined.

(** ** An exception outside of Exception *)

(** C2, as stated, fails: when the transport's write raises
    KeyboardInterrupt, which is not an instance of Exception, both print
    handlers have reached the write, yet neither returns a dictionary:
    the interrupt goes on to the caller, and no warning is logged. *)
Lemma base_exception_propagates :
  let w := sample_world (failing_backend keyboard_interrupt) in
  let text_run := sample_print_text print_request w in
  let grocy_run := sample_print_grocy code128_environ print_request w in
  be_write (BACKEND_CLASS (w_globals w)) raster_data = Raise keyboard_interrupt
  /\ is_Exception keyboard_interrupt = false
  /\ BackendWrite raster_data ∈ events text_run
  /\ BackendWrite raster_data ∈ events grocy_run
  /\ result text_run = Raise keyboard_interrupt
  /\ result grocy_run = Raise keyboard_interrupt
  /\ Forall (fun ev => ~ is_log ev) (events text_run)
  /\ ~ (forall (e : exn) (data : bytes),
          be_write (BACKEND_CLASS (w_globals w)) data = Raise e ->
          BackendWrite data ∈ events text_run ->
          result text_run = Ret (transport_error e)).
Proof.
  intros w text_run grocy_run.
  assert (Hin_t : BackendWrite raster_data ∈ events text_run) by list_member.
  assert (Hin_g : BackendWrite raster_data ∈ events grocy_run) by list_member.
  assert (Hres : result text_run = Raise keyboard_interrupt)
    by (vm_compute; reflexivity).
  split; [vm_compute; reflexivity|]. split; [reflexivity|].
  split; [exact Hin_t|]. split; [exact Hin_g|]. split; [exact Hres|].
  split; [vm_compute; reflexivity|].
  split.
  { apply Forall_forall. intros ev Hin. apply list_elem_of_In in Hin.
    vm_compute in Hin.
    repeat (destruct Hin as [<-|Hin]; [by intros []|]). destruct Hin. }
  intros H. specialize (H keyboard_interrupt raster_data eq_refl Hin_t).
  rewrite Hres in H. discriminate.
Qed.

(** ** main: command-line overrides *)

(** How [main] applies the parsed arguments: each value is used when it
    is truthy, and the configuration file's value otherwise. *)
Lemma main_settings_by_truthiness (a : args) (cfg : config) :
  let s := main_settings a cfg in
  let from_command_line (supplied from_file : pyval) : pyval :=
    if truthy supplied then supplied else from_file in
  PRINTER (PRINTER_SECTION (set_CONFIG s))
  = from_command_line (arg_printer a) (PRINTER (PRINTER_SECTION cfg))
  /\ MODEL (PRINTER_SECTION (set_CONFIG s))
     = from_command_line (arg_model a) (MODEL (PRINTER_SECTION cfg))
  /\ DEFAULT_SIZE (LABEL (set_CONFIG s))
     = from_command_line (arg_default_label_size a) (DEFAULT_SIZE (LABEL cfg))
  /\ DEFAULT_ORIENTATION (LABEL (set_CONFIG s))
     = from_command_line (arg_default_orientation a) (DEFAULT_ORIENTATION (LABEL cfg))
  /\ set_PORT s = from_command_line (arg_port a) (PORT (SERVER cfg))
  /\ set_LOGLEVEL s = from_command_line (arg_loglevel a) (LOGLEVEL (SERVER cfg))
  /\ WEBSITE (set_CONFIG s) = WEBSITE cfg
  /\ SERVER (set_CONFIG s) = SERVER cfg
  /\ DEFAULT_FONTS (LABEL (set_CONFIG s)) = DEFAULT_FONTS (LABEL cfg).
Proof.
  intros s from_command_line. subst s from_command_line. unfold main_settings.
  destruct (truthy (arg_printer a)), (truthy (arg_model a)),
           (truthy (arg_default_label_size a)),
           (truthy (arg_default_orientation a));
    cbn -[truthy String.eqb]; repeat split; reflexivity.
Qed.

(** C5, as stated, fails: an empty printer string, or [--loglevel NOTSET],
    is supplied on a command line that the parser accepts, yet the
    configuration file's value stays in force. *)
Lemma falsy_arguments_are_ignored :
  ~ (forall (cl : command_line) (a : args) (cfg : config) (p : string),
       sample_parse_args cl = Some a ->
       cl_printer cl = Some p ->
       PRINTER (PRINTER_SECTION (set_CONFIG (main_settings a cfg))) = PyStr p)
  /\ ~ (forall (cl : command_line) (a : args) (cfg : config) (x : string)
               (level : Z),
          sample_parse_args cl = Some a ->
          cl_loglevel cl = Some x ->
          sample_logging_attribute x = Some (PyInt level) ->
          set_LOGLEVEL (main_settings a cfg) = PyInt level).
Proof.
  split.
  - intros H.
    specialize (H cl_empty_printer args_empty_printer sample_config ""
                  eq_refl eq_refl).
    vm_compute in H. discriminate.
  - intros H.
    specialize (H cl_loglevel_notset args_loglevel_notset sample_config "NOTSET"
                  0%Z eq_refl eq_refl eq_refl).
    vm_compute in H. discriminate.
Qed.

(** C5, amended: for a command line that the parser accepts, and model
    names that are non-empty: the printer, the default label size and the
    port are taken from the command line when supplied non-empty, and
    from the configuration file when omitted or empty; --model and
    --default-orientation, of which the parser accepts only the listed
    choices, replace the configured value whenever supplied; the log
    level is the logging attribute that --loglevel names when that is
    truthy (any level but NOTSET), and the configured one otherwise; the
    rest of CONFIG is untouched. *)
Theorem command_line_overrides (models : list string)
    (logging_attribute : string -> option pyval) (cl : command_line) (a : args)
    (cfg : config) :
  "" ∉ models ->
  parse_args models logging_attribute cl = Some a ->
  let s := main_settings a cfg in
  let unless_empty (supplied : option string) (from_file : pyval) : pyval :=
    match supplied with
    | Some v => if String.eqb v "" then from_file else PyStr v
    | None => from_file
    end in
  let whenever_supplied (supplied : option string) (from_file : pyval) : pyval :=
    match supplied with
    | Some v => PyStr v
    | None => from_file
    end in
  PRINTER (PRINTER_SECTION (set_CONFIG s))
  = unless_empty (cl_printer cl) (PRINTER (PRINTER_SECTION cfg))
  /\ MODEL (PRINTER_SECTION (set_CONFIG s))
     = whenever_supplied (cl_model cl) (MODEL (PRINTER_SECTION cfg))
  /\ DEFAULT_SIZE (LABEL (set_CONFIG s))
     = unless_empty (cl_default_label_size cl) (DEFAULT_SIZE (LABEL cfg))
  /\ DEFAULT_ORIENTATION (LABEL (set_CONFIG s))
     = whenever_supplied (cl_default_orientation cl) (DEFAULT_ORIENTATION (LABEL cfg))
  /\ set_PORT s = unless_empty (cl_port cl) (PORT (SERVER cfg))
  /\ set_LOGLEVEL s
     = match cl_loglevel cl ≫= logging_attribute with
       | Some level => if truthy level then level else LOGLEVEL (SERVER cfg)
       | None => LOGLEVEL (SERVER cfg)
       end
  /\ (forall m : string, cl_model cl = Some m -> m ∈ models)
  /\ (forall v : string,
        cl_default_orientation cl = Some v -> v = "standard" \/ v = "rotated")
  /\ (forall x : string, cl_loglevel cl = Some x -> is_Some (logging_attribute x))
  /\ WEBSITE (set_CONFIG s) = WEBSITE cfg
  /\ SERVER (set_CONFIG s) = SERVER cfg
  /\ DEFAULT_FONTS (LABEL (set_CONFIG s)) = DEFAULT_FONTS (LABEL cfg).
Proof.
  intros Hmodels Hparse s unless_empty whenever_supplied.
  destruct (main_settings_by_truthiness a cfg)
    as (Hprinter & Hmodel & Hsize & Horientation & Hport & Hlevel & Hrest).
  fold s in Hprinter, Hmodel, Hsize, Horientation, Hport, Hlevel, Hrest.
  clearbody s. cbv zeta in *.
  unfold parse_args in Hparse.
  destruct (match cl_loglevel cl with Some x => _ | None => _ end)
    as [level|] eqn:Hl; [|done].
  cbn [mbind option_bind] in Hparse.
  destruct (match cl_default_orientation cl with Some v => _ | None => _ end)
    as [[]|] eqn:Ho; [|done].
  cbn [mbind option_bind] in Hparse.
  destruct (match cl_model cl with Some m => _ | None => _ end)
    as [[]|] eqn:Hm; [|done].
  cbn [mbind option_bind] in Hparse. injection Hparse as <-.
  cbn [arg_port arg_loglevel arg_font_folder arg_default_label_size
       arg_default_orientation arg_model arg_printer] in *.
  assert (Hgiven : forall (o : option string) (from_file : pyval),
             (if truthy (given o) then given o else from_file)
             = unless_empty o from_file).
  { intros [v|] from_file; [|done]. subst unless_empty. cbn.
    by destruct (String.eqb v ""). }
  assert (Hin_models : forall m : string, cl_model cl = Some m -> m ∈ models).
  { intros m Hcl. rewrite Hcl in Hm.
    destruct (bool_decide (m ∈ models)) eqn:Hin; [|done].
    by apply bool_decide_eq_true in Hin. }
  assert (Hchoice : forall v : string,
             cl_default_orientation cl = Some v -> v = "standard" \/ v = "rotated").
  { intros v Hcl. rewrite Hcl in Ho.
    destruct (bool_decide (v ∈ ["standard"; "rotated"])) eqn:Hin; [|done].
    apply bool_decide_eq_true in Hin.
    apply elem_of_cons in Hin as [->|Hin]; [by left|].
    apply elem_of_cons in Hin as [->|Hin]; [by right|].
    by apply elem_of_nil in Hin. }
  subst unless_empty whenever_supplied. cbv beta in *.
  split; [by rewrite Hprinter, Hgiven|].
  split.
  { rewrite Hmodel. destruct (cl_model cl) as [m|] eqn:Hcl; [|done]. cbn.
    destruct (String.eqb_spec m "") as [->|]; [|done].
    destruct Hmodels. by apply Hin_models. }
  split; [by rewrite Hsize, Hgiven|].
  split.
  { rewrite Horientation. destruct (cl_default_orientation cl) as [v|] eqn:Hcl; [|done].
    by destruct (Hchoice v eq_refl) as [-> | ->]. }
  split; [by rewrite Hport, Hgiven|].
  split.
  { rewrite Hlevel. destruct (cl_loglevel cl) as [x|]; cbn [mbind option_bind].
    - by rewrite Hl.
    - by injection Hl as <-. }
  split; [exact Hin_models|]. split; [exact Hchoice|].
  split; [|exact Hrest].
  intros x Hcl. rewrite Hcl in Hl. by rewrite Hl.
Qed.

Lemma command_line_overrides_witness :
  let s := main_settings args_all_supplied sample_config in
  sample_parse_args cl_all_supplied = Some args_all_supplied
  /\ PRINTER (PRINTER_SECTION (set_CONFIG s)) = PyStr "tcp://192.168.0.23:9100"
  /\ MODEL (PRINTER_SECTION (set_CONFIG s)) = PyStr "QL-800"
  /\ DEFAULT_ORIENTATION (LABEL (set_CONFIG s)) = PyStr "rotated"
  /\ set_LOGLEVEL s = PyInt 10.
Proof.
  intros s.
  assert (Hparse : sample_parse_args cl_all_supplied = Some args_all_supplied)
    by (vm_compute; reflexivity).
  destruct (command_line_overrides sample_models sample_logging_attribute
              cl_all_supplied args_all_supplied sample_config)
    as (Hprinter & Hmodel & _ & Horientation & _ & Hlevel & _).
  - apply (bool_decide_unpack _). vm_compute. exact I.
  - exact Hparse.
  - split; [exact Hparse|]. split; [exact Hprinter|]. split; [exact Hmodel|].
    split; [exact Horientation|]. exact Hlevel.
Defined.

(** * Further properties *)

(** ** Label context: errors, dimensions and the font option *)

Lemma outcome_bind_raise {A B : Type} (m : outcome A) (k : A -> outcome B) (e : exn) :
  m ≫= k = Raise e -> m = Raise e \/ exists a : A, m = Ret a /\ k a = Raise e.
Proof. destruct m as [a|e']; simpl; [eauto | intros [= ->]; by left]. Qed.

Lemma int_field_raise py_int py_repr (d : form) (k : string) (dflt : Z) (e : exn) :
  int_field py_int py_repr d k dflt = Raise e -> exn_type e = ValueError.
Proof.
  unfold int_field. destruct (d !! k) as [s|]; [|done].
  destruct (py_int s); [done|]. by intros [= <-].
Qed.

Lemma percent_field_raise py_float py_repr (d : form) (k : string) (dflt : Z) (e : exn) :
  percent_field py_float py_repr d k dflt = Raise e ->
  exn_type e = ValueError \/ exn_type e = OverflowError.
Proof.
  unfold percent_field. destruct (d !! k) as [s|].
  - destruct (py_float s); [done|]. intros [= <-]. by left.
  - destruct (float_of_Z dflt); [done|]. intros [= <-]. by right.
Qed.

Lemma scale_margin_raise (n : Z) (f : float) (e : exn) :
  scale_margin n f = Raise e ->
  exn_type e = ValueError \/ exn_type e = OverflowError.
Proof.
  unfold scale_margin. destruct (float_of_Z n); [|intros [= <-]; by right].
  destruct (Z_of_float _) as [[]|]; [| |done]; intros [= <-]; [by left | by right].
Qed.

(** Split [H : (x ← m; k) = Raise e] into the step that raised. *)
Ltac invert_raise H :=
  let a := fresh "a" in
  let Hstep := fresh "Hstep" in
  apply outcome_bind_raise in H; destruct H as [H | (a & Hstep & H)].

Section LabelContextFacts.
Context (label_type_specs : gmap string label_spec)
  (py_int : string -> option Z) (py_float : string -> option float)
  (py_repr : string -> string).

(** X1: the context built for a request does not depend on CONFIG: the
    font lookup is always given the family and style parsed from the
    form, so the configured default font is never consulted. *)
Theorem context_ignores_config (cfg1 cfg2 : config) (FONTS : fonts) (r : request) :
  get_label_context label_type_specs py_int py_float py_repr cfg1 FONTS r
  = get_label_context label_type_specs py_int py_float py_repr cfg2 FONTS r.
Proof. unfold get_label_context, get_font_path. reflexivity. Qed.

(** X2: the only errors of class LookupError that get_label_context
    raises are the KeyError of the label table for an unknown label size
    (its message the repr of the size) and the LookupError for a font
    that is not registered, raised only when the size is known; the
    "Unknown label_size" error of get_label_dimensions never comes out. *)
Theorem lookup_errors_of_get_label_context (CONFIG : config) (FONTS : fonts)
    (r : request) (e : exn) :
  get_label_context label_type_specs py_int py_float py_repr CONFIG FONTS r = Raise e ->
  is_LookupError e = true ->
  let size := default "50" (params r !! "label_size") in
  (e = mkExn KeyError (py_repr size) /\ label_type_specs !! size = None)
  \/ (e = mkExn LookupError "Couln't find the font & style"
      /\ is_Some (label_type_specs !! size)).
Proof.
  intros H He size. unfold get_label_context in H.
  invert_raise H.
  { destruct (params r !! "font_family"); [done|]. by injection H as <-. }
  invert_raise H.
  { apply int_field_raise in H. unfold is_LookupError in He. by rewrite H in He. }
  invert_raise H.
  { left. unfold subscript in H. fold size in H.
    destruct (label_type_specs !! size); [done|]. by injection H as <-. }
  assert (Hsize : is_Some (label_type_specs !! size)).
  { unfold subscript in Hstep1. fold size in Hstep1.
    by destruct (label_type_specs !! size). }
  do 2 (invert_raise H;
        [apply int_field_raise in H; unfold is_LookupError in He; by rewrite H in He|]).
  do 4 (invert_raise H;
        [apply percent_field_raise in H as [H|H]; unfold is_LookupError in He;
         by rewrite H in He|]).
  do 4 (invert_raise H;
        [apply scale_margin_raise in H as [H|H]; unfold is_LookupError in He;
         by rewrite H in He|]).
  invert_raise H.
  { right. split; [|done]. unfold get_font_path in H. cbn [mbind outcome_bind] in H.
    destruct (FONTS !! _) as [styles|]; [|by injection H as <-].
    destruct (styles !! _); [done|]. by injection H as <-. }
  invert_raise H.
  { unfold get_label_dimensions in H. fold size in H.
    destruct Hsize as [spec Hspec]. by rewrite Hspec in H. }
  destruct a13 as [w0 h0]. by destruct (h0 >? w0), (String.eqb _ _).
Qed.

(** X3: when the form names a font family, the font size parses and the
    label size (default "50") is not in the label table, the KeyError for
    the size is raised whatever the fonts are: the size is looked up
    before the font. *)
Theorem unknown_label_size_raises_key_error (CONFIG : config) (FONTS : fonts)
    (r : request) (ff : string) (n : Z) :
  params r !! "font_family" = Some ff ->
  int_field py_int py_repr (params r) "font_size" 40 = Ret n ->
  label_type_specs !! default "50" (params r !! "label_size") = None ->
  get_label_context label_type_specs py_int py_float py_repr CONFIG FONTS r
  = Raise (mkExn KeyError (py_repr (default "50" (params r !! "label_size")))).
Proof.
  intros Hff Hn Hsize. unfold get_label_context. rewrite Hff, Hn.
  cbn [mbind outcome_bind]. unfold subscript. by rewrite Hsize.
Qed.

(** X4: the width and height of a context are the printable dots of its
    label size in the driver's table: the longer side as width and the
    shorter as height, the other way round in rotated orientation; the
    kind is the table's too. *)
Theorem context_dimensions_from_table (CONFIG : config) (FONTS : fonts)
    (r : request) (c : context) :
  get_label_context label_type_specs py_int py_float py_repr CONFIG FONTS r = Ret c ->
  exists spec : label_spec,
    label_type_specs !! label_size c = Some spec
    /\ kind c = ls_kind spec
    /\ (width c, height c)
       = (let long := Z.max (ls_dots_printable spec).1 (ls_dots_printable spec).2 in
          let short := Z.min (ls_dots_printable spec).1 (ls_dots_printable spec).2 in
          if String.eqb (orientation c) "rotated" then (short, long) else (long, short)).
Proof.
  intros H. unfold get_label_context in H.
  repeat invert_bind H.
  match goal with p : (Z * Z)%type |- _ => destruct p as [w h] end.
  match goal with
  | Hs : subscript _ _ _ = Ret ?s, Hd : get_label_dimensions _ _ = Ret _ |- _ =>
      exists s; unfold subscript in Hs; unfold get_label_dimensions in Hd;
      destruct (label_type_specs !! _) as [spec|] eqn:Hspec; [|done];
      injection Hs as ->; injection Hd as Hdims
  end.
  rewrite Hdims.
  destruct (h >? w)%Z eqn:Hgt, (String.eqb _ "rotated") eqn:Hrot;
    injection H as <-; cbn [label_size kind width height orientation fst snd];
    rewrite ?Hrot; (split; [done|]); (split; [done|]); f_equal; lia.
Qed.

End LabelContextFacts.

(** *** The font option *)

Lemma append_length (s t : string) :
  String.length (s +:+ t) = (String.length s + String.length t)%nat.
Proof. induction s as [|a s IH]; [done|]. rewrite append_cons. cbn. by rewrite IH. Qed.

Lemma string_rev_length (s : string) : String.length (string_rev s) = String.length s.
Proof.
  induction s as [|a s IH]; [done|]. cbn [string_rev].
  rewrite append_length, IH. cbn. lia.
Qed.

Lemma string_rev_snoc (s : string) (a : ascii) :
  string_rev (s +:+ String a "") = String a (string_rev s).
Proof.
  induction s as [|b s IH]; [done|]. rewrite append_cons. cbn [string_rev].
  by rewrite IH.
Qed.

Section Strip.
Context (sp1 : ascii -> bool) (sp2 : ascii -> ascii -> bool)
  (sp3 : ascii -> ascii -> ascii -> bool).

Lemma lstrip_spaces_length (s : string) :
  (String.length (lstrip_spaces sp1 sp2 sp3 s) <= String.length s)%nat.
Proof.
  assert (H : forall (n : nat) (t : string),
             (String.length t <= n)%nat ->
             (String.length (lstrip_spaces sp1 sp2 sp3 t) <= String.length t)%nat).
  2: { by apply (H (String.length s)). }
  induction n as [|n IH]; intros t Hn.
  { destruct t; [done | cbn in Hn; lia]. }
  destruct t as [|a t1]; [done|]. cbn [lstrip_spaces].
  destruct (sp1 a).
  { specialize (IH t1). cbn [String.length] in *. lia. }
  destruct t1 as [|b t2]; [done|].
  destruct (sp2 a b).
  { specialize (IH t2). cbn [String.length] in *. lia. }
  destruct t2 as [|c t3]; [done|].
  destruct (sp3 a b c); [|done].
  specialize (IH t3). cbn [String.length] in *. lia.
Qed.

Lemma lstrip_spaces_fixed (s : string) :
  String.length (lstrip_spaces sp1 sp2 sp3 s) = String.length s ->
  lstrip_spaces sp1 sp2 sp3 s = s.
Proof.
  destruct s as [|a t1]; [done|]. cbn [lstrip_spaces].
  destruct (sp1 a).
  { pose proof (lstrip_spaces_length t1). cbn [String.length]. lia. }
  destruct t1 as [|b t2]; [done|].
  destruct (sp2 a b).
  { pose proof (lstrip_spaces_length t2). cbn [String.length]. lia. }
  destruct t2 as [|c t3]; [done|].
  destruct (sp3 a b c); [|done].
  pose proof (lstrip_spaces_length t3). cbn [String.length]. lia.
Qed.

(** A string that does not start with white space still does not when a
    character [x] is appended that ends no white space character. *)
Lemma lstrip_spaces_snoc (s : string) (x : ascii) :
  s <> "" ->
  (forall a : ascii, sp2 a x = false) -> (forall a b : ascii, sp3 a b x = false) ->
  lstrip_spaces sp1 sp2 sp3 s = s ->
  lstrip_spaces sp1 sp2 sp3 (s +:+ String x "") = s +:+ String x "".
Proof.
  intros Hs H2 H3 H.
  assert (Hlen : forall t : string,
             (String.length t < String.length s)%nat ->
             lstrip_spaces sp1 sp2 sp3 t <> s).
  { intros t Ht Heq. pose proof (lstrip_spaces_length t) as Hle.
    rewrite Heq in Hle. lia. }
  destruct s as [|a t1]; [done|]. rewrite append_cons.
  cbn [lstrip_spaces] in H |- *.
  destruct (sp1 a); [apply Hlen in H; [done | cbn; lia]|].
  destruct t1 as [|b t2].
  { rewrite append_nil. by rewrite H2. }
  rewrite append_cons.
  destruct (sp2 a b); [apply Hlen in H; [done | cbn; lia]|].
  destruct t2 as [|c t3].
  { rewrite append_nil. by rewrite H3. }
  rewrite append_cons.
  destruct (sp3 a b c); [apply Hlen in H; [done | cbn; lia]|]. done.
Qed.
End Strip.

Lemma py_strip_fixed (s : string) :
  py_strip s = s -> py_lstrip s = s /\ py_rstrip s = s.
Proof.
  unfold py_strip. intros H.
  assert (Hl : py_lstrip s = s).
  { apply lstrip_spaces_fixed.
    pose proof (lstrip_spaces_length py_isspace py_isspace2 py_isspace3 s) as Hlen.
    fold (py_lstrip s) in Hlen.
    assert (Hr : (String.length (py_rstrip (py_lstrip s))
                  <= String.length (py_lstrip s))%nat).
    { unfold py_rstrip. rewrite string_rev_length.
      etransitivity; [apply lstrip_spaces_length|]. by rewrite string_rev_length. }
    rewrite H in Hr. unfold py_lstrip in *. lia. }
  split; [done|]. by rewrite Hl in H.
Qed.

Lemma py_isspace2_space (a : ascii) : py_isspace2 a " " = false.
Proof. unfold py_isspace2. cbn. apply andb_false_r. Qed.

Lemma py_isspace3_space (a b : ascii) : py_isspace3 a b " " = false.
Proof.
  unfold py_isspace3. cbn. by rewrite !andb_false_r.
Qed.

Lemma py_strip_trailing_space (s : string) :
  py_strip s = s -> py_strip (s +:+ " ") = s.
Proof.
  intros [Hl Hr]%py_strip_fixed.
  destruct (decide (s = "")) as [->|Hne]; [vm_compute; reflexivity|].
  unfold py_strip. unfold py_lstrip at 1.
  rewrite lstrip_spaces_snoc;
    [|done|apply py_isspace2_space|apply py_isspace3_space|exact Hl].
  unfold py_rstrip. rewrite string_rev_snoc. cbn [lstrip_spaces].
  change (py_isspace " ") with true. cbv iota. exact Hr.
Qed.

Lemma rstrip_chars_snoc (p : ascii -> bool) (s : string) (a : ascii) :
  p a = true -> rstrip_chars p (s +:+ String a "") = rstrip_chars p s.
Proof.
  intros Ha. induction s as [|b s IH].
  - rewrite append_nil. cbn [rstrip_chars]. by rewrite Ha.
  - rewrite append_cons. cbn [rstrip_chars]. by rewrite IH.
Qed.

Lemma rsplit_last_none (c : ascii) (s t : string) :
  py_contains (String c "") s = false -> rsplit_last c t = None ->
  rsplit_last c (s +:+ t) = None.
Proof.
  intros Hs Ht. induction s as [|a s IH]; [done|].
  rewrite append_cons. cbn [py_contains String.prefix] in Hs.
  apply orb_false_elim in Hs as [Hp Hc]. cbn [rsplit_last]. rewrite (IH Hc).
  destruct (Ascii.eqb_spec a c) as [->|]; [|done].
  destruct (ascii_dec c c); [|done]. by destruct s.
Qed.

Lemma rsplit_last_at (c : ascii) (h t : string) :
  rsplit_last c t = None -> rsplit_last c (h +:+ String c t) = Some (h, t).
Proof.
  intros Ht. induction h as [|a h IH].
  - rewrite append_nil. cbn [rsplit_last]. by rewrite Ht, Ascii.eqb_refl.
  - rewrite append_cons. cbn [rsplit_last]. by rewrite IH.
Qed.

Lemma append_assoc (a b c : string) : (a +:+ b) +:+ c = a +:+ (b +:+ c).
Proof. induction a as [|x a IH]; [done|]. rewrite !append_cons. by rewrite IH. Qed.

(** How a designer option "Family (Style)" is taken apart. *)
Lemma parse_font_option (family style : string) :
  py_strip family = family ->
  py_contains "(" style = false ->
  py_rstrip_char ")" style = style ->
  let parts := py_rpartition "(" (family +:+ " (" +:+ style +:+ ")") in
  py_strip parts.1.1 = family /\ py_rstrip_char ")" parts.2 = style.
Proof.
  intros Hfamily Hparen Hstyle parts. subst parts. unfold py_rpartition.
  assert (Hsplit : rsplit_last "(" (family +:+ " (" +:+ style +:+ ")")
                   = Some (family +:+ " ", style +:+ ")")).
  { replace (family +:+ " (" +:+ style +:+ ")")
      with ((family +:+ " ") +:+ String "(" (style +:+ ")")).
    2: { rewrite append_assoc. reflexivity. }
    apply rsplit_last_at. by apply rsplit_last_none. }
  rewrite Hsplit. cbn [fst snd]. split.
  - by apply py_strip_trailing_space.
  - unfold py_rstrip_char in *. rewrite rstrip_chars_snoc; [done|]. reflexivity.
Qed.

Section FontOption.
Context (label_type_specs : gmap string label_spec)
  (py_int : string -> option Z) (py_float : string -> option float)
  (py_repr : string -> string).

(** X5: a font_family field of the form "Family (Style)", where Family
    has no surrounding white space and Style has no opening parenthesis
    and does not end in a closing one, is taken apart into Family and
    Style again, and the font path of the context is the registry's entry
    for them. *)
Theorem font_option_round_trip (CONFIG : config) (FONTS : fonts) (r : request)
    (family style : string) (c : context) :
  params r !! "font_family" = Some (family +:+ " (" +:+ style +:+ ")") ->
  py_strip family = family ->
  py_contains "(" style = false ->
  py_rstrip_char ")" style = style ->
  get_label_context label_type_specs py_int py_float py_repr CONFIG FONTS r = Ret c ->
  font_family c = family /\ font_style c = style
  /\ FONTS !! family ≫= (.!! style) = Some (font_path c).
Proof.
  intros Hff Hfamily Hparen Hstyle H.
  destruct (parse_font_option family style Hfamily Hparen Hstyle) as [Hf Hs].
  unfold get_label_context in H. rewrite Hff in H. cbn [mbind outcome_bind] in H.
  rewrite Hf, Hs in H.
  repeat invert_bind H.
  match goal with p : (Z * Z)%type |- _ => destruct p as [w h] end.
  match goal with
  | Hp : get_font_path _ _ _ _ = Ret _ |- _ =>
      unfold get_font_path in Hp; cbn [mbind outcome_bind fst snd] in Hp;
      destruct (FONTS !! family) as [styles|] eqn:Hfam; [|done];
      destruct (styles !! style) as [path|] eqn:Hsty; [|done];
      injection Hp as <-
  end.
  destruct (h >? w)%Z, (String.eqb _ "rotated"); injection H as <-;
    cbn [font_family font_style font_path option_bind mbind]; by rewrite ?Hsty.
Qed.
End FontOption.

Lemma font_option_round_trip_witness :
  exists c : context,
    sample_context text_request = Ret c
    /\ font_family c = "DejaVu Serif" /\ font_style c = "Book"
    /\ sample_fonts !! "DejaVu Serif" ≫= (.!! "Book") = Some (font_path c).
Proof.
  eexists. split; [vm_compute; reflexivity|].
  apply (font_option_round_trip sample_label_type_specs sample_int sample_float
           sample_repr sample_config sample_fonts text_request "DejaVu Serif" "Book").
  all: vm_compute; reflexivity.
Defined.

(** ** The text label: lines and geometry *)

Lemma py_split_nonempty (c : ascii) (s : string) : py_split c s <> [].
Proof.
  induction s as [|a s IH]; [done|]. cbn [py_split].
  destruct (Ascii.eqb a c); [done|]. by destruct (py_split c s).
Qed.

Lemma py_join_cons (sep p : string) (ps : list string) :
  ps <> [] -> py_join sep (p :: ps) = p +:+ sep +:+ py_join sep ps.
Proof. by destruct ps. Qed.

Lemma py_join_cons_head (sep : string) (a : ascii) (p : string) (ps : list string) :
  py_join sep (String a p :: ps) = String a (py_join sep (p :: ps)).
Proof. by destruct ps. Qed.

Lemma py_join_split (s : string) : py_join (NL) (py_split LF s) = s.
Proof.
  induction s as [|a s IH]; [done|]. cbn [py_split].
  destruct (Ascii.eqb_spec a LF) as [->|Hne].
  - rewrite py_join_cons by apply py_split_nonempty. by rewrite IH.
  - pose proof (py_split_nonempty LF s).
    destruct (py_split LF s) as [|l ls]; [done|].
    by rewrite py_join_cons_head, IH.
Qed.

Lemma py_split_lines (s : string) : Forall is_line (py_split LF s).
Proof.
  unfold is_line. induction s as [|a s IH]; [by repeat constructor|].
  cbn [py_split]. destruct (Ascii.eqb_spec a LF) as [->|Hne].
  - by constructor.
  - pose proof (py_split_nonempty LF s).
    destruct (py_split LF s) as [|l ls]; [done|].
    apply Forall_cons in IH as [Hl Hls]. constructor; [|done].
    cbn [py_split]. destruct (Ascii.eqb_spec a LF); [done|]. by rewrite Hl.
Qed.

Lemma py_split_app_line (l rest : string) :
  is_line l -> py_split LF (l +:+ String LF rest) = l :: py_split LF rest.
Proof.
  unfold is_line. revert rest. induction l as [|a l IH]; intros rest Hl.
  - rewrite append_nil. cbn [py_split]. by rewrite Ascii.eqb_refl.
  - rewrite append_cons. cbn [py_split] in *.
    destruct (Ascii.eqb a LF); [done|].
    pose proof (py_split_nonempty LF l).
    destruct (py_split LF l) as [|l0 [|]] eqn:Hsplit; [done| |done].
    injection Hl as ->. by rewrite IH.
Qed.

Lemma py_split_join (lines : list string) :
  lines <> [] -> Forall is_line lines -> py_split LF (py_join NL lines) = lines.
Proof.
  induction lines as [|l ls IH]; [done|]. intros _ [Hl Hls]%Forall_cons.
  destruct ls as [|l' ls]; [done|].
  rewrite py_join_cons by done. unfold NL at 1.
  change (l +:+ String LF "" +:+ ?x) with (l +:+ String LF x).
  rewrite py_split_app_line by done. by rewrite IH.
Qed.

Lemma fill_empty_line_is_line (l : string) : is_line l -> is_line (fill_empty_line l).
Proof. unfold fill_empty_line. by destruct (String.eqb l ""). Qed.

Lemma fill_empty_line_nonempty (l : string) : fill_empty_line l <> "".
Proof.
  unfold fill_empty_line. destruct (String.eqb_spec l ""); [done|done].
Qed.

Lemma fill_empty_line_id (l : string) : l <> "" -> fill_empty_line l = l.
Proof. unfold fill_empty_line. by destruct (String.eqb_spec l ""). Qed.

Section LabelImage.
Context (truetype : string -> Z -> outcome font)
  (multiline_textsize : font -> string -> Z * Z).

(** X6: the text create_label_im draws has the lines of the given text
    with every empty line replaced by one space: no line of it is empty,
    and a text without empty lines is drawn unchanged. *)
Theorem drawn_text_has_no_empty_line (c : context) (t : string) (im : image) :
  text c = Some t ->
  create_label_im truetype multiline_textsize c = Ret im ->
  exists (base : image) (offset : Z * Z) (drawn : string) (fnt : font),
    im = TextDrawn base offset drawn (fill_color c) fnt (Some (align c))
    /\ py_split LF drawn = fill_empty_line <$> py_split LF t
    /\ Forall (fun line => line <> "") (py_split LF drawn)
    /\ (Forall (fun line => line <> "") (py_split LF t) -> drawn = t).
Proof.
  intros Ht H. unfold create_label_im in H. rewrite Ht in H.
  invert_bind H. cbn [mbind outcome_bind] in H. invert_bind H.
  injection H as <-. do 4 eexists. split; [reflexivity|].
  change (fun line : string => if String.eqb line "" then " " else line)
    with fill_empty_line.
  assert (Hsplit : py_split LF (py_join NL (fill_empty_line <$> py_split LF t))
                   = fill_empty_line <$> py_split LF t).
  { apply py_split_join.
    - pose proof (py_split_nonempty LF t). by destruct (py_split LF t).
    - apply Forall_fmap. eapply Forall_impl; [apply py_split_lines|].
      intros l Hl. by apply fill_empty_line_is_line. }
  split; [done|]. split.
  - rewrite Hsplit. apply Forall_fmap, Forall_true. intros l.
    apply fill_empty_line_nonempty.
  - intros Hall. rewrite <- (py_join_split t) at 2. f_equal.
    rewrite <- (list_fmap_id (py_split LF t)) at 2.
    apply Forall_fmap_ext_1. eapply Forall_impl; [exact Hall|].
    intros l Hl. by apply fill_empty_line_id.
Qed.

Ltac geometry :=
  repeat match goal with
         | |- _ /\ _ => split
         | |- _ -> _ => intros ?
         | H : _ \/ _ |- _ => destruct H
         end;
  try done; try lia; try (Z.to_euclidean_division_equations; lia).

(** X7: in standard orientation the picture is as wide as the label and
    the horizontal offset of the text is max((width - text width) // 2, 0):
    never negative, and centred within one pixel when the text fits; on
    an endless label the picture is as high as the text plus the top and
    bottom margins; on other labels it has the label's height; the
    vertical offset is the top margin, except on die-cut and round
    die-cut labels, where it is (height - text height) // 2 +
    (margin_top - margin_bottom) // 2, centred within one pixel when the
    two margins are equal. *)
Theorem standard_label_geometry (c : context) (im : image) :
  orientation c = "standard" ->
  create_label_im truetype multiline_textsize c = Ret im ->
  exists (fnt : font) (drawn : string) (x y w h : Z),
    im = TextDrawn (NewImage "RGB" (w, h)) (x, y) drawn (fill_color c) fnt
           (Some (align c))
    /\ truetype (font_path c) (font_size c) = Ret fnt
    /\ let tw := (multiline_textsize fnt drawn).1 in
       let th := (multiline_textsize fnt drawn).2 in
       w = width c
       /\ x = Z.max ((w - tw) `div` 2) 0
       /\ 0 <= x /\ (tw <= w -> 2 * x <= w - tw <= 2 * x + 1)
       /\ (kind c = ENDLESS_LABEL ->
           y = margin_top c /\ h = margin_top c + th + margin_bottom c)
       /\ (kind c <> ENDLESS_LABEL -> h = height c)
       /\ (kind c = DIE_CUT_LABEL \/ kind c = ROUND_DIE_CUT_LABEL ->
           y = (h - th) `div` 2 + (margin_top c - margin_bottom c) `div` 2
           /\ (margin_top c = margin_bottom c -> 2 * y <= h - th <= 2 * y + 1))
       /\ (kind c <> DIE_CUT_LABEL -> kind c <> ROUND_DIE_CUT_LABEL ->
           y = margin_top c).
Proof.
  intros Ho H. unfold create_label_im in H. rewrite Ho in H.
  invert_bind H. invert_bind H. cbn [String.eqb Ascii.eqb Bool.eqb andb negb] in H.
  cbv zeta in H. cbn [mbind outcome_bind] in H.
  injection H as <-. do 6 eexists. split; [reflexivity|]. split; [done|].
  cbv zeta. cbn [fst snd].
  set (tw := (multiline_textsize _ _).1). set (th := (multiline_textsize _ _).2).
  destruct (kind c) eqn:Hkind; repeat case_bool_decide; simplify_eq;
    cbn [orb andb negb]; geometry.
Qed.

(** X8: in rotated orientation the picture has the label's height and,
    with equal top and bottom margins, the text is centred vertically; on
    an endless label the picture is as wide as the text plus the left and
    right margins and the text starts at the left margin; on other labels
    it has the label's width, and on die-cut labels the text is centred
    horizontally. *)
Theorem rotated_label_geometry (c : context) (im : image) :
  orientation c = "rotated" ->
  create_label_im truetype multiline_textsize c = Ret im ->
  exists (fnt : font) (drawn : string) (x y w h : Z),
    im = TextDrawn (NewImage "RGB" (w, h)) (x, y) drawn (fill_color c) fnt
           (Some (align c))
    /\ truetype (font_path c) (font_size c) = Ret fnt
    /\ let tw := (multiline_textsize fnt drawn).1 in
       let th := (multiline_textsize fnt drawn).2 in
       h = height c
       /\ (margin_top c = margin_bottom c -> 2 * y <= h - th <= 2 * y + 1)
       /\ (kind c = ENDLESS_LABEL ->
           x = margin_left c /\ w = margin_left c + tw + margin_right c)
       /\ (kind c <> ENDLESS_LABEL -> w = width c)
       /\ (kind c = DIE_CUT_LABEL \/ kind c = ROUND_DIE_CUT_LABEL ->
           0 <= x /\ (tw <= w -> 2 * x <= w - tw <= 2 * x + 1)).
Proof.
  intros Ho H. unfold create_label_im in H. rewrite Ho in H.
  invert_bind H. invert_bind H. cbn [String.eqb Ascii.eqb Bool.eqb andb negb] in H.
  cbv zeta in H. cbn [mbind outcome_bind] in H.
  injection H as <-. do 6 eexists. split; [reflexivity|]. split; [done|].
  cbv zeta. cbn [fst snd].
  set (tw := (multiline_textsize _ _).1). set (th := (multiline_textsize _ _).2).
  destruct (kind c) eqn:Hkind; repeat case_bool_decide; simplify_eq;
    cbn [orb andb negb]; geometry.
Qed.

(** X9: with the drawing calls of the imaging library taken to succeed
    (pictures are the calls that built them), create_label_im returns
    a picture exactly when the font loads, a text is present and the
    orientation is "standard" or "rotated"; with font and text but
    another orientation it raises UnboundLocalError. *)
Theorem create_label_im_returns_iff (c : context) :
  ((exists im : image, create_label_im truetype multiline_textsize c = Ret im) <->
   (exists fnt : font, truetype (font_path c) (font_size c) = Ret fnt)
   /\ is_Some (text c)
   /\ (orientation c = "standard" \/ orientation c = "rotated"))
  /\ (forall (fnt : font) (t : string),
        truetype (font_path c) (font_size c) = Ret fnt -> text c = Some t ->
        orientation c <> "standard" -> orientation c <> "rotated" ->
        exists e : exn,
          create_label_im truetype multiline_textsize c = Raise e
          /\ exn_type e = UnboundLocalError).
Proof.
  unfold create_label_im. split; [split|].
  - intros [im H]. invert_bind H. invert_bind H. invert_bind H.
    split; [by eexists|]. split; [by destruct (text c)|].
    destruct (String.eqb_spec (orientation c) "standard"); [by left|].
    destruct (String.eqb_spec (orientation c) "rotated"); [by right|]. done.
  - intros ([fnt ->] & [t ->] & Ho). cbn [mbind outcome_bind].
    destruct Ho as [-> | ->]; cbn; by eexists.
  - intros fnt t -> -> Hs Hr. cbn [mbind outcome_bind].
    destruct (String.eqb_spec (orientation c) "standard"); [done|].
    destruct (String.eqb_spec (orientation c) "rotated"); [done|].
    cbn. by eexists.
Qed.
End LabelImage.

(** ** The Code128 label *)

Lemma run_bind_assoc {A B C : Type} (m : M A) (f : A -> M B) (g : B -> M C)
    (w : world) :
  ((m ≫= f) ≫= g) w = (m ≫= (fun a => f a ≫= g)) w.
Proof.
  rewrite !run_bind. unfold and_then at 2 3.
  destruct (result (m w)) as [a|e]; [|done].
  rewrite run_bind. unfold and_then. cbn [result world_after events].
  destruct (result (f a _)) as [b|e]; [|done]. cbn [result world_after events].
  by rewrite app_assoc.
Qed.

Lemma try_except_ext {A : Type} (body1 body2 : M A) (catches : exn -> bool)
    (h : exn -> M A) (w : world) :
  body1 w = body2 w -> try_except body1 catches h w = try_except body2 catches h w.
Proof. unfold try_except. by intros ->. Qed.

Lemma run_try_assoc {A B C : Type} (m : M A) (f : A -> M B) (g : B -> M C)
    (catches : exn -> bool) (h : exn -> M C) (w : world) :
  try_except ((m ≫= f) ≫= g) catches h w
  = try_except (m ≫= (fun a => f a ≫= g)) catches h w.
Proof. apply try_except_ext, run_bind_assoc. Qed.

Lemma run_try_ret_bind {A B : Type} (a : A) (k : A -> M B) (catches : exn -> bool)
    (h : exn -> M B) (w : world) :
  try_except (mret a ≫= k) catches h w = try_except (k a) catches h w.
Proof. apply try_except_ext, run_bind_ret. Qed.

Lemma run_try_save {B : Type} (path : string) (im : image) (k : unit -> M B)
    (catches : exn -> bool) (h : exn -> M B) (w : world) :
  try_except (save_image path im ≫= k) catches h w
  = try_except (k tt) catches h (mkWorld (w_globals w) (<[path := im]> (w_files w))).
Proof. unfold try_except. by rewrite run_bind_save. Qed.

Lemma run_bind_open {B : Type} (path : string) (k : image -> M B) (w : world) :
  (open_image path ≫= k) w
  = match w_files w !! path with
    | Some im => k im w
    | None => mkRun (Raise (mkExn (OtherException "FileNotFoundError") path)) w []
    end.
Proof.
  rewrite run_bind. unfold and_then, open_image.
  destruct (w_files w !! path); [|done]. cbn [result world_after events].
  by destruct (k _ w).
Qed.

Lemma run_try_open {B : Type} (path : string) (im : image) (k : image -> M B)
    (catches : exn -> bool) (h : exn -> M B) (w : world) :
  w_files w !! path = Some im ->
  try_except (open_image path ≫= k) catches h w = try_except (k im) catches h w.
Proof. intros Hf. apply try_except_ext. by rewrite run_bind_open, Hf. Qed.

Lemma line_heights :
  scale_margin 40 line_factor = Ret 52 /\ scale_margin 20 line_factor = Ret 26.
Proof. split; vm_compute; reflexivity. Qed.

Section Code128Label.
Context (truetype : string -> Z -> outcome font)
  (code128_png : option string -> outcome image).

(** Run [create_label_grocy_1d], splitting on every answer of the barcode
    and font libraries. *)
Ltac run_grocy_1d c :=
  unfold create_label_grocy_1d; cbv zeta;
  rewrite !run_try_lift;
  destruct (code128_png (grocycode c)) as [barcode|?];
  [ rewrite !run_try_save, !run_try_lift;
    destruct (truetype (font_path c) 40) as [text_font|?];
    [ rewrite !run_try_lift;
      destruct (truetype (font_path c) 20) as [duedate_font|?];
      [ destruct (String.eqb (orientation c) "standard") eqn:Hstandard;
        cbv beta iota zeta;
        rewrite !run_try_lift, (proj1 line_heights);
        destruct (truthy_opt (duedate c)) eqn:Hdue;
        rewrite ?run_try_assoc, ?run_try_lift, ?(proj2 line_heights),
          !run_try_ret_bind;
        rewrite !(run_try_open _ barcode) by apply lookup_insert_eq;
        rewrite !run_try_lift;
        (destruct (grocy_text c) as [caption|]; [ rewrite !run_try_ret | ])
      | ]
    | ]
  | ];
  repeat match goal with
         | |- context [is_Exception ?e] => destruct (is_Exception e) eqn:?
         end;
  cbn [mbind M_bind mret M_ret emit result world_after events app
       is_Exception exn_type w_files w_globals].

(** X10: create_label_grocy_1d never raises an instance of Exception:
    it returns a picture without logging, or returns None after logging
    exactly one error; only an exception outside of Exception gets
    through. *)
Theorem grocy_1d_swallows_exceptions (c : context) (w : world) :
  let r := create_label_grocy_1d truetype code128_png c w in
  match result r with
  | Ret (Some im) => events r = []
  | Ret None => exists cls : string, events r = [LogError ("Exception happened: " +:+ cls)]
  | Raise e => is_Exception e = false /\ events r = []
  end.
Proof.
  intros r. subst r. run_grocy_1d c.
  all: try done; try (by eexists).
Qed.

(** X11: what create_label_grocy_1d returns does not depend on the
    files present before the call, since the barcode it opens is the one
    it has just saved; afterwards /tmp/dmtx.png holds that barcode, and
    no other file has changed. *)
Theorem grocy_1d_barcode_file (c : context) (w w' : world) :
  let r := create_label_grocy_1d truetype code128_png c w in
  result r = result (create_label_grocy_1d truetype code128_png c w')
  /\ w_files (world_after r)
     = match code128_png (grocycode c) with
       | Ret barcode => <["/tmp/dmtx.png" := barcode]> (w_files w)
       | Raise _ => w_files w
       end.
Proof.
  intros r. subst r. run_grocy_1d c.
  all: done.
Qed.

(** X12: a picture returned by create_label_grocy_1d was drawn on a
    blank RGB picture of the label's width in standard orientation and
    700 otherwise, whose height is the two margins plus 122 (barcode 100,
    int(40 * 1.3) = 52, minus 30), and 26 more (int(20 * 1.3)) when the
    due date is non-empty. *)
Theorem grocy_1d_canvas (c : context) (w : world) (im : image) :
  result (create_label_grocy_1d truetype code128_png c w) = Ret (Some im) ->
  let standard := String.eqb (orientation c) "standard" in
  let top := if standard then margin_top c else margin_left c in
  let bottom := if standard then margin_bottom c else margin_right c in
  canvas im
  = NewImage "RGB"
      (if standard then width c else 700,
       top + bottom + 122 + (if truthy_opt (duedate c) then 26 else 0)).
Proof.
  intros H standard. subst standard. revert H. run_grocy_1d c.
  all: try done.
  all: intros [= <-]; destruct (duedate c); try done;
    destruct (String.eqb (orientation c) "rotated"); cbn [canvas];
    do 2 f_equal; lia.
Qed.

End Code128Label.

(** ** Print handlers, preview and label designer *)

Section PrintHandlerFacts.

Set Default Proof Using "Type".

Context (label_type_specs : gmap string label_spec)
  (py_int : string -> option Z) (py_float : string -> option float)
  (py_repr : string -> string)
  (truetype : string -> Z -> outcome font)
  (multiline_textsize : font -> string -> Z * Z)
  (png_encode : image -> outcome bytes)
  (dmtx_encode : string -> outcome (Z * Z * bytes))
  (code128_png : option string -> outcome image)
  (textwrap_fill : string -> Z -> string)
  (new_raster : pyval -> outcome unit)
  (create_label :
     pyval -> option image -> string -> bool -> Z -> bool -> rotate_arg -> outcome bytes)
  (py_str_bytes : bytes -> string)
  (environ : gmap string string)
  (static_file : string -> string -> outcome bytes).


(** *** How the print handlers reach the shared printing part *)

(** Either handler ends early, with log events at most and without a
    success, or it runs the printing part on the context of the request,
    after log events at most and with the globals it started from. *)
Lemma print_handlers_cases (r : request) (w : world) :
  let text_run :=
    print_text label_type_specs py_int py_float py_repr truetype multiline_textsize
      new_raster create_label py_str_bytes r w in
  let grocy_run :=
    print_grocy label_type_specs py_int py_float py_repr truetype dmtx_encode
      code128_png textwrap_fill new_raster create_label py_str_bytes environ r w in
  let shape (run : run return_dict) : Prop :=
    (Forall is_log (events run)
     /\ forall d : return_dict,
          result run = Ret d ->
          is_Some (d !! "error") /\ d !! "success" = Some (PyBool false))
    \/ (exists (c : context) (im : option image) (w1 : world) (pre : list event),
          get_label_context label_type_specs py_int py_float py_repr
            (CONFIG (w_globals w)) (FONTS (w_globals w)) r = Ret c
          /\ w_globals w1 = w_globals w
          /\ Forall is_log pre
          /\ let pl := print_label new_raster create_label py_str_bytes c im
                         {[ "success" := PyBool false ]} w1 in
             result run = result pl
             /\ world_after run = world_after pl
             /\ events run = (pre ++ events pl)%list) in
  shape text_run /\ shape grocy_run.
Proof.
  intros text_run grocy_run shape. subst text_run grocy_run shape. cbv beta. split.
  - rewrite print_text_run.
    destruct (get_label_context _ _ _ _ _ _ _) as [c|e0] eqn:Hc;
      [|left; destruct (is_LookupError e0); by split].
    destruct (text c).
    2: { left. split; [done|]. intros d [= <-].
         by rewrite lookup_insert_eq, lookup_insert_ne, lookup_singleton_eq. }
    destruct (create_label_im _ _ c) as [im|e0]; [|left; by split].
    right. exists c, (Some im), w, []. by repeat split.
  - rewrite print_grocy_run.
    destruct (get_label_context _ _ _ _ _ _ _) as [c|e0] eqn:Hc;
      [|left; destruct (is_LookupError e0); by split].
    destruct (_ && _).
    { left. split; [done|]. intros d [= <-]. unfold grocy_validation_error.
      by rewrite lookup_insert_eq, lookup_insert_ne, lookup_singleton_eq. }
    destruct (grocy_image_respects truetype dmtx_encode code128_png textwrap_fill
                environ c w) as [Hg Hlog].
    unfold and_then.
    destruct (result (grocy_image _ _ _ _ _ _ _)) as [im|e0];
      [|left; split; [exact Hlog | done]].
    right. eexists c, im, _, _.
    split; [done|]. split; [exact Hg|]. split; [exact Hlog|]. done.
Qed.

(** *** The printing part, case by case *)

(** Run the printing part up to its end, keeping every answer of the
    driver and of the transport as an equation. *)
Ltac step_print_label :=
  unfold print_label;
  rewrite run_bind_get; cbv beta;
  let HD := fresh "HD" in
  destruct (DEBUG (w_globals _)) eqn:HD;
  [ match goal with
    | im : option image |- _ => destruct im
    end;
    [ rewrite run_bind_save | rewrite run_bind_lift ]
  | rewrite run_bind_ret ];
  cbv beta iota zeta delta [none_has_no_attribute];
  try (rewrite run_bind_lift;
       destruct (new_raster _) as [[]|?] eqn:?;
       [ rewrite run_bind_lift;
         destruct (choose_rotate _) eqn:?;
         cbv beta iota delta [unbound_local];
         [ rewrite run_bind_emit, run_bind_lift;
           destruct (create_label _ _ _ _ _ _ _) eqn:?;
           [ rewrite run_bind, send_to_printer_run;
             cbn [w_globals]; rewrite ?HD; cbv zeta;
             try (destruct (be_init _ _) as [[]|?] eqn:?;
                  [ destruct (be_write _ _) as [[]|?] eqn:?;
                    [ destruct (be_dispose _) as [[]|?] eqn:? | ]
                  | ]);
             unfold after_transport_failure;
             try match goal with
                 | |- context [is_Exception ?e] => destruct (is_Exception e) eqn:?
                 end
           | ]
         | ]
       | ]);
  unfold and_then, with_event;
  cbn [result world_after events app mret M_ret w_files w_globals].

Lemma print_label_debug (c : context) (im : option image) (rd : return_dict)
    (w : world) :
  DEBUG (w_globals w) = true ->
  let r := print_label new_raster create_label py_str_bytes c im rd w in
  let model := MODEL (PRINTER_SECTION (CONFIG (w_globals w))) in
  let red := py_contains "red" (label_size c) in
  Forall (fun ev => ~ is_transport ev) (events r)
  /\ forall d : return_dict,
       result r = Ret d ->
       exists (data : bytes) (picture : image) (rot : rotate_arg),
         im = Some picture
         /\ choose_rotate c = Some rot
         /\ create_label model (Some picture) (label_size c) red (threshold c) true rot
            = Ret data
         /\ d = <["data" := PyStr (py_str_bytes data)]> (<["success" := PyBool true]> rd)
         /\ events r
            = [RasterCreate model (Some picture) (label_size c) red (threshold c)
                 true rot]
         /\ w_files (world_after r) = <["sample-out.png" := picture]> (w_files w).
Proof.
  intros Hdebug r model red; subst r model red.
  replace (py_contains "red" (label_size c))
    with (if py_contains "red" (label_size c) then true else false)
    by (by destruct (py_contains _ _)).
  step_print_label; try congruence.
  all: split; [repeat constructor; by intros []|].
  all: intros d Hd; simplify_eq.
  by eexists _, _, _.
Qed.

Lemma print_label_success (c : context) (im : option image) (w : world)
    (d : return_dict) :
  DEBUG (w_globals w) = false ->
  let r := print_label new_raster create_label py_str_bytes c im
             {[ "success" := PyBool false ]} w in
  result r = Ret d ->
  d !! "success" = Some (PyBool true) ->
  d = {[ "success" := PyBool true ]}
  /\ exists (ls : string) (red : bool) (th : Z) (rot : rotate_arg) (data : bytes),
       let model := MODEL (PRINTER_SECTION (CONFIG (w_globals w))) in
       events r
       = [RasterCreate model im ls red th true rot;
          BackendOpen (PRINTER (PRINTER_SECTION (CONFIG (w_globals w))));
          BackendWrite data; BackendDispose]
       /\ create_label model im ls red th true rot = Ret data
       /\ be_write (BACKEND_CLASS (w_globals w)) data = Ret tt.
Proof.
  intros Hdebug r; subst r. step_print_label; try congruence.
  all: intros Hd Hs; simplify_eq.
  all: try (rewrite lookup_insert_ne, lookup_singleton_eq in Hs by done; discriminate).
  split; [by rewrite insert_singleton_eq|].
  by eexists _, _, _, _, _.
Qed.

Lemma print_label_open_failure (c : context) (im : option image) (rd : return_dict)
    (w : world) (e : exn) :
  let r := print_label new_raster create_label py_str_bytes c im rd w in
  let printer := PRINTER (PRINTER_SECTION (CONFIG (w_globals w))) in
  be_init (BACKEND_CLASS (w_globals w)) printer = Raise e ->
  is_Exception e = true ->
  BackendOpen printer ∈ events r ->
  result r = Ret (<["message" := PyStr (exn_str e)]> rd)
  /\ count_writes (events r) = 0%nat
  /\ LogWarning ("Exception happened: " +:+ exn_str e) ∈ events r.
Proof.
  intros r printer Hinit He; subst r printer. step_print_label.
  all: intros Hin.
  all: repeat (apply elem_of_cons in Hin as [Hin|Hin]; [try discriminate|]);
    try (by apply elem_of_nil in Hin).
  all: simplify_eq.
  all: try congruence.
  all: split; [done|]; split; [done|].
  all: apply elem_of_cons; right; apply elem_of_cons; right; apply elem_of_cons; by left.
Qed.

Lemma print_label_unbound_rotate (c : context) (im : option image)
    (rd : return_dict) (w : world) :
  choose_rotate c = None ->
  let r := print_label new_raster create_label py_str_bytes c im rd w in
  events r = []
  /\ (exists e : exn, result r = Raise e)
  /\ (new_raster (MODEL (PRINTER_SECTION (CONFIG (w_globals w)))) = Ret tt ->
      (DEBUG (w_globals w) = true -> is_Some im) ->
      exists e : exn, result r = Raise e /\ exn_type e = UnboundLocalError).
Proof.
  intros Hrot r; subst r. unfold print_label.
  rewrite run_bind_get. cbv beta. rewrite Hrot.
  destruct (DEBUG (w_globals w)) eqn:HD.
  - destruct im as [picture|].
    + rewrite run_bind_save, run_bind_lift.
      destruct (new_raster _) as [[]|e0]; rewrite ?run_bind_lift;
        cbn [result events unbound_local].
      all: split; [done|]; split; [by eexists|]; intros; simplify_eq; by eexists.
    + rewrite run_bind_lift. cbn [result events none_has_no_attribute].
      split; [done|]. split; [by eexists|]. intros _ Him.
      destruct (Him eq_refl) as [? ?]. done.
  - rewrite run_bind_ret, run_bind_lift.
    destruct (new_raster _) as [[]|e0]; rewrite ?run_bind_lift;
      cbn [result events unbound_local].
    all: split; [done|]; split; [by eexists|]; intros; simplify_eq; by eexists.
Qed.


(** *** Further facts about the print handlers *)

(** Reduce a statement about both print handlers to one about a run of
    the shape given by [print_handlers_cases]. *)
Ltac by_print_handlers_cases r w text_run grocy_run :=
  let Ht := fresh "Ht" in
  let Hg := fresh "Hg" in
  destruct (print_handlers_cases r w) as [Ht Hg];
  fold text_run in Ht; fold grocy_run in Hg;
  clearbody text_run grocy_run;
  split; [clear Hg; revert text_run Ht | clear Ht; revert grocy_run Hg];
  intros run [[Hlog Hearly] | (c0 & im0 & w1 & pre & Hc & Hw1 & Hpre & Hres & Hworld & Hev)].

Lemma log_is_not_transport (evs : list event) :
  Forall is_log evs -> Forall (fun ev => ~ is_transport ev) evs.
Proof. intros H. eapply Forall_impl; [exact H|]. intros [] ? ?; cbn in *; done. Qed.

(** X13: in debug mode neither print handler opens, writes to or
    disposes of the transport.  A dictionary returned without an error
    field is success true together with, under "data", the text of the
    raster data that create_label produced for the rendered picture; the
    events are those of the rendering followed by that one raster
    creation, and the files are those left by the rendering with the
    picture saved as sample-out.png. *)
Theorem debug_mode_skips_transport (r : request) (w : world) :
  DEBUG (w_globals w) = true ->
  let model := MODEL (PRINTER_SECTION (CONFIG (w_globals w))) in
  let text_run :=
    print_text label_type_specs py_int py_float py_repr truetype multiline_textsize
      new_raster create_label py_str_bytes r w in
  let grocy_run :=
    print_grocy label_type_specs py_int py_float py_repr truetype dmtx_encode
      code128_png textwrap_fill new_raster create_label py_str_bytes environ r w in
  let parsed :=
    get_label_context label_type_specs py_int py_float py_repr
      (CONFIG (w_globals w)) (FONTS (w_globals w)) r in
  let quiet (run : run return_dict) : Prop :=
    Forall (fun ev => ~ is_transport ev) (events run) in
  let dry (run : run return_dict) (c : context) (picture : image)
      (rendered : world) (logged : list event) (d : return_dict) : Prop :=
    exists (rot : rotate_arg) (data : bytes),
      let red := py_contains "red" (label_size c) in
      choose_rotate c = Some rot
      /\ create_label model (Some picture) (label_size c) red (threshold c) true rot
         = Ret data
      /\ d = <["data" := PyStr (py_str_bytes data)]> {[ "success" := PyBool true ]}
      /\ events run
         = (logged ++ [RasterCreate model (Some picture) (label_size c) red
                         (threshold c) true rot])%list
      /\ w_files (world_after run)
         = <["sample-out.png" := picture]> (w_files rendered) in
  (quiet text_run /\ quiet grocy_run)
  /\ (forall d : return_dict,
        result text_run = Ret d -> d !! "error" = None ->
        exists (c : context) (picture : image),
          parsed = Ret c
          /\ create_label_im truetype multiline_textsize c = Ret picture
          /\ dry text_run c picture w [] d)
  /\ (forall d : return_dict,
        result grocy_run = Ret d -> d !! "error" = None ->
        exists (c : context) (picture : image),
          let rendering :=
            grocy_image truetype dmtx_encode code128_png textwrap_fill environ c w in
          parsed = Ret c
          /\ result rendering = Ret (Some picture)
          /\ dry grocy_run c picture (world_after rendering) (events rendering) d).
Proof.
  intros Hdebug model text_run grocy_run parsed quiet dry.
  split; [|split].
  - subst quiet. cbv beta.
    by_print_handlers_cases r w text_run grocy_run.
    1,3: by apply log_is_not_transport.
    all: rewrite <- Hw1 in Hdebug;
      destruct (print_label_debug c0 im0 {[ "success" := PyBool false ]} w1 Hdebug)
        as [Hdry _];
      rewrite Hev; apply Forall_app; split; [by apply log_is_not_transport | done].
  - intros d Hd Herr. subst text_run parsed dry model. cbv beta zeta.
    rewrite print_text_run in Hd |- *.
    destruct (get_label_context _ _ _ _ _ _ _) as [c|e0];
      [|by destruct (is_LookupError e0)].
    destruct (text c).
    2: { injection Hd as <-. rewrite lookup_insert_eq in Herr. discriminate. }
    destruct (create_label_im _ _ c) as [picture|e0] eqn:Him; [|done].
    destruct (print_label_debug c (Some picture) {[ "success" := PyBool false ]} w
                Hdebug) as [_ Hret].
    destruct (Hret d Hd) as (data & p & rot & [= <-] & Hrot & Hdata & -> & Hev & Hfiles).
    exists c, picture. split; [done|]. split; [done|].
    exists rot, data. rewrite insert_singleton_eq. by repeat split.
  - intros d Hd Herr. subst grocy_run parsed dry model. cbv beta zeta.
    rewrite print_grocy_run in Hd |- *.
    destruct (get_label_context _ _ _ _ _ _ _) as [c|e0];
      [|by destruct (is_LookupError e0)].
    destruct (_ && _).
    { injection Hd as <-. unfold grocy_validation_error in Herr.
      rewrite lookup_insert_eq in Herr. discriminate. }
    destruct (grocy_image_respects truetype dmtx_encode code128_png textwrap_fill
                environ c w) as [Hg _].
    unfold and_then in Hd |- *.
    destruct (result (grocy_image _ _ _ _ _ _ _)) as [im|e0] eqn:Him; [|done].
    cbn [result world_after events] in Hd |- *.
    rewrite <- Hg in Hdebug.
    destruct (print_label_debug c im {[ "success" := PyBool false ]} _ Hdebug)
      as [_ Hret].
    destruct (Hret d Hd) as (data & p & rot & -> & Hrot & Hdata & -> & Hev & Hfiles).
    exists c, p. split; [done|]. split; [done|].
    rewrite Hg in Hdata, Hev.
    exists rot, data. rewrite insert_singleton_eq, Hev, Hfiles. by repeat split.
Qed.

(** X14: outside debug mode, a print handler that returns success true
    returns exactly that one field, and its events are log lines at most,
    then one raster creation, the opening of the transport, one write and
    the dispose; what was written is the data the driver produced for
    that raster, and the write returned. *)
Theorem success_means_written (r : request) (w : world) (d : return_dict) :
  DEBUG (w_globals w) = false ->
  let text_run :=
    print_text label_type_specs py_int py_float py_repr truetype multiline_textsize
      new_raster create_label py_str_bytes r w in
  let grocy_run :=
    print_grocy label_type_specs py_int py_float py_repr truetype dmtx_encode
      code128_png textwrap_fill new_raster create_label py_str_bytes environ r w in
  let printed (run : run return_dict) : Prop :=
    result run = Ret d -> d !! "success" = Some (PyBool true) ->
    d = {[ "success" := PyBool true ]}
    /\ exists (pre : list event) (im : option image) (ls : string) (red : bool)
              (th : Z) (rot : rotate_arg) (data : bytes),
         let model := MODEL (PRINTER_SECTION (CONFIG (w_globals w))) in
         Forall is_log pre
         /\ events run
            = (pre ++ [RasterCreate model im ls red th true rot;
                       BackendOpen (PRINTER (PRINTER_SECTION (CONFIG (w_globals w))));
                       BackendWrite data; BackendDispose])%list
         /\ create_label model im ls red th true rot = Ret data
         /\ be_write (BACKEND_CLASS (w_globals w)) data = Ret tt in
  printed text_run /\ printed grocy_run.
Proof.
  intros Hdebug text_run grocy_run printed. subst printed. cbv beta.
  by_print_handlers_cases r w text_run grocy_run.
  1,3: intros Hd Hs; destruct (Hearly d Hd) as [_ Hfalse]; congruence.
  all: rewrite <- Hw1 in Hdebug; rewrite Hres, Hev; intros Hd Hs;
    destruct (print_label_success c0 im0 w1 d Hdebug Hd Hs)
      as (-> & ls & red & th & rot & data & Hevents & Hcreate & Hwrite);
    split; [done|]; exists pre, im0, ls, red, th, rot, data; cbv zeta;
    rewrite Hw1 in *; by rewrite Hevents.
Qed.

(** X15: when the constructor of the transport raises an instance [e]
    of Exception, a print handler that got as far as opening it returns
    the dictionary with success false and message [str(e)], logs the
    warning and has written nothing. *)
Theorem backend_open_failure_reported (r : request) (w : world) (e : exn) :
  let printer := PRINTER (PRINTER_SECTION (CONFIG (w_globals w))) in
  let text_run :=
    print_text label_type_specs py_int py_float py_repr truetype multiline_textsize
      new_raster create_label py_str_bytes r w in
  let grocy_run :=
    print_grocy label_type_specs py_int py_float py_repr truetype dmtx_encode
      code128_png textwrap_fill new_raster create_label py_str_bytes environ r w in
  be_init (BACKEND_CLASS (w_globals w)) printer = Raise e ->
  is_Exception e = true ->
  let reported (run : run return_dict) : Prop :=
    BackendOpen printer ∈ events run ->
    result run = Ret (transport_error e)
    /\ count_writes (events run) = 0%nat
    /\ LogWarning ("Exception happened: " +:+ exn_str e) ∈ events run in
  reported text_run /\ reported grocy_run.
Proof.
  intros printer text_run grocy_run Hinit He reported. subst reported printer.
  cbv beta.
  by_print_handlers_cases r w text_run grocy_run.
  1,3: intros Hin; exfalso; eapply Forall_forall in Hlog; [|exact Hin]; done.
  all: rewrite Hev, Hres; intros Hin;
    apply elem_of_app in Hin as [Hin|Hin];
    [exfalso; eapply Forall_forall in Hpre; [|exact Hin]; done|];
    rewrite <- Hw1 in Hinit, Hin;
    destruct (print_label_open_failure c0 im0 {[ "success" := PyBool false ]} w1 e
                Hinit He Hin) as (Hret & Hcount & Hwarn);
    split; [done|]; split;
    [ by rewrite count_writes_app, count_writes_log, Hcount
    | apply elem_of_app; by right ].
Qed.

(** X16: for a label whose kind is none of endless, die-cut and round
    die-cut, no print handler creates a raster or touches the transport,
    and none reports success; once the picture is rendered and the raster
    object built, print_text raises UnboundLocalError, as [rotate] was
    never assigned. *)
Theorem other_label_kind_never_printed (r : request) (w : world) (c : context) :
  get_label_context label_type_specs py_int py_float py_repr
    (CONFIG (w_globals w)) (FONTS (w_globals w)) r = Ret c ->
  kind c = OTHER_LABEL_KIND ->
  let text_run :=
    print_text label_type_specs py_int py_float py_repr truetype multiline_textsize
      new_raster create_label py_str_bytes r w in
  let grocy_run :=
    print_grocy label_type_specs py_int py_float py_repr truetype dmtx_encode
      code128_png textwrap_fill new_raster create_label py_str_bytes environ r w in
  let stopped (run : run return_dict) : Prop :=
    Forall is_log (events run)
    /\ forall d : return_dict,
         result run = Ret d -> d !! "success" = Some (PyBool false) in
  (stopped text_run /\ stopped grocy_run)
  /\ (forall (t : string) (im : image),
        text c = Some t ->
        create_label_im truetype multiline_textsize c = Ret im ->
        new_raster (MODEL (PRINTER_SECTION (CONFIG (w_globals w)))) = Ret tt ->
        exists e : exn, result text_run = Raise e /\ exn_type e = UnboundLocalError).
Proof.
  intros Hctx Hkind text_run grocy_run stopped.
  assert (Hrot : choose_rotate c = None) by (unfold choose_rotate; by rewrite Hkind).
  split.
  - subst stopped. cbv beta.
    by_print_handlers_cases r w text_run grocy_run.
    1,3: split; [done|]; intros d Hd; by destruct (Hearly d Hd).
    all: assert (c0 = c) as -> by congruence;
      destruct (print_label_unbound_rotate c im0 {[ "success" := PyBool false ]} w1
                  Hrot) as (Hnone & [e He] & _);
      rewrite Hev, Hres, Hnone, He, app_nil_r; by split.
  - intros t im Ht Him Hraster. subst text_run. rewrite print_text_run, Hctx, Ht, Him.
    destruct (print_label_unbound_rotate c (Some im) {[ "success" := PyBool false ]} w
                Hrot) as (_ & _ & Hunbound).
    apply Hunbound; [done | by eexists].
Qed.

Lemma create_label_grocy_raises (c : context) (w : world) :
  let r := create_label_grocy truetype dmtx_encode textwrap_fill c w in
  events r = [] /\ exists e : exn, result r = Raise e.
Proof.
  intros r; subst r. unfold create_label_grocy. cbv zeta.
  rewrite run_bind_lift.
  destruct (grocycode c); [|split; [done | by eexists]].
  rewrite run_bind_lift.
  destruct (dmtx_encode _) as [[[encoded_width encoded_height] pixels]|];
    [|split; [done | by eexists]].
  rewrite run_bind_save, run_bind_lift.
  destruct (truetype _ 45); [|split; [done | by eexists]].
  rewrite run_bind_lift.
  destruct (truetype _ 35); [|split; [done | by eexists]].
  destruct (String.eqb (orientation c) "rotated"),
           (String.eqb (orientation c) "standard");
    cbn [orb]; rewrite run_bind_lift; cbv beta iota zeta;
    try rewrite run_bind_lift;
    try (destruct (grocy_text c); cbv beta iota zeta);
    split; done || by eexists.
Qed.

(** X17: unless the environment has Code128=1, print_grocy causes no
    event at all, and the only dictionary it can return is the
    validation error: create_label_grocy raises on every call, by its
    comparison of a method with a number at the latest. *)
Theorem datamatrix_label_never_printed (r : request) (w : world) :
  environ !! "Code128" <> Some "1" ->
  let run :=
    print_grocy label_type_specs py_int py_float py_repr truetype dmtx_encode
      code128_png textwrap_fill new_raster create_label py_str_bytes environ r w in
  events run = []
  /\ forall d : return_dict, result run = Ret d -> d = grocy_validation_error.
Proof.
  intros Henv run. subst run. rewrite print_grocy_run.
  destruct (get_label_context _ _ _ _ _ _ _) as [c|e0];
    [|destruct (is_LookupError e0); by split].
  destruct (_ && _); [split; [done | by intros d [= <-]]|].
  unfold grocy_image.
  assert (Hcode : match environ !! "Code128" with
                  | Some v => negb (String.eqb v "") && String.eqb v "1"
                  | None => false
                  end = false).
  { destruct (environ !! "Code128") as [v|]; [|done].
    destruct (String.eqb_spec v "1") as [->|]; [done|]. apply andb_false_r. }
  rewrite Hcode. unfold and_then. rewrite run_bind. unfold and_then.
  destruct (create_label_grocy_raises c w) as [Hev [e He]].
  rewrite He. cbn [result events]. by rewrite Hev.
Qed.

(** X18: a request without font_family makes both print handlers and
    the preview raise AttributeError, with no event and the world
    unchanged; the handlers' except clause for LookupError does not
    apply. *)
Theorem missing_font_family_raises (r : request) (w : world) :
  params r !! "font_family" = None ->
  let raised {A : Type} : run A :=
    mkRun (Raise (mkExn AttributeError
                    "'NoneType' object has no attribute 'rpartition'")) w [] in
  print_text label_type_specs py_int py_float py_repr truetype multiline_textsize
    new_raster create_label py_str_bytes r w = raised
  /\ print_grocy label_type_specs py_int py_float py_repr truetype dmtx_encode
       code128_png textwrap_fill new_raster create_label py_str_bytes environ r w
     = raised
  /\ get_preview_image label_type_specs py_int py_float py_repr truetype
       multiline_textsize png_encode r w = raised.
Proof.
  intros Hff raised. subst raised.
  rewrite print_text_run, print_grocy_run, get_preview_image_run.
  unfold get_label_context. rewrite Hff. done.
Qed.

(** X19: the preview leaves the world as it is, and its header is
    decided by the query string alone, whatever the posted form says:
    text/plain when return_format is "base64", image/png otherwise.
    When it returns, that header was set exactly once and the body is the
    PNG of the rendered picture, base64-encoded in the first case.  When
    it raises, either the context or the rendering raised and no header
    was set, or the header was already set and the PNG encoding raised. *)
Theorem preview_sets_one_header (r : request) (w : world) :
  let run :=
    get_preview_image label_type_specs py_int py_float py_repr truetype
      multiline_textsize png_encode r w in
  let parsed :=
    get_label_context label_type_specs py_int py_float py_repr
      (CONFIG (w_globals w)) (FONTS (w_globals w)) r in
  let base64 := bool_decide (query r !! "return_format" = Some "base64") in
  let header :=
    SetHeader "Content-type" (if base64 then "text/plain" else "image/png") in
  world_after run = w
  /\ match result run with
     | Ret body =>
         events run = [header]
         /\ exists (c : context) (im : image) (png : bytes),
              parsed = Ret c
              /\ create_label_im truetype multiline_textsize c = Ret im
              /\ png_encode im = Ret png
              /\ body = (if base64 then b64encode png else png)
     | Raise e =>
         (events run = []
          /\ (parsed = Raise e
              \/ exists c : context,
                   parsed = Ret c
                   /\ create_label_im truetype multiline_textsize c = Raise e))
         \/ (events run = [header]
             /\ exists (c : context) (im : image),
                  parsed = Ret c
                  /\ create_label_im truetype multiline_textsize c = Ret im
                  /\ png_encode im = Raise e)
     end.
Proof.
  intros run parsed base64 header. subst run parsed base64 header.
  rewrite get_preview_image_run.
  destruct (get_label_context _ _ _ _ _ _ _) as [c|e0] eqn:Hc.
  2: { split; [done|]. left. split; [done|]. by left. }
  destruct (create_label_im _ _ c) as [im|e0] eqn:Him.
  2: { split; [done|]. left. split; [done|]. right. by exists c. }
  cbv zeta.
  assert (Hfmt : String.eqb (default "png" (query r !! "return_format")) "base64"
                 = bool_decide (query r !! "return_format" = Some "base64")).
  { destruct (query r !! "return_format") as [fmt|]; cbn [default from_option id].
    - destruct (String.eqb_spec fmt "base64") as [->|Hne].
      + by rewrite bool_decide_eq_true_2.
      + rewrite bool_decide_eq_false_2; [done | congruence].
    - by rewrite bool_decide_eq_false_2. }
  rewrite Hfmt.
  destruct (png_encode im) as [png|e0] eqn:Hpng; cbn [result world_after events].
  - split; [done|]. split; [done|]. by exists c, im, png.
  - split; [done|]. right. split; [done|]. by exists c, im.
Qed.

End PrintHandlerFacts.

Lemma string_le_total : Total string_le.
Proof.
  intros a b. unfold string_le.
  destruct (String.leb_total a b) as [H|H]; [left | right]; by rewrite H.
Qed.

(** X20: the label designer page gets the font families of FONTS, each
    once and in ascending order, together with FONTS, LABEL_SIZES and the
    WEBSITE and LABEL sections of CONFIG as they are; it has no effect. *)
Theorem labeldesigner_lists_sorted_families (w : world) :
  let run := labeldesigner w in
  exists v : designer_view,
    result run = Ret v /\ world_after run = w /\ events run = []
    /\ Sorted string_le (view_font_family_names v)
    /\ NoDup (view_font_family_names v)
    /\ (forall family : string,
          family ∈ view_font_family_names v <-> is_Some (FONTS (w_globals w) !! family))
    /\ view_fonts v = FONTS (w_globals w)
    /\ view_label_sizes v = LABEL_SIZES (w_globals w)
    /\ view_website v = WEBSITE (CONFIG (w_globals w))
    /\ view_label v = LABEL (CONFIG (w_globals w)).
Proof.
  intros run. subst run. unfold labeldesigner. rewrite run_bind_get.
  eexists. split; [reflexivity|]. cbn [world_after events view_font_family_names
    view_fonts view_label_sizes view_website view_label mret M_ret].
  split; [done|]. split; [done|]. unfold py_sorted.
  split; [apply Sorted_merge_sort, string_le_total|].
  split.
  { rewrite merge_sort_Permutation. apply NoDup_fst_map_to_list. }
  split; [|done].
  intros family. rewrite merge_sort_Permutation, list_elem_of_fmap. split.
  - intros ([k v] & -> & Hin). apply elem_of_map_to_list in Hin. by eexists.
  - intros [v Hv]. exists (family, v). split; [done|]. by apply elem_of_map_to_list.
Qed.

(** ** main: start-up *)

Lemma first_available_spec (FONTS : fonts) (candidates : list (string * string)) :
  match first_available FONTS candidates with
  | Some (family, style) =>
      exists (before after : list (string * string)),
        candidates = (before ++ (family, style) :: after)%list
        /\ is_Some (font_file_of FONTS family style)
        /\ Forall (unavailable FONTS) before
  | None => Forall (unavailable FONTS) candidates
  end.
Proof.
  induction candidates as [|[family style] rest IH]; [by constructor|].
  cbn [first_available].
  destruct (font_file_of FONTS family style) as [path|] eqn:Hpath.
  - exists [], rest. by repeat split.
  - destruct (first_available FONTS rest) as [[f s]|].
    + destruct IH as (before & after & -> & Hsome & Hnone).
      exists ((family, style) :: before), after. split; [done|]. split; [done|].
      by constructor.
    + by constructor.
Qed.

Lemma debug_iff_loglevel_10 (a : args) (cfg : config) :
  set_DEBUG (main_settings a cfg) = true
  <-> set_LOGLEVEL (main_settings a cfg) = PyInt 10.
Proof.
  unfold main_settings. cbn [set_DEBUG set_LOGLEVEL].
  destruct (if truthy (arg_loglevel a) then _ else _) as [|b|z|level]; cbn; try done.
  - by destruct b.
  - destruct (Z.eqb_spec z 10) as [->|]; [done|]. split; [done|]. congruence.
Qed.

Section MainFacts.
Context (guess_backend : pyval -> outcome string)
  (backend_factory : string -> outcome backend_class)
  (label_sizes : list string)
  (basicConfig : pyval -> outcome unit)
  (get_fonts : option pyval -> outcome fonts)
  (py_repr : string -> string).

(** X22: from a list of candidate default fonts main selects the first
    one the registry has, and get_font_path called without names then
    resolves to its file; when the registry has none of them the list is
    left in place. *)
Theorem default_font_is_first_available (FONTS : fonts)
    (candidates : list (string * string)) (cfg : config) :
  exists chosen : default_fonts,
    select_default_font FONTS (DefaultFontList candidates) = Ret chosen
    /\ ((Forall (unavailable FONTS) candidates
         /\ chosen = DefaultFontList candidates)
        \/ (exists (family style path : string)
                   (before after : list (string * string)),
              chosen = DefaultFont family style
              /\ candidates = (before ++ (family, style) :: after)%list
              /\ Forall (unavailable FONTS) before
              /\ get_font_path (with_default_fonts chosen cfg) FONTS None None
                 = Ret path
              /\ font_file_of FONTS family style = Some path)).
Proof.
  eexists. split; [reflexivity|].
  pose proof (first_available_spec FONTS candidates) as H.
  destruct (first_available FONTS candidates) as [[family style]|].
  - right. destruct H as (before & after & -> & [path Hpath] & Hnone).
    exists family, style, path, before, after. repeat split; try done.
    unfold get_font_path. cbn. unfold font_file_of in Hpath.
    destruct (FONTS !! family) as [styles|]; [|done]. cbn in Hpath.
    by rewrite Hpath.
  - left. by split.
Qed.

(** X23: main never chooses a default font at random: its result does
    not depend on random.choice, as DEFAULT_FONTS is never None after the
    selection loop. *)
Theorem random_default_font_is_dead
    (choice1 choice2 : list string -> outcome string)
    (a : args) (cfg : config) (sizes : list (string * string)) :
  main guess_backend backend_factory label_sizes basicConfig get_fonts choice1
    py_repr a cfg sizes
  = main guess_backend backend_factory label_sizes basicConfig get_fonts choice2
      py_repr a cfg sizes.
Proof.
  unfold main. cbv zeta.
  destruct (basicConfig _); [|done]. cbn [mbind outcome_bind].
  destruct (match guess_backend _ with Ret _ => _ | Raise _ => _ end); [|done].
  cbn [mbind outcome_bind].
  destruct (backend_factory _); [|done]. cbn [mbind outcome_bind].
  destruct (if in_label_sizes _ _ then _ else _); [|done]. cbn [mbind outcome_bind].
  destruct (get_fonts None); [|done]. cbn [mbind outcome_bind].
  destruct (if truthy _ then _ else _) as [FONTS|]; [|done]. cbn [mbind outcome_bind].
  destruct (if bool_decide _ then _ else _); [|done]. cbn [mbind outcome_bind].
  destruct (DEFAULT_FONTS _) as [l| |]; cbn [select_default_font mbind outcome_bind];
    [|done|done].
  by destruct (first_available FONTS l) as [[]|].
Qed.

(** X24: when main gets as far as starting the server, the default
    label size is one of the driver's label sizes, FONTS is not empty,
    DEFAULT_FONTS is not null, the transport class is the one guessed
    from the effective printer descriptor, LABEL_SIZES is untouched, and
    the debug flag is set exactly for log level 10. *)
Theorem main_serves_only_when_checked
    (random_choice : list string -> outcome string)
    (a : args) (cfg : config) (sizes : list (string * string)) (srv : server) :
  main guess_backend backend_factory label_sizes basicConfig get_fonts random_choice
    py_repr a cfg sizes = Ret srv ->
  let s := main_settings a cfg in
  let g := srv_globals srv in
  (exists size : string,
     DEFAULT_SIZE (LABEL (CONFIG g)) = PyStr size /\ size ∈ label_sizes)
  /\ FONTS g <> ∅
  /\ DEFAULT_FONTS (LABEL (CONFIG g)) <> DefaultFontNull
  /\ (exists name : string,
        guess_backend (PRINTER (PRINTER_SECTION (CONFIG g))) = Ret name
        /\ backend_factory name = Ret (BACKEND_CLASS g))
  /\ PRINTER_SECTION (CONFIG g) = PRINTER_SECTION (set_CONFIG s)
  /\ LABEL_SIZES g = sizes
  /\ DEBUG g = srv_debug srv
  /\ (srv_debug srv = true <-> set_LOGLEVEL s = PyInt 10)
  /\ srv_port srv = set_PORT s.
Proof.
  intros H s g. subst g.
  pose proof (debug_iff_loglevel_10 a cfg) as Hdebug. fold s in Hdebug.
  unfold main in H. fold s in H. clearbody s. cbv zeta in H.
  unfold exit_2 in H. do 9 invert_bind H.
  injection H as <-.
  cbn [srv_globals srv_debug srv_port CONFIG FONTS LABEL_SIZES DEBUG
       BACKEND_CLASS with_default_fonts LABEL DEFAULT_SIZE DEFAULT_FONTS
       PRINTER_SECTION].
  split.
  { unfold in_label_sizes in Hstep2.
    destruct (DEFAULT_SIZE _) as [| | |size]; try done.
    destruct (bool_decide (size ∈ label_sizes)) eqn:Hin; [|done].
    apply bool_decide_eq_true in Hin. by exists size. }
  split.
  { destruct (bool_decide (a5 = ∅)) eqn:Hempty; [done|].
    by apply bool_decide_eq_false in Hempty. }
  split.
  { destruct a7; [by injection Hstep7 as <- | by injection Hstep7 as <- |].
    do 3 invert_bind Hstep7. by injection Hstep7 as <-. }
  split.
  { exists a1. split; [|done].
    destruct (guess_backend _) as [name|e]; [done|]. by destruct (is_ValueError e). }
  done.
Qed.

(** X25: once logging is configured, main exits with status 2 when no
    backend can be guessed for the printer descriptor (ValueError), when
    the default label size is not one of the driver's, and when no font
    is found. *)
Theorem main_exits_with_status_2
    (random_choice : list string -> outcome string)
    (a : args) (cfg : config) (sizes : list (string * string)) :
  let s := main_settings a cfg in
  let started :=
    main guess_backend backend_factory label_sizes basicConfig get_fonts
      random_choice py_repr a cfg sizes in
  basicConfig (set_LOGLEVEL s) = Ret tt ->
  (forall e : exn,
     guess_backend (PRINTER (PRINTER_SECTION (set_CONFIG s))) = Raise e ->
     is_ValueError e = true -> started = exit_2)
  /\ (forall (name : string) (backend : backend_class),
        guess_backend (PRINTER (PRINTER_SECTION (set_CONFIG s))) = Ret name ->
        backend_factory name = Ret backend ->
        (in_label_sizes label_sizes (DEFAULT_SIZE (LABEL (set_CONFIG s))) = false ->
         started = exit_2)
        /\ (in_label_sizes label_sizes (DEFAULT_SIZE (LABEL (set_CONFIG s))) = true ->
            get_fonts None = Ret ∅ ->
            truthy (set_ADDITIONAL_FONT_FOLDER s) = false ->
            started = exit_2)).
Proof.
  intros s started Hlog. subst started. unfold main. fold s. clearbody s. cbv zeta.
  rewrite Hlog. cbn [mbind outcome_bind]. split.
  - intros e -> ->. done.
  - intros name backend Hguess Hfactory. rewrite Hguess. cbn [mbind outcome_bind].
    rewrite Hfactory. cbn [mbind outcome_bind]. split.
    + by intros ->.
    + intros -> Hfonts Hfolder. cbn [mbind outcome_bind].
      rewrite Hfonts. cbn [mbind outcome_bind]. rewrite Hfolder.
      cbn [mbind outcome_bind]. by rewrite bool_decide_eq_true_2.
Qed.

End MainFacts.

(** X21: once main has applied the command line, DEBUG is True when
    the effective log level is the integer 10, and False when it is any
    other integer, a string, a boolean or null; so a level given by name
    in the configuration file never switches it on.  The font folder
    comes from the command line when supplied non-empty and from CONFIG
    otherwise, and applying the command line a second time changes
    nothing. *)
Theorem debug_only_for_numeric_loglevel (a : args) (cfg : config) :
  let s := main_settings a cfg in
  (set_LOGLEVEL s = PyInt 10 -> set_DEBUG s = true)
  /\ (forall level : Z,
        level <> 10 -> set_LOGLEVEL s = PyInt level -> set_DEBUG s = false)
  /\ (forall name : string, set_LOGLEVEL s = PyStr name -> set_DEBUG s = false)
  /\ (forall b : bool, set_LOGLEVEL s = PyBool b -> set_DEBUG s = false)
  /\ (set_LOGLEVEL s = PyNone -> set_DEBUG s = false)
  /\ (forall name : string,
        truthy (arg_loglevel a) = false -> LOGLEVEL (SERVER cfg) = PyStr name ->
        set_DEBUG s = false)
  /\ set_ADDITIONAL_FONT_FOLDER s
     = (if truthy (arg_font_folder a) then arg_font_folder a
        else ADDITIONAL_FONT_FOLDER (SERVER cfg))
  /\ set_CONFIG (main_settings a (set_CONFIG s)) = set_CONFIG s.
Proof.
  intros s.
  assert (Hdebug : set_DEBUG s = py_eq_int (set_LOGLEVEL s) 10) by reflexivity.
  assert (Hlevel : set_LOGLEVEL s
                   = if truthy (arg_loglevel a) then arg_loglevel a
                     else LOGLEVEL (SERVER cfg)).
  { subst s. unfold main_settings. cbn [set_LOGLEVEL].
    by destruct (truthy (arg_printer a)). }
  split; [by intros Hl; rewrite Hdebug, Hl|].
  split.
  { intros level Hne Hl. rewrite Hdebug, Hl. cbn. by apply Z.eqb_neq. }
  split; [by intros name Hl; rewrite Hdebug, Hl|].
  split; [by intros [] Hl; rewrite Hdebug, Hl|].
  split; [by intros Hl; rewrite Hdebug, Hl|].
  split.
  { intros name Hfalse Hname. rewrite Hdebug, Hlevel, Hfalse, Hname. done. }
  clear Hdebug Hlevel. subst s. unfold main_settings.
  cbn [set_ADDITIONAL_FONT_FOLDER set_CONFIG]. split.
  - by destruct (truthy (arg_default_orientation a)),
      (truthy (arg_default_label_size a)), (truthy (arg_model a)),
      (truthy (arg_printer a)).
  - by destruct (truthy (arg_default_orientation a)),
      (truthy (arg_default_label_size a)), (truthy (arg_model a)),
      (truthy (arg_printer a)).
Qed.

(** X26: LABEL_SIZES pairs every name of label_sizes, in order, with
    the display name the label table gives it; building it raises
    KeyError exactly for a name the table lacks. *)
Theorem label_sizes_follow_the_table (label_type_specs : gmap string label_spec)
    (py_repr : string -> string) (names : list string) :
  (forall listed : list (string * string),
     initial_LABEL_SIZES label_type_specs py_repr names = Ret listed <->
     Forall2 (fun name entry =>
                entry.1 = name
                /\ exists spec : label_spec,
                     label_type_specs !! name = Some spec /\ entry.2 = ls_name spec)
       names listed)
  /\ (forall e : exn,
        initial_LABEL_SIZES label_type_specs py_repr names = Raise e ->
        exists name : string,
          name ∈ names /\ label_type_specs !! name = None
          /\ e = mkExn KeyError (py_repr name)).
Proof.
  unfold initial_LABEL_SIZES. induction names as [|name names [IHret IHraise]].
  - split.
    + intros listed. cbn. split.
      * intros [= <-]. constructor.
      * intros H. by apply Forall2_nil_inv_l in H as ->.
    + intros e. cbn. done.
  - cbn [mapM]. split.
    + intros listed. split.
      * intros H. invert_bind H. invert_bind H. injection H as <-.
        constructor; [|by apply IHret].
        destruct (label_type_specs !! name) as [spec|]; [|done].
        injection Hstep as <-. split; [done|]. by exists spec.
      * intros H. apply Forall2_cons_inv_l in H
          as ([n d] & rest & [Hn (spec & Hspec & Hd)] & Hrest & ->).
        cbn in Hn, Hd. subst n d. rewrite Hspec. cbn [mbind outcome_bind].
        apply IHret in Hrest. rewrite Hrest. done.
    + intros e H. invert_raise H.
      * exists name. split; [apply elem_of_cons; by left|].
        destruct (label_type_specs !! name); [done|]. by injection H as <-.
      * invert_raise H; [|done].
        destruct (IHraise e H) as (n & Hin & Hnone & ->).
        exists n. split; [apply elem_of_cons; by right | done].
Qed.

(** ** Examples for the further properties *)

Lemma lookup_errors_of_get_label_context_witness :
  let e := mkExn LookupError "Couln't find the font & style" in
  let size := default "50" (params unknown_font_request !! "label_size") in
  sample_context unknown_font_request = Raise e
  /\ ((e = mkExn KeyError (sample_repr size) /\ sample_label_type_specs !! size = None)
      \/ (e = mkExn LookupError "Couln't find the font & style"
          /\ is_Some (sample_label_type_specs !! size))).
Proof.
  intros e size. split; [vm_compute; reflexivity|].
  apply (lookup_errors_of_get_label_context sample_label_type_specs sample_int
           sample_float sample_repr sample_config sample_fonts unknown_font_request e).
  - vm_compute. reflexivity.
  - reflexivity.
Defined.

Lemma unknown_label_size_raises_key_error_witness :
  let r := mkRequest ∅ {[ "font_family" := "Comic Sans (Regular)";
                          "label_size" := "99" ]} in
  sample_context r
  = Raise (mkExn KeyError (sample_repr (default "50" (params r !! "label_size")))).
Proof.
  intros r.
  apply (unknown_label_size_raises_key_error sample_label_type_specs sample_int
           sample_float sample_repr sample_config sample_fonts r
           "Comic Sans (Regular)" 40).
  - vm_compute. reflexivity.
  - vm_compute. reflexivity.
  - vm_compute. reflexivity.
Defined.

Lemma context_dimensions_from_table_witness :
  let r := set_form_field "label_size" "29x90" text_request in
  exists c : context,
    sample_context r = Ret c
    /\ exists spec : label_spec,
         sample_label_type_specs !! label_size c = Some spec
         /\ kind c = ls_kind spec
         /\ (width c, height c)
            = (let long := Z.max (ls_dots_printable spec).1 (ls_dots_printable spec).2 in
               let short := Z.min (ls_dots_printable spec).1 (ls_dots_printable spec).2 in
               if String.eqb (orientation c) "rotated"
               then (short, long) else (long, short)).
Proof.
  intros r. eexists. split; [vm_compute; reflexivity|].
  apply (context_dimensions_from_table sample_label_type_specs sample_int
           sample_float sample_repr sample_config sample_fonts r).
  vm_compute. reflexivity.
Defined.

Lemma drawn_text_has_no_empty_line_witness :
  exists im : image,
    create_label_im sample_truetype sample_textsize die_cut_context = Ret im
    /\ exists (base : image) (offset : Z * Z) (drawn : string) (fnt : font),
         im = TextDrawn base offset drawn (fill_color die_cut_context) fnt
                (Some (align die_cut_context))
         /\ py_split LF drawn = fill_empty_line <$> py_split LF two_paragraphs
         /\ Forall (fun line => line <> "") (py_split LF drawn)
         /\ (Forall (fun line => line <> "") (py_split LF two_paragraphs) ->
             drawn = two_paragraphs).
Proof.
  eexists. split; [vm_compute; reflexivity|].
  apply (drawn_text_has_no_empty_line sample_truetype sample_textsize die_cut_context
           two_paragraphs).
  - reflexivity.
  - vm_compute. reflexivity.
Defined.

Lemma standard_label_geometry_witness :
  exists (im : image) (fnt : font) (drawn : string) (x y w h : Z),
    create_label_im sample_truetype sample_textsize flour_context = Ret im
    /\ im = TextDrawn (NewImage "RGB" (w, h)) (x, y) drawn (fill_color flour_context)
              fnt (Some (align flour_context))
    /\ w = 696 /\ 0 <= x /\ y = 10
    /\ h = 10 + (sample_textsize fnt drawn).2 + 10.
Proof.
  destruct (create_label_im sample_truetype sample_textsize flour_context)
    as [im|e] eqn:Him; [|vm_compute in Him; discriminate].
  destruct (standard_label_geometry sample_truetype sample_textsize flour_context im)
    as (fnt & drawn & x & y & w & h & Heq & _ & Hw & _ & Hx & _ & Hendless & _).
  - reflexivity.
  - exact Him.
  - destruct (Hendless eq_refl) as [Hy Hh].
    exists im, fnt, drawn, x, y, w, h.
    split; [reflexivity|]. split; [exact Heq|].
    split; [exact Hw|]. split; [exact Hx|]. split; [exact Hy | exact Hh].
Defined.

Lemma rotated_label_geometry_witness :
  exists (im : image) (fnt : font) (drawn : string) (x y w h : Z),
    create_label_im sample_truetype sample_textsize die_cut_context = Ret im
    /\ im = TextDrawn (NewImage "RGB" (w, h)) (x, y) drawn
              (fill_color die_cut_context) fnt (Some (align die_cut_context))
    /\ h = 991 /\ w = 306 /\ 0 <= x
    /\ 2 * y <= h - (sample_textsize fnt drawn).2 <= 2 * y + 1.
Proof.
  destruct (create_label_im sample_truetype sample_textsize die_cut_context)
    as [im|e] eqn:Him; [|vm_compute in Him; discriminate].
  destruct (rotated_label_geometry sample_truetype sample_textsize die_cut_context im)
    as (fnt & drawn & x & y & w & h & Heq & _ & Hh & Hcentre & _ & Hw & Hx).
  - reflexivity.
  - exact Him.
  - exists im, fnt, drawn, x, y, w, h.
    split; [reflexivity|]. split; [exact Heq|]. split; [exact Hh|].
    split; [apply Hw; discriminate|].
    split; [apply Hx; by left|]. apply Hcentre. reflexivity.
Defined.

Lemma create_label_im_returns_iff_witness :
  exists im : image,
    create_label_im sample_truetype sample_textsize flour_context = Ret im.
Proof.
  apply (proj1 (create_label_im_returns_iff sample_truetype sample_textsize
                  flour_context)).
  split; [by eexists|]. split; [by eexists|]. by left.
Defined.

Lemma grocy_1d_canvas_witness :
  exists im : image,
    result (create_label_grocy_1d sample_truetype sample_code128 grocy_context
              (sample_world working_backend)) = Ret (Some im)
    /\ canvas im = NewImage "RGB" (696, 168).
Proof.
  eexists. split; [vm_compute; reflexivity|].
  apply (grocy_1d_canvas sample_truetype sample_code128 grocy_context
           (sample_world working_backend)).
  vm_compute. reflexivity.
Defined.

Lemma debug_mode_skips_transport_witness :
  let text_run := sample_print_text print_request debug_world in
  Forall (fun ev => ~ is_transport ev) (events text_run)
  /\ result text_run
     = Ret (<["data" := PyStr (sample_str_bytes raster_data)]>
              {[ "success" := PyBool true ]})
  /\ exists picture : image,
       create_label_im sample_truetype sample_textsize flour_context = Ret picture
       /\ w_files (world_after text_run) = {[ "sample-out.png" := picture ]}.
Proof.
  intros text_run.
  destruct (debug_mode_skips_transport sample_label_type_specs sample_int
              sample_float sample_repr sample_truetype sample_textsize sample_dmtx
              sample_code128 sample_fill sample_new_raster sample_create_label
              sample_str_bytes code128_environ print_request debug_world eq_refl)
    as [[Hquiet _] [Htext _]].
  assert (Hres : result text_run
                 = Ret (<["data" := PyStr (sample_str_bytes raster_data)]>
                          {[ "success" := PyBool true ]}))
    by (vm_compute; reflexivity).
  split; [exact Hquiet|]. split; [exact Hres|].
  destruct (Htext _ Hres) as (c & picture & Hc & Him & rot & data & _ & _ & _ & _ & Hfiles).
  { vm_compute. reflexivity. }
  vm_compute in Hc. injection Hc as <-.
  exists picture. split; [exact Him | exact Hfiles].
Defined.

Lemma success_means_written_witness :
  let w := sample_world working_backend in
  let text_run := sample_print_text print_request w in
  result text_run = Ret {[ "success" := PyBool true ]}
  /\ exists (pre : list event) (im : option image) (ls : string) (red : bool)
            (th : Z) (rot : rotate_arg) (data : bytes),
       Forall is_log pre
       /\ events text_run
          = (pre ++ [RasterCreate (PyStr "QL-500") im ls red th true rot;
                     BackendOpen (PyStr "file:///dev/usb/lp1");
                     BackendWrite data; BackendDispose])%list
       /\ sample_create_label (PyStr "QL-500") im ls red th true rot = Ret data
       /\ be_write working_backend data = Ret tt.
Proof.
  intros w text_run.
  assert (Hres : result text_run = Ret {[ "success" := PyBool true ]})
    by (vm_compute; reflexivity).
  split; [exact Hres|].
  destruct (success_means_written sample_label_type_specs sample_int
              sample_float sample_repr sample_truetype sample_textsize sample_dmtx
              sample_code128 sample_fill sample_new_raster sample_create_label
              sample_str_bytes code128_environ print_request w
              {[ "success" := PyBool true ]} eq_refl) as [Htext _].
  apply Htext; [exact Hres | vm_compute; reflexivity].
Defined.

Lemma backend_open_failure_reported_witness :
  let w := sample_world (unreachable_backend connection_refused) in
  let text_run := sample_print_text print_request w in
  BackendOpen (PyStr "file:///dev/usb/lp1") ∈ events text_run
  /\ result text_run = Ret (transport_error connection_refused)
  /\ count_writes (events text_run) = 0%nat
  /\ LogWarning ("Exception happened: " +:+ exn_str connection_refused)
       ∈ events text_run.
Proof.
  intros w text_run.
  assert (Hin : BackendOpen (PyStr "file:///dev/usb/lp1") ∈ events text_run)
    by list_member.
  split; [exact Hin|].
  destruct (backend_open_failure_reported sample_label_type_specs sample_int
              sample_float sample_repr sample_truetype sample_textsize sample_dmtx
              sample_code128 sample_fill sample_new_raster sample_create_label
              sample_str_bytes code128_environ print_request w connection_refused
              eq_refl eq_refl) as [Htext _].
  exact (Htext Hin).
Defined.

Lemma other_label_kind_never_printed_witness :
  let w := sample_world working_backend in
  let text_run :=
    print_text tape_label_type_specs sample_int sample_float sample_repr
      sample_truetype sample_textsize sample_new_raster sample_create_label
      sample_str_bytes tape_request w in
  exists c : context,
    get_label_context tape_label_type_specs sample_int sample_float sample_repr
      sample_config sample_fonts tape_request = Ret c
    /\ kind c = OTHER_LABEL_KIND
    /\ Forall is_log (events text_run)
    /\ exists e : exn, result text_run = Raise e /\ exn_type e = UnboundLocalError.
Proof.
  intros w text_run.
  destruct (get_label_context tape_label_type_specs sample_int sample_float
              sample_repr sample_config sample_fonts tape_request)
    as [c|e] eqn:Hc; [|vm_compute in Hc; discriminate].
  assert (Hkind : kind c = OTHER_LABEL_KIND).
  { vm_compute in Hc. by injection Hc as <-. }
  destruct (other_label_kind_never_printed tape_label_type_specs sample_int
              sample_float sample_repr sample_truetype sample_textsize sample_dmtx
              sample_code128 sample_fill sample_new_raster sample_create_label
              sample_str_bytes code128_environ tape_request w c Hc Hkind)
    as [[[Hlog _] _] Hunbound].
  exists c. split; [reflexivity|]. split; [exact Hkind|]. split; [exact Hlog|].
  vm_compute in Hc. injection Hc as <-.
  apply (Hunbound "Flour"
           (TextDrawn (NewImage "RGB" (70, 0)) (0, 10) "Flour" (0, 0, 0)
              (mkFont "/usr/share/fonts/DejaVuSerif.ttf" 40) (Some "center")));
    vm_compute; reflexivity.
Defined.

Lemma datamatrix_label_never_printed_witness :
  let run := sample_print_grocy ∅ grocy_request (sample_world working_backend) in
  events run = []
  /\ forall d : return_dict, result run = Ret d -> d = grocy_validation_error.
Proof.
  apply (datamatrix_label_never_printed sample_label_type_specs sample_int
           sample_float sample_repr sample_truetype sample_dmtx sample_code128
           sample_fill sample_new_raster sample_create_label sample_str_bytes ∅
           grocy_request (sample_world working_backend)).
  rewrite lookup_empty. discriminate.
Defined.

Lemma missing_font_family_raises_witness :
  let r := mkRequest ∅ {[ "text" := "Flour" ]} in
  let w := sample_world working_backend in
  result (sample_print_text r w)
  = Raise (mkExn AttributeError "'NoneType' object has no attribute 'rpartition'")
  /\ events (sample_print_text r w) = [].
Proof.
  intros r w.
  destruct (missing_font_family_raises sample_label_type_specs sample_int
              sample_float sample_repr sample_truetype sample_textsize sample_png
              sample_dmtx sample_code128 sample_fill sample_new_raster
              sample_create_label sample_str_bytes ∅ r w) as [Htext _].
  - vm_compute. reflexivity.
  - unfold sample_print_text. rewrite Htext. by split.
Defined.

Lemma debug_only_for_numeric_loglevel_witness :
  set_DEBUG (main_settings no_args sample_config) = false
  /\ set_DEBUG (main_settings args_all_supplied sample_config) = true.
Proof.
  destruct (debug_only_for_numeric_loglevel no_args sample_config)
    as (_ & _ & _ & _ & _ & Hname & _).
  destruct (debug_only_for_numeric_loglevel args_all_supplied sample_config)
    as (Hten & _).
  split.
  - apply (Hname "WARNING"); reflexivity.
  - apply Hten. reflexivity.
Defined.

Lemma main_serves_only_when_checked_witness :
  exists srv : server,
    sample_main no_args listed_fonts_config = Ret srv
    /\ DEFAULT_SIZE (LABEL (CONFIG (srv_globals srv))) = PyStr "62"
    /\ FONTS (srv_globals srv) <> ∅
    /\ DEFAULT_FONTS (LABEL (CONFIG (srv_globals srv))) <> DefaultFontNull
    /\ srv_debug srv = false.
Proof.
  destruct (sample_main no_args listed_fonts_config) as [srv|e] eqn:Hmain;
    [|vm_compute in Hmain; discriminate].
  destruct (main_serves_only_when_checked sample_guess_backend
              sample_backend_factory sample_label_sizes (fun _ => Ret tt)
              sample_get_fonts sample_repr sample_choice no_args
              listed_fonts_config _ srv Hmain)
    as (_ & Hfonts & Hdefault & _ & _ & _ & _ & _ & _).
  exists srv. split; [reflexivity|].
  split; [vm_compute in Hmain; by injection Hmain as <-|].
  split; [exact Hfonts|]. split; [exact Hdefault|].
  vm_compute in Hmain. by injection Hmain as <-.
Defined.

Lemma main_exits_with_status_2_witness :
  sample_main args_serial_printer sample_config = exit_2.
Proof.
  destruct (main_exits_with_status_2 sample_guess_backend sample_backend_factory
              sample_label_sizes (fun _ => Ret tt) sample_get_fonts sample_repr
              sample_choice args_serial_printer sample_config
              [("50", "50mm endless"); ("62", "62mm endless")] eq_refl)
    as [Hguess _].
  apply (Hguess (mkExn ValueError "Cannot guess backend for given identifier"));
    vm_compute; reflexivity.
Defined.

Lemma label_sizes_follow_the_table_witness :
  Forall2 (fun name entry =>
             entry.1 = name
             /\ exists spec : label_spec,
                  sample_label_type_specs !! name = Some spec
                  /\ entry.2 = ls_name spec)
    ["50"; "62"] [("50", "50mm endless"); ("62", "62mm endless")].
Proof.
  apply (proj1 (proj1 (label_sizes_follow_the_table sample_label_type_specs
                         sample_repr ["50"; "62"]) _)).
  vm_compute. reflexivity.
Defined.
